(** * Journal sync server: a model of [server.py] and its sync properties

    The server keeps five SQLite tables (clients, meta_sync, trackers,
    entries, sync_conflicts) and exposes the endpoints [sync_status],
    [register_client], [sync_full], [sync_delta], [sync_update],
    [resolve_conflict] and [get_unresolved_conflicts].  Each endpoint is
    embedded as a function over an explicit database state; the clock
    readings an endpoint takes ([get_utc_now], the seven-day cutoff date)
    are passed in as arguments.

    Conventions of the model:
    - a table with a primary key is a finite map from the key to the row;
      the ledger [sync_conflicts] (AUTOINCREMENT key, append only) is a
      list of rows in insertion order;
    - a nullable column is an [option];
    - a Python [dict] is an association list in insertion order; Python
      keeps the keys of a [dict] unique, and a statement that depends on
      it says so with [NoDup];
    - a JSON number is an integer: a payload holds no number with a
      fraction, and the floating-point number a REAL column returns for
      an integer is written as that integer ([5.0] as [JNum 5]); what
      the REAL column does to an integer (rounding to the nearest double
      above 2^53, refusal outside the 64-bit range) is modelled;
    - text is the string of its UTF-8 bytes: SQLite orders TEXT by
      bytes, Python slices it by characters;
    - version counters are far from 2^63: the overflow of
      [server_version + 1] is left out;
    - the text stored in [meta_json] / [client_data] is kept as the JSON
      object it serialises ([json.loads (json.dumps d) = d]);
    - a Python exception is the failure [ServerError]: in [sync_update] it
      is caught, rolled back and turned into HTTP 500, in
      [resolve_conflict] it leaves the handler before [commit];
    - inputs on which SQLite would convert a value under column affinity
      (a number bound to a TEXT column, a string bound to the REAL column)
      or a tracker id that is not a string are outside the model and
      yield the failure [Unmodelled]; the server commits such a request,
      so a statement about histories that depends on it is made for the
      histories without such a request ([modelled_from]). *)

From stdpp Require Import base option list gmap fin_maps strings sorting.
From Stdlib Require Import ZArith String Ascii.

Local Open Scope string_scope.
Local Open Scope list_scope.
Local Open Scope Z_scope.

(** ** Failures *)

Inductive failure := ServerError | Unmodelled.

Inductive result (A : Type) :=
| Ok (a : A)
| Err (f : failure).
Arguments Ok {A} a.
Arguments Err {A} f.

#[global] Instance result_ret : MRet result := λ A a, Ok a.
#[global] Instance result_bind : MBind result :=
  λ A B k m, match m with Ok a => k a | Err f => Err f end.

(** ** JSON values and Python dictionaries *)

#[local] Set Warnings "-register-all".

Inductive json :=
| JNull
| JBool (b : bool)
| JNum (z : Z)
| JStr (s : string)
| JArr (l : list json)
| JObj (l : list (string * json)).

(** [dict[str, A]], in insertion order. *)
Abbreviation pydict A := (list (string * A)) (only parsing).

(** [d.get(k)] *)
Fixpoint dict_get {A} (k : string) (d : pydict A) : option A :=
  match d with
  | [] => None
  | (k', v) :: d' => if String.eqb k k' then Some v else dict_get k d'
  end.

(** [d[k] = v]: an existing key keeps its position, a new key goes last. *)
Fixpoint dict_set {A} (k : string) (v : A) (d : pydict A) : pydict A :=
  match d with
  | [] => [(k, v)]
  | (k', v') :: d' =>
      if String.eqb k k' then (k, v) :: d' else (k', v') :: dict_set k v d'
  end.

(** [d.update(m)] *)
Definition dict_update {A} (d m : pydict A) : pydict A :=
  fold_left (λ acc kv, dict_set kv.1 kv.2 acc) m d.

(** [d.get(k, dflt)] *)
Definition dict_get_default (k : string) (dflt : json) (d : pydict json) : json :=
  default dflt (dict_get k d).

(** [d.get(k)] with Python's [None] for a missing key. *)
Definition dict_get_none (k : string) (d : pydict json) : json :=
  dict_get_default k JNull d.

(** Truth value of a JSON value in a Python condition. *)
Definition py_truthy (j : json) : bool :=
  match j with
  | JNull => false
  | JBool b => b
  | JNum z => negb (z =? 0)
  | JStr s => negb (String.eqb s "")
  | JArr l => match l with [] => false | _ => true end
  | JObj l => match l with [] => false | _ => true end
  end.

(** The values Python orders against an [int]: [int] and [bool]. *)
Definition as_int (j : json) : option Z :=
  match j with
  | JNum z => Some z
  | JBool b => Some (if b then 1 else 0)
  | _ => None
  end.

(** ** Binding parameters to columns *)

(** A parameter bound to a TEXT column. *)
Definition bind_text (j : json) : result (option string) :=
  match j with
  | JNull => Ok None
  | JStr s => Ok (Some s)
  | JBool _ | JNum _ => Err Unmodelled
  | JArr _ | JObj _ => Err ServerError
  end.

(** The double nearest to an integer, ties to even, as the integer it
    denotes: the C conversion [(double)i] SQLite applies when an integer
    goes into a REAL column.  Integers of at most 53 bits are kept. *)
Definition to_double (z : Z) : Z :=
  let a := Z.abs z in
  let e := Z.log2 a - 52 in
  if e <=? 0 then z
  else
    let q := Z.shiftr a e in
    let r := Z.land a (Z.ones e) in
    let half := Z.shiftl 1 (e - 1) in
    let q' := if (half <? r) || ((r =? half) && Z.odd q) then q + 1 else q in
    Z.sgn z * Z.shiftl q' e.

(** A parameter bound to the REAL column [entries.value].  A Python
    [int] is bound as a 64-bit integer ([OverflowError] outside that
    range) and stored as the nearest double; [True] and [False] are the
    integers 1 and 0. *)
Definition bind_real (j : json) : result (option Z) :=
  match j with
  | JNull => Ok None
  | JNum z =>
      if (- 2 ^ 63 <=? z) && (z <? 2 ^ 63) then Ok (Some (to_double z))
      else Err ServerError
  | JBool b => Ok (Some (if b then 1 else 0))
  | JStr _ => Err Unmodelled
  | JArr _ | JObj _ => Err ServerError
  end.

(** The tracker id of an item, [item.get("id")]. *)
Definition text_key (j : json) : result string :=
  match j with
  | JStr s => Ok s
  | JArr _ | JObj _ => Err ServerError
  | _ => Err Unmodelled
  end.

(** A TEXT column read back into a JSON value. *)
Definition text_json (c : option string) : json :=
  match c with Some s => JStr s | None => JNull end.

(** The REAL column read back: the stored double, or [None]. *)
Definition real_json (c : option Z) : json :=
  match c with Some z => JNum z | None => JNull end.

(** [bool(row["completed"]) if row["completed"] is not None else None] *)
Definition completed_json (c : option Z) : json :=
  match c with Some z => JBool (negb (z =? 0)) | None => JNull end.

(** [1 if completed else 0 if completed is not None else None] *)
Definition completed_int (completed : json) : option Z :=
  if py_truthy completed then Some 1
  else match completed with JNull => None | _ => Some 0 end.

(** [row["version"] or 1] *)
Definition version_or_1 (v : option Z) : Z :=
  match v with
  | Some z => if z =? 0 then 1 else z
  | None => 1
  end.

(** ** The database *)

(** Table [clients], keyed by [id]. *)
Record client_row := {
  cl_name : option string;
  cl_last_seen_at : option string
}.

(** Table [trackers], keyed by [id]. *)
Record tracker_row := {
  tr_name : option string;
  tr_category : option string;
  tr_type : option string;
  tr_meta_json : option (pydict json);
  tr_version : option Z;
  tr_last_modified_by : option string;
  tr_last_modified_at : option string;
  tr_deleted : option Z
}.

(** Table [entries], keyed by [(date, tracker_id)].  The REAL column
    [value] holds the double the bound integer was rounded to. *)
Record entry_row := {
  en_value : option Z;
  en_completed : option Z;
  en_version : option Z;
  en_last_modified_by : option string;
  en_last_modified_at : option string
}.

(** Table [sync_conflicts]. *)
Record conflict_row := {
  sc_id : Z;
  sc_entity_type : option string;
  sc_entity_id : option string;
  sc_client_id : option string;
  sc_client_data : option (pydict json);
  sc_server_data : option (pydict json);
  sc_resolution : option string;
  sc_resolved_at : option string;
  sc_created_at : option string
}.

Record database := {
  clients : gmap string client_row;
  meta_sync : gmap string string;
  trackers : gmap string tracker_row;
  entries : gmap (string * string) entry_row;
  sync_conflicts : list conflict_row
}.

(** The database [init_database] creates on first start. *)
Definition init_database : database :=
  {| clients := ∅; meta_sync := ∅; trackers := ∅; entries := ∅;
     sync_conflicts := [] |}.

Definition set_clients (f : gmap string client_row → gmap string client_row)
    (db : database) : database :=
  {| clients := f (clients db); meta_sync := meta_sync db;
     trackers := trackers db; entries := entries db;
     sync_conflicts := sync_conflicts db |}.

Definition set_meta_sync (f : gmap string string → gmap string string)
    (db : database) : database :=
  {| clients := clients db; meta_sync := f (meta_sync db);
     trackers := trackers db; entries := entries db;
     sync_conflicts := sync_conflicts db |}.

Definition set_trackers (f : gmap string tracker_row → gmap string tracker_row)
    (db : database) : database :=
  {| clients := clients db; meta_sync := meta_sync db;
     trackers := f (trackers db); entries := entries db;
     sync_conflicts := sync_conflicts db |}.

Definition set_entries
    (f : gmap (string * string) entry_row → gmap (string * string) entry_row)
    (db : database) : database :=
  {| clients := clients db; meta_sync := meta_sync db;
     trackers := trackers db; entries := f (entries db);
     sync_conflicts := sync_conflicts db |}.

Definition set_sync_conflicts (f : list conflict_row → list conflict_row)
    (db : database) : database :=
  {| clients := clients db; meta_sync := meta_sync db;
     trackers := trackers db; entries := entries db;
     sync_conflicts := f (sync_conflicts db) |}.

(** The key of the watermark in [meta_sync]. *)
Definition last_server_sync_time : string := "last_server_sync_time".

(** ** Request and response models *)

Record SyncPayload := {
  clientId : string;
  config : list (pydict json);
  days : pydict (pydict (pydict json));
  lastSyncTime : option string
}.

Record ConflictInfo := {
  entityType : string;
  entityId : string;
  serverVersion : Z;
  clientBaseVersion : Z;
  serverData : pydict json
}.

Record SyncResponse := {
  success : bool;
  conflicts : list ConflictInfo;
  appliedConfig : list (pydict json);
  appliedDays : pydict (pydict (pydict json));
  lastModified : option string;
  overwrittenData : list (pydict json)
}.

Record FullSyncResponse := {
  fs_config : list (pydict json);
  fs_days : pydict (pydict (pydict json));
  fs_serverTime : string
}.

Record DeltaSyncResponse := {
  ds_config : list (pydict json);
  ds_days : pydict (pydict (pydict json));
  deletedTrackers : list string;
  ds_serverTime : string
}.

(** A pydantic [int] field: accepts [int] and [bool]. *)
Definition pydantic_int (j : json) : result Z :=
  match as_int j with Some z => Ok z | None => Err ServerError end.

(** Arithmetic or comparison on a stored version; a NULL version is
    Python's [None] and raises [TypeError]. *)
Definition stored_version (v : option Z) : result Z :=
  match v with Some z => Ok z | None => Err ServerError end.

(** [server_version > client_base_version]; [TypeError] when the base
    version is not a number. *)
Definition py_gt (server_version : Z) (client_base_version : json)
  : result bool :=
  match as_int client_base_version with
  | Some cbv => Ok (cbv <? server_version)
  | None => Err ServerError
  end.

(** ** [sync_status] and [register_client] *)

Definition sync_status (db : database) : option string :=
  meta_sync db !! last_server_sync_time.

(** Whether a byte continues a UTF-8 character ([10xxxxxx]). *)
Definition is_continuation (c : ascii) : bool :=
  match c with Ascii _ _ _ _ _ _ b6 b7 => b7 && negb b6 end.

(** [s[:n]]: the first [n] characters of a text, each with the bytes
    that continue it. *)
Fixpoint str_take (n : nat) (s : string) : string :=
  match s with
  | EmptyString => EmptyString
  | String c s' =>
      if is_continuation c then String c (str_take n s')
      else match n with
           | O => EmptyString
           | S n' => String c (str_take n' s')
           end
  end.

(** [f"Client-{client_id[:8]}"] *)
Definition default_client_name (client_id : string) : string :=
  "Client-" +:+ str_take 8 client_id.

(** [client_name or f"Client-{client_id[:8]}"] *)
Definition register_client (db : database) (client_id : string)
    (client_name : option string) (now : string) : database :=
  let name :=
    match client_name with
    | Some n => if String.eqb n "" then default_client_name client_id else n
    | None => default_client_name client_id
    end in
  set_clients
    (insert client_id {| cl_name := Some name; cl_last_seen_at := Some now |}) db.

(** ** [sync_update] *)

Definition excluded_keys : list string :=
  ["id"; "name"; "category"; "type"; "_version"; "_baseVersion";
   "_lastModifiedBy"; "_lastModifiedAt"; "_deleted"].

(** [{k: v for k, v in item.items() if k not in excluded_keys}] *)
Definition extract_meta (item : pydict json) : pydict json :=
  filter (λ kv, kv.1 ∉ excluded_keys) item.

(** The local variables of [sync_update] that the two loops update,
    together with the open transaction. *)
Record loop_state := {
  ls_db : database;
  ls_conflicts : list ConflictInfo;
  ls_applied_config : list (pydict json);
  ls_applied_days : pydict (pydict (pydict json))
}.

(** [server_data] of a tracker conflict. *)
Definition tracker_server_data (tracker_id : string) (row : tracker_row)
    (server_version : Z) : pydict json :=
  let server_data :=
    [("id", JStr tracker_id); ("name", text_json (tr_name row));
     ("category", text_json (tr_category row));
     ("type", text_json (tr_type row)); ("_version", JNum server_version)] in
  match tr_meta_json row with
  | Some meta => dict_update server_data meta
  | None => server_data
  end.

(** [UPDATE trackers SET deleted = 1, version = ?, last_modified_by = ?,
    last_modified_at = ? WHERE id = ?] on one row. *)
Definition soft_delete_row (new_version : Z) (client_id now : string)
    (row : tracker_row) : tracker_row :=
  {| tr_name := tr_name row; tr_category := tr_category row;
     tr_type := tr_type row; tr_meta_json := tr_meta_json row;
     tr_version := Some new_version;
     tr_last_modified_by := Some client_id;
     tr_last_modified_at := Some now;
     tr_deleted := Some 1 |}.

(** [{**item, "_version": .., "_lastModifiedBy": .., "_lastModifiedAt": ..}] *)
Definition annotate (item : pydict json) (new_version : Z)
    (client_id now : string) : pydict json :=
  dict_set "_lastModifiedAt" (JStr now)
    (dict_set "_lastModifiedBy" (JStr client_id)
       (dict_set "_version" (JNum new_version) item)).

(** [conflicts.append(c); continue] *)
Definition append_conflict (c : ConflictInfo) (s : loop_state) : loop_state :=
  {| ls_db := ls_db s; ls_conflicts := ls_conflicts s ++ [c];
     ls_applied_config := ls_applied_config s;
     ls_applied_days := ls_applied_days s |}.

(** The [ConflictInfo] of a tracker conflict. *)
Definition tracker_conflict (tracker_id : string) (row : tracker_row)
    (server_version cbv : Z) : ConflictInfo :=
  {| entityType := "tracker"; entityId := tracker_id;
     serverVersion := server_version; clientBaseVersion := cbv;
     serverData := tracker_server_data tracker_id row server_version |}.

(** The row written by [INSERT INTO trackers ... VALUES (?, ?, ?, ?, ?, ?,
    ?, ?, 0)]; both [ON CONFLICT(id) DO UPDATE] and [INSERT OR REPLACE]
    leave exactly this row under the id. *)
Definition new_tracker_row (name category type : option string)
    (meta : pydict json) (new_version : Z) (client_id now : string)
  : tracker_row :=
  {| tr_name := name; tr_category := category; tr_type := type;
     tr_meta_json := Some meta; tr_version := Some new_version;
     tr_last_modified_by := Some client_id;
     tr_last_modified_at := Some now; tr_deleted := Some 0 |}.

(** [client_base_version = item.get("_baseVersion", 0)] *)
Definition base_version (item : pydict json) : json :=
  dict_get_default "_baseVersion" (JNum 0) item.

(** [is_deleted = item.get("_deleted", False)], as the condition reads it. *)
Definition is_deleted (item : pydict json) : bool :=
  py_truthy (dict_get_default "_deleted" (JBool false) item).

(** The write of an accepted tracker item: the soft delete
    [UPDATE trackers SET deleted = 1, ... WHERE id = ?] or the upsert
    [INSERT INTO trackers ... ON CONFLICT(id) DO UPDATE SET ...]. *)
Definition write_tracker (client_id now : string) (item : pydict json)
    (tracker_id : string) (new_version : Z) (db : database) : result database :=
  let name := dict_get_none "name" item in
  let category := dict_get_default "category" (JStr "") item in
  let tracker_type := dict_get_default "type" (JStr "simple") item in
  let meta := extract_meta item in
  if is_deleted item then
    Ok (set_trackers
          (alter (soft_delete_row new_version client_id now) tracker_id) db)
  else
    name' ← bind_text name;
    category' ← bind_text category;
    type' ← bind_text tracker_type;
    Ok (set_trackers
          (insert tracker_id
             (new_tracker_row name' category' type' meta new_version
                client_id now)) db).

(** [applied_config.append({**item, ...})] after the write. *)
Definition applied_tracker (db' : database) (item : pydict json)
    (new_version : Z) (client_id now : string) (s : loop_state) : loop_state :=
  {| ls_db := db'; ls_conflicts := ls_conflicts s;
     ls_applied_config :=
       ls_applied_config s ++ [annotate item new_version client_id now];
     ls_applied_days := ls_applied_days s |}.

(** One iteration of [for item in payload.config]. *)
Definition process_tracker_item (client_id now : string) (item : pydict json)
    (s : loop_state) : result loop_state :=
  tracker_id ← text_key (dict_get_none "id" item);
  let client_base_version := base_version item in
  let row := trackers (ls_db s) !! tracker_id in
  server_version ←
    match row with Some r => stored_version (tr_version r) | None => Ok 0 end;
  conflict ←
    match row with
    | Some _ => py_gt server_version client_base_version
    | None => Ok false
    end;
  match row, conflict with
  | Some r, true =>
      cbv ← pydantic_int client_base_version;
      Ok (append_conflict (tracker_conflict tracker_id r server_version cbv) s)
  | _, _ =>
      let new_version := server_version + 1 in
      db' ← write_tracker client_id now item tracker_id new_version (ls_db s);
      Ok (applied_tracker db' item new_version client_id now s)
  end.

(** [for item in payload.config: ...] *)
Fixpoint process_config (client_id now : string) (items : list (pydict json))
    (s : loop_state) : result loop_state :=
  match items with
  | [] => Ok s
  | item :: rest =>
      s' ← process_tracker_item client_id now item s;
      process_config client_id now rest s'
  end.

(** [server_data] of an entry conflict. *)
Definition entry_server_data (row : entry_row) (server_version : Z)
  : pydict json :=
  [("value", real_json (en_value row));
   ("completed", completed_json (en_completed row));
   ("_version", JNum server_version)].

(** [applied_days[date_str][tracker_id] = v] *)
Definition days_set (date_str tracker_id : string) (v : pydict json)
    (days : pydict (pydict (pydict json))) : pydict (pydict (pydict json)) :=
  dict_set date_str
    (dict_set tracker_id v (default [] (dict_get date_str days))) days.

(** The [ConflictInfo] of an entry conflict. *)
Definition entry_conflict (date_str tracker_id : string) (row : entry_row)
    (server_version cbv : Z) : ConflictInfo :=
  {| entityType := "entry"; entityId := date_str +:+ "|" +:+ tracker_id;
     serverVersion := server_version; clientBaseVersion := cbv;
     serverData := entry_server_data row server_version |}.

(** The row written by [INSERT INTO entries ... VALUES (?, ?, ?, ?, ?, ?,
    ?)], under [ON CONFLICT DO UPDATE] and under [INSERT OR REPLACE]. *)
Definition new_entry_row (value : option Z) (completed : json)
    (new_version : Z) (client_id now : string) : entry_row :=
  {| en_value := value; en_completed := completed_int completed;
     en_version := Some new_version;
     en_last_modified_by := Some client_id;
     en_last_modified_at := Some now |}.

(** The entry reported under [applied_days]. *)
Definition applied_entry (value completed : json) (new_version : Z)
    (client_id now : string) : pydict json :=
  [("value", value); ("completed", completed); ("_version", JNum new_version);
   ("_lastModifiedBy", JStr client_id); ("_lastModifiedAt", JStr now)].

(** The write of an accepted entry:
    [INSERT INTO entries ... ON CONFLICT(date, tracker_id) DO UPDATE SET ...]. *)
Definition write_entry (client_id now date_str tracker_id : string)
    (data : pydict json) (new_version : Z) (db : database) : result database :=
  let value := dict_get_none "value" data in
  let completed := dict_get_none "completed" data in
  value' ← bind_real value;
  Ok (set_entries
        (insert (date_str, tracker_id)
           (new_entry_row value' completed new_version client_id now)) db).

(** [applied_days[date_str][tracker_id] = {...}] after the write. *)
Definition applied_entry_state (db' : database) (date_str tracker_id : string)
    (data : pydict json) (new_version : Z) (client_id now : string)
    (s : loop_state) : loop_state :=
  {| ls_db := db'; ls_conflicts := ls_conflicts s;
     ls_applied_config := ls_applied_config s;
     ls_applied_days :=
       days_set date_str tracker_id
         (applied_entry (dict_get_none "value" data)
            (dict_get_none "completed" data) new_version client_id now)
         (ls_applied_days s) |}.

(** One iteration of [for tracker_id, data in trackers_map.items()]. *)
Definition process_entry_item (client_id now date_str : string)
    (kv : string * pydict json) (s : loop_state) : result loop_state :=
  let tracker_id := kv.1 in
  let data := kv.2 in
  let client_base_version := base_version data in
  let row := entries (ls_db s) !! (date_str, tracker_id) in
  server_version ←
    match row with Some r => stored_version (en_version r) | None => Ok 0 end;
  conflict ←
    match row with
    | Some _ => py_gt server_version client_base_version
    | None => Ok false
    end;
  match row, conflict with
  | Some r, true =>
      cbv ← pydantic_int client_base_version;
      Ok (append_conflict
            (entry_conflict date_str tracker_id r server_version cbv) s)
  | _, _ =>
      let new_version := server_version + 1 in
      db' ← write_entry client_id now date_str tracker_id data new_version
              (ls_db s);
      Ok (applied_entry_state db' date_str tracker_id data new_version
            client_id now s)
  end.

(** [for tracker_id, data in trackers_map.items(): ...] *)
Fixpoint process_trackers_map (client_id now date_str : string)
    (trackers_map : pydict (pydict json)) (s : loop_state) : result loop_state :=
  match trackers_map with
  | [] => Ok s
  | kv :: rest =>
      s' ← process_entry_item client_id now date_str kv s;
      process_trackers_map client_id now date_str rest s'
  end.

(** [if date_str not in applied_days: applied_days[date_str] = {}] *)
Definition open_day (date_str : string) (s : loop_state) : loop_state :=
  {| ls_db := ls_db s; ls_conflicts := ls_conflicts s;
     ls_applied_config := ls_applied_config s;
     ls_applied_days :=
       match dict_get date_str (ls_applied_days s) with
       | Some _ => ls_applied_days s
       | None => dict_set date_str [] (ls_applied_days s)
       end |}.

(** [for date_str, trackers_map in payload.days.items(): ...] *)
Fixpoint process_days (client_id now : string)
    (days : pydict (pydict (pydict json))) (s : loop_state) : result loop_state :=
  match days with
  | [] => Ok s
  | (date_str, trackers_map) :: rest =>
      s' ← process_trackers_map client_id now date_str trackers_map
              (open_day date_str s);
      process_days client_id now rest s'
  end.

(** [not conflicts] *)
Definition no_conflicts (cs : list ConflictInfo) : bool :=
  match cs with [] => true | _ => false end.

(** The state in which the loops start: the client's [last_seen_at] is
    written ([INSERT OR REPLACE INTO clients]) and the four result
    variables are empty. *)
Definition begin_update (db : database) (client_id now : string) : loop_state :=
  {| ls_db :=
       set_clients
         (insert client_id
            {| cl_name := Some (default_client_name client_id);
               cl_last_seen_at := Some now |}) db;
     ls_conflicts := []; ls_applied_config := []; ls_applied_days := [] |}.

(** The endpoint.  The first component is the database after the request:
    the committed transaction, or the database as it was on rollback. *)
Definition sync_update (db : database) (payload : SyncPayload) (now : string)
  : database * result SyncResponse :=
  let client_id := clientId payload in
  let s0 := begin_update db client_id now in
  match process_config client_id now (config payload) s0
          ≫= process_days client_id now (days payload) with
  | Ok s =>
      let db2 :=
        if no_conflicts (ls_conflicts s)
        then set_meta_sync (insert last_server_sync_time now) (ls_db s)
        else ls_db s in
      (db2,
       Ok {| success := no_conflicts (ls_conflicts s);
             conflicts := ls_conflicts s;
             appliedConfig := ls_applied_config s;
             appliedDays := ls_applied_days s;
             lastModified :=
               if no_conflicts (ls_conflicts s) then Some now else None;
             overwrittenData := [] |})
  | Err f => (db, Err f)
  end.

(** ** [resolve_conflict] *)

(** [s.split(sep)] for a one-character separator. *)
Fixpoint split_on (sep : ascii) (s : string) : list string :=
  match s with
  | EmptyString => [EmptyString]
  | String c s' =>
      if Ascii.eqb c sep then EmptyString :: split_on sep s'
      else match split_on sep s' with
           | h :: t => String c h :: t
           | [] => [String c EmptyString]
           end
  end.

(** [date_str, tracker_id = entity_id.split("|")]; anything but two parts
    raises [ValueError]. *)
Definition split_entity_id (entity_id : string) : result (string * string) :=
  match split_on "|"%char entity_id with
  | [date_str; tracker_id] => Ok (date_str, tracker_id)
  | _ => Err ServerError
  end.

(** [resolution == "client" and client_data]: the payload to force-apply. *)
Definition forced_payload (resolution : string)
    (client_data : option (pydict json)) : option (pydict json) :=
  if String.eqb resolution "client" then
    match client_data with
    | Some (kv :: d) => Some (kv :: d)
    | _ => None
    end
  else None.

(** The branch [if entity_type == "tracker"]. *)
Definition force_tracker (db : database) (entity_id client_id now : string)
    (client_data : pydict json) : result database :=
  new_version ←
    match trackers db !! entity_id with
    | Some row => v ← stored_version (tr_version row); Ok (v + 1)
    | None => Ok (0 + 1)
    end;
  let name := dict_get_none "name" client_data in
  let category := dict_get_default "category" (JStr "") client_data in
  let tracker_type := dict_get_default "type" (JStr "simple") client_data in
  let meta := extract_meta client_data in
  name' ← bind_text name;
  category' ← bind_text category;
  type' ← bind_text tracker_type;
  Ok (set_trackers
        (insert entity_id
           (new_tracker_row name' category' type' meta new_version
              client_id now)) db).

(** The branch [elif entity_type == "entry"]. *)
Definition force_entry (db : database) (entity_id client_id now : string)
    (client_data : pydict json) : result database :=
  key ← split_entity_id entity_id;
  new_version ←
    match entries db !! key with
    | Some row => v ← stored_version (en_version row); Ok (v + 1)
    | None => Ok (0 + 1)
    end;
  let value := dict_get_none "value" client_data in
  let completed := dict_get_none "completed" client_data in
  value' ← bind_real value;
  Ok (set_entries
        (insert key
           (new_entry_row value' completed new_version client_id now)) db).

(** [INSERT INTO sync_conflicts (entity_type, entity_id, client_id,
    client_data, resolution, resolved_at, created_at)]: [server_data] is
    not listed and stays NULL; the key is the next AUTOINCREMENT value. *)
Definition log_resolution (entity_type entity_id resolution client_id : string)
    (client_data : option (pydict json)) (now : string)
    (ledger : list conflict_row) : list conflict_row :=
  ledger ++
    [{| sc_id := Z.of_nat (List.length ledger) + 1;
        sc_entity_type := Some entity_type;
        sc_entity_id := Some entity_id;
        sc_client_id := Some client_id;
        sc_client_data :=
          match client_data with
          | Some (kv :: d) => Some (kv :: d)
          | _ => None
          end;
        sc_server_data := None;
        sc_resolution := Some resolution;
        sc_resolved_at := Some now;
        sc_created_at := Some now |}].

(** The endpoint.  On an exception nothing is committed. *)
Definition resolve_conflict (db : database)
    (entity_type entity_id resolution client_id : string)
    (client_data : option (pydict json)) (now : string)
  : database * result (pydict json) :=
  let forced :=
    match forced_payload resolution client_data with
    | Some d =>
        if String.eqb entity_type "tracker"
        then force_tracker db entity_id client_id now d
        else if String.eqb entity_type "entry"
        then force_entry db entity_id client_id now d
        else Ok db
    | None => Ok db
    end in
  match forced with
  | Ok db1 =>
      let db2 :=
        set_sync_conflicts
          (log_resolution entity_type entity_id resolution client_id
             client_data now) db1 in
      let db3 := set_meta_sync (insert last_server_sync_time now) db2 in
      (db3,
       Ok [("status", JStr "ok"); ("resolution", JStr resolution);
           ("entityId", JStr entity_id)])
  | Err f => (db, Err f)
  end.

(** ** [get_unresolved_conflicts] *)

Record UnresolvedConflict := {
  uc_id : Z;
  uc_entityType : option string;
  uc_entityId : option string;
  uc_clientData : option (pydict json);
  uc_serverData : option (pydict json);
  uc_createdAt : option string
}.

(** Order of two TEXT values, NULL first. *)
Definition text_leb (a b : option string) : bool :=
  match a, b with
  | None, _ => true
  | Some _, None => false
  | Some x, Some y => String.leb x y
  end.

(** [WHERE client_id = ? AND resolved_at IS NULL] *)
Definition unresolved_for (client_id : string) (row : conflict_row) : bool :=
  match sc_client_id row, sc_resolved_at row with
  | Some c, None => String.eqb c client_id
  | _, _ => false
  end.

(** [ORDER BY created_at DESC] *)
Definition created_desc (a b : conflict_row) : Prop :=
  Is_true (text_leb (sc_created_at b) (sc_created_at a)).

#[global] Instance created_desc_dec : RelDecision created_desc.
Proof. intros a b; unfold created_desc; apply _. Defined.

Definition get_unresolved_conflicts (db : database) (client_id : string)
  : list UnresolvedConflict :=
  let rows :=
    merge_sort created_desc
      (filter (λ row, Is_true (unresolved_for client_id row))
         (sync_conflicts db)) in
  map (λ row,
         {| uc_id := sc_id row;
            uc_entityType := sc_entity_type row;
            uc_entityId := sc_entity_id row;
            uc_clientData := sc_client_data row;
            uc_serverData := sc_server_data row;
            uc_createdAt := sc_created_at row |}) rows.

(** ** [sync_full] and [sync_delta] *)

(** The tracker as both snapshots return it. *)
Definition tracker_json (id : string) (row : tracker_row) : pydict json :=
  let tracker :=
    [("id", JStr id); ("name", text_json (tr_name row));
     ("category", text_json (tr_category row));
     ("type", text_json (tr_type row));
     ("_version", JNum (version_or_1 (tr_version row)));
     ("_lastModifiedBy", text_json (tr_last_modified_by row));
     ("_lastModifiedAt", text_json (tr_last_modified_at row))] in
  match tr_meta_json row with
  | Some meta => dict_update tracker meta
  | None => tracker
  end.

(** The entry as both snapshots return it. *)
Definition entry_json (row : entry_row) : pydict json :=
  [("value", real_json (en_value row));
   ("completed", completed_json (en_completed row));
   ("_version", JNum (version_or_1 (en_version row)));
   ("_lastModifiedBy", text_json (en_last_modified_by row));
   ("_lastModifiedAt", text_json (en_last_modified_at row))].

(** [WHERE deleted = 0 OR deleted IS NULL] *)
Definition live (row : tracker_row) : bool :=
  match tr_deleted row with
  | Some z => z =? 0
  | None => true
  end.

(** [if row["deleted"]] *)
Definition deleted_flag (row : tracker_row) : bool :=
  match tr_deleted row with
  | Some z => negb (z =? 0)
  | None => false
  end.

(** [WHERE last_modified_at > ? OR last_modified_at IS NULL] *)
Definition modified_since (since : string) (last_modified_at : option string)
  : bool :=
  match last_modified_at with
  | Some t => String.ltb since t
  | None => true
  end.

(** [WHERE date >= ?] *)
Definition in_window (seven_days_ago date : string) : bool :=
  String.leb seven_days_ago date.

(** The loop building [days] from the selected entry rows. *)
Definition collect_days (entry_rows : list (string * string * entry_row))
  : pydict (pydict (pydict json)) :=
  fold_left
    (λ days r, days_set r.1.1 r.1.2 (entry_json r.2) days) entry_rows [].

Definition sync_full (db : database) (seven_days_ago now : string)
  : FullSyncResponse :=
  let tracker_rows :=
    filter (λ r, Is_true (live r.2)) (map_to_list (trackers db)) in
  let config := map (λ r, tracker_json r.1 r.2) tracker_rows in
  let entry_rows :=
    filter (λ r, Is_true (in_window seven_days_ago r.1.1))
      (map_to_list (entries db)) in
  {| fs_config := config; fs_days := collect_days entry_rows;
     fs_serverTime := now |}.

(** The loop of [sync_delta] over the selected tracker rows: a deleted
    row adds its id to [deleted_trackers], any other row adds the tracker
    to [config]. *)
Definition split_trackers (tracker_rows : list (string * tracker_row))
  : list (pydict json) * list string :=
  fold_left
    (λ (acc : list (pydict json) * list string) (r : string * tracker_row),
       if deleted_flag r.2 then (acc.1, (acc.2 ++ [r.1])%list)
       else ((acc.1 ++ [tracker_json r.1 r.2])%list, acc.2))
    tracker_rows ([], []).

Definition sync_delta (db : database) (since client_id : string)
    (seven_days_ago now : string) : DeltaSyncResponse :=
  let tracker_rows :=
    filter (λ r, Is_true (modified_since since (tr_last_modified_at r.2)))
      (map_to_list (trackers db)) in
  let '(config, deleted_trackers) := split_trackers tracker_rows in
  let entry_rows :=
    filter (λ r, Is_true (modified_since since (en_last_modified_at r.2)
                          && in_window seven_days_ago r.1.1))
      (map_to_list (entries db)) in
  {| ds_config := config; ds_days := collect_days entry_rows;
     deletedTrackers := deleted_trackers; ds_serverTime := now |}.

(** ** Vocabulary of the statements *)

(** The stored version of a tracker, 0 when there is no record. *)
Definition tracker_version (db : database) (id : string) : Z :=
  match trackers db !! id with
  | Some r => default 0 (tr_version r)
  | None => 0
  end.

(** The stored version of an entry, 0 when there is no record. *)
Definition entry_version (db : database) (date_str tracker_id : string) : Z :=
  match entries db !! (date_str, tracker_id) with
  | Some r => default 0 (en_version r)
  | None => 0
  end.

(** The extension map as the server writes it: keys are unique and none
    of them is reserved. *)
Definition extension_map (meta : pydict json) : Prop :=
  NoDup meta.*1 ∧ ∀ k, k ∈ meta.*1 → k ∉ excluded_keys.

(** Two databases that differ at most in [trackers] and [entries]. *)
Definition same_bookkeeping (db db' : database) : Prop :=
  clients db' = clients db ∧ meta_sync db' = meta_sync db
  ∧ sync_conflicts db' = sync_conflicts db.

(** Every row of the ledger carries a resolution time. *)
Definition all_resolved (ledger : list conflict_row) : Prop :=
  Forall (λ row, is_Some (sc_resolved_at row)) ledger.

(** [days[date_str][tracker_id]], when both keys are present. *)
Definition days_get (date_str tracker_id : string)
    (days : pydict (pydict (pydict json))) : option (pydict json) :=
  dict_get date_str days ≫= dict_get tracker_id.

(** A timestamp column selected by
    [last_modified_at > since OR last_modified_at IS NULL]. *)
Definition changed_after (since : string) (last_modified_at : option string)
  : Prop :=
  last_modified_at = None
  ∨ ∃ t, last_modified_at = Some t ∧ String.ltb since t = true.

(** The seven fields both snapshots build from the columns of a row
    written at version [v] by [client_id] at [now], before the extension
    fields are merged in. *)
Definition snapshot_columns (id : string) (name category type : option string)
    (v : Z) (client_id now : string) : pydict json :=
  [("id", JStr id); ("name", text_json name);
   ("category", text_json category); ("type", text_json type);
   ("_version", JNum (version_or_1 (Some v)));
   ("_lastModifiedBy", JStr client_id); ("_lastModifiedAt", JStr now)].





(** The requests that change the database, with the clock reading each
    one takes. *)
Inductive request :=
| Register (client_id : string) (client_name : option string) (now : string)
| Update (payload : SyncPayload) (now : string)
| Resolve (entity_type entity_id resolution client_id : string)
    (client_data : option (pydict json)) (now : string).

Definition handle (db : database) (r : request) : database :=
  match r with
  | Register client_id client_name now =>
      register_client db client_id client_name now
  | Update payload now => (sync_update db payload now).1
  | Resolve entity_type entity_id resolution client_id client_data now =>
      (resolve_conflict db entity_type entity_id resolution client_id
         client_data now).1
  end.

(** The database after a history of requests on a fresh server. *)
Definition run (history : list request) : database :=
  fold_left handle history init_database.


(** The number of occurrences of a character in a string. *)
Fixpoint count_char (c : ascii) (s : string) : nat :=
  match s with
  | EmptyString => 0%nat
  | String c' s' =>
      if Ascii.eqb c' c then S (count_char c s') else count_char c s'
  end.


(** A tracker row that is as it was, or carries the stamp of [client_id]
    at [now]. *)
Definition tracker_kept_or_stamped (client_id now : string)
    (old new : option tracker_row) : Prop :=
  new = old
  ∨ ∃ r, new = Some r ∧ tr_last_modified_by r = Some client_id
         ∧ tr_last_modified_at r = Some now.

(** The same for an entry row. *)
Definition entry_kept_or_stamped (client_id now : string)
    (old new : option entry_row) : Prop :=
  new = old
  ∨ ∃ r, new = Some r ∧ en_last_modified_by r = Some client_id
         ∧ en_last_modified_at r = Some now.


(** The conflict [get_unresolved_conflicts] builds from a ledger row. *)
Definition unresolved_conflict_of (row : conflict_row) : UnresolvedConflict :=
  {| uc_id := sc_id row;
     uc_entityType := sc_entity_type row;
     uc_entityId := sc_entity_id row;
     uc_clientData := sc_client_data row;
     uc_serverData := sc_server_data row;
     uc_createdAt := sc_created_at row |}.


(** Every stored row carries a version of at least 1, and the extension
    map of every tracker holds none of the reserved keys. *)
Definition well_stored (db : database) : Prop :=
  (∀ id r, trackers db !! id = Some r →
     (∃ v, tr_version r = Some v ∧ 1 ≤ v)
     ∧ ∃ meta, tr_meta_json r = Some meta
               ∧ ∀ k, k ∈ meta.*1 → k ∉ excluded_keys)
  ∧ (∀ k r, entries db !! k = Some r → ∃ v, en_version r = Some v ∧ 1 ≤ v).


(** [len(s)]: the number of characters of a text. *)
Fixpoint str_len (s : string) : nat :=
  match s with
  | EmptyString => O
  | String c s' => if is_continuation c then str_len s' else S (str_len s')
  end.


(** A request the model covers: its handler does not end in
    [Unmodelled]. *)
Definition modelled (db : database) (r : request) : Prop :=
  match r with
  | Register _ _ _ => True
  | Update payload now => (sync_update db payload now).2 ≠ Err Unmodelled
  | Resolve entity_type entity_id resolution client_id client_data now =>
      (resolve_conflict db entity_type entity_id resolution client_id
         client_data now).2 ≠ Err Unmodelled
  end.

(** A history every request of which the model covers, from [db] on. *)
Fixpoint modelled_from (db : database) (history : list request) : Prop :=
  match history with
  | [] => True
  | r :: rest => modelled db r ∧ modelled_from (handle db r) rest
  end.



(** ** Scenarios

    Concrete requests, after the scenarios of the specification: client
    [A] creates tracker [t1] (with two extension fields) and an entry for
    it, client [B] then pushes with the base version 0 it started from. *)
Module Scenario.
Definition t1_by_A : pydict json :=
  [("id", JStr "t1"); ("name", JStr "Run"); ("goal", JNum 10);
   ("unit", JStr "km")].

Definition entry_by_A : pydict json :=
  [("value", JNum 5); ("completed", JNull)].

Definition push_A : SyncPayload :=
  {| clientId := "A"; config := [t1_by_A];
     days := [("2024-01-05", [("t1", entry_by_A)])];
     lastSyncTime := None |}.

Definition time_A : string := "2024-01-05T10:00:00Z".
Definition time_B : string := "2024-01-05T11:00:00Z".
Definition time_C : string := "2024-01-05T12:00:00Z".
Definition time_D : string := "2024-01-05T13:00:00Z".

(** The response to [push_A] on a fresh server. *)
Definition resp_A : SyncResponse :=
  {| success := true; conflicts := [];
     appliedConfig := [annotate t1_by_A 1 "A" time_A];
     appliedDays :=
       [("2024-01-05", [("t1", applied_entry (JNum 5) JNull 1 "A" time_A)])];
     lastModified := Some time_A; overwrittenData := [] |}.

(** The database once [A] has pushed: [t1] and its entry at version 1. *)
Definition db_A : database := (sync_update init_database push_A time_A).1.

Definition t1_by_B : pydict json :=
  [("id", JStr "t1"); ("name", JStr "Walk"); ("_baseVersion", JNum 0)].

Definition entry_by_B : pydict json :=
  [("value", JNum 7); ("completed", JBool true); ("_baseVersion", JNum 0)].

(** [B]'s stale push of [t1]. *)
Definition push_B : SyncPayload :=
  {| clientId := "B"; config := [t1_by_B]; days := [];
     lastSyncTime := None |}.

(** A tracker the server has never stored, pushed with base version -1. *)
Definition t2_negative_base : pydict json :=
  [("id", JStr "t2"); ("name", JStr "Swim"); ("_baseVersion", JNum (-1))].

Definition push_negative_base : SyncPayload :=
  {| clientId := "B"; config := [t2_negative_base]; days := [];
     lastSyncTime := None |}.

(** The rows [A]'s push stored. *)
Definition row_t1_A : tracker_row :=
  new_tracker_row (Some "Run") (Some "") (Some "simple")
    [("goal", JNum 10); ("unit", JStr "km")] 1 "A" time_A.

Definition row_entry_A : entry_row :=
  new_entry_row (Some 5) JNull 1 "A" time_A.

Definition fresh_tracker (id name : string) : pydict json :=
  [("id", JStr id); ("name", JStr name)].

(** One conflicting item among five clean ones. *)
Definition push_mixed : SyncPayload :=
  {| clientId := "B";
     config := [fresh_tracker "t2" "Swim"; fresh_tracker "t3" "Read";
                t1_by_B; fresh_tracker "t4" "Walk";
                fresh_tracker "t5" "Cook"; fresh_tracker "t6" "Sleep"];
     days := []; lastSyncTime := None |}.

(** The response to [push_mixed] on [db_A]. *)
Definition resp_mixed : SyncResponse :=
  {| success := false;
     conflicts := [tracker_conflict "t1" row_t1_A 1 0];
     appliedConfig :=
       map (λ it, annotate it 1 "B" time_B)
         [fresh_tracker "t2" "Swim"; fresh_tracker "t3" "Read";
          fresh_tracker "t4" "Walk"; fresh_tracker "t5" "Cook";
          fresh_tracker "t6" "Sleep"];
     appliedDays := [];
     lastModified := None;
     overwrittenData := [] |}.

(** The response to [push_B] on [db_A]. *)
Definition resp_B : SyncResponse :=
  {| success := false;
     conflicts := [tracker_conflict "t1" row_t1_A 1 0];
     appliedConfig := []; appliedDays := [];
     lastModified := None; overwrittenData := [] |}.

(** The database after [B]'s stale push. *)
Definition db_B : database := (sync_update db_A push_B time_B).1.

(** [B] resolves the conflict in its favour, then sends the same
    resolution a second time. *)
Definition resolve_B (db : database) (now : string) : database :=
  (resolve_conflict db "tracker" "t1" "client" "B" (Some t1_by_B) now).1.

Definition db_C : database := resolve_B db_B time_C.
Definition db_D : database := resolve_B db_C time_D.

(** A delete for a tracker the server has never stored, and a later
    push that creates it. *)
Definition delete_t9 : pydict json :=
  [("id", JStr "t9"); ("_deleted", JBool true)].

Definition push_delete_t9 : SyncPayload :=
  {| clientId := "B"; config := [delete_t9]; days := [];
     lastSyncTime := None |}.

Definition db_E : database := (sync_update db_A push_delete_t9 time_B).1.

Definition push_create_t9 : SyncPayload :=
  {| clientId := "B"; config := [fresh_tracker "t9" "Nap"]; days := [];
     lastSyncTime := None |}.

(** [A] edits [t1] from the version it holds, and soft-deletes it. *)
Definition t1_edit_by_A : pydict json :=
  [("id", JStr "t1"); ("name", JStr "Jog"); ("_baseVersion", JNum 1)].

Definition t1_delete_by_A : pydict json :=
  [("id", JStr "t1"); ("_baseVersion", JNum 1); ("_deleted", JBool true)].

(** A second push for the entry of 2024-01-05 that marks it completed
    and does not resend the value. *)
Definition entry_completed_only : pydict json :=
  [("completed", JBool true); ("_baseVersion", JNum 1)].

(** [A] adds [t2] and [t3], then soft-deletes [t3]. *)
Definition push_two_more : SyncPayload :=
  {| clientId := "A";
     config := [fresh_tracker "t2" "Swim"; fresh_tracker "t3" "Read"];
     days := []; lastSyncTime := None |}.

Definition t3_delete : pydict json :=
  [("id", JStr "t3"); ("_baseVersion", JNum 1); ("_deleted", JBool true)].

Definition push_delete_t3 : SyncPayload :=
  {| clientId := "A"; config := [t3_delete]; days := [];
     lastSyncTime := None |}.

Definition db_F : database :=
  (sync_update (sync_update db_A push_two_more time_B).1 push_delete_t3
     time_C).1.

Definition row_t2_A : tracker_row :=
  new_tracker_row (Some "Swim") (Some "") (Some "simple") [] 1 "A" time_B.

(** A time before every push of the scenario, and the cutoff date. *)
Definition time_0 : string := "2024-01-01T00:00:00Z".
Definition cutoff : string := "2024-01-01".

(** A resolution in favour of the server, and a forced apply on the
    tombstoned [t3] whose payload names another id. *)
Definition revive_t3 : pydict json :=
  [("id", JStr "zzz"); ("name", JStr "Read again"); ("pages", JNum 30)].

(** [B] pushes a stale [t1] and a new [t2], a stale entry for 2024-01-05
    and a new entry for 2024-01-06. *)
Definition push_two_days : SyncPayload :=
  {| clientId := "B";
     config := [t1_by_B; fresh_tracker "t2" "Swim"];
     days := [("2024-01-05", [("t1", entry_by_B)]);
              ("2024-01-06", [("t1", entry_by_A)])];
     lastSyncTime := None |}.

Definition resp_two_days : SyncResponse :=
  {| success := false;
     conflicts := [tracker_conflict "t1" row_t1_A 1 0;
                   entry_conflict "2024-01-05" "t1" row_entry_A 1 0];
     appliedConfig := [annotate (fresh_tracker "t2" "Swim") 1 "B" time_B];
     appliedDays :=
       [("2024-01-05", []);
        ("2024-01-06", [("t1", applied_entry (JNum 5) JNull 1 "B" time_B)])];
     lastModified := None; overwrittenData := [] |}.

(** [A] edits [t1] and completes the entry of 2024-01-05, both from the
    versions it holds. *)
Definition push_edit : SyncPayload :=
  {| clientId := "A"; config := [t1_edit_by_A];
     days := [("2024-01-05", [("t1", entry_completed_only)])];
     lastSyncTime := None |}.

Definition resp_edit : SyncResponse :=
  {| success := true; conflicts := [];
     appliedConfig := [annotate t1_edit_by_A 2 "A" time_B];
     appliedDays :=
       [("2024-01-05",
         [("t1", applied_entry JNull (JBool true) 2 "A" time_B)])];
     lastModified := Some time_B; overwrittenData := [] |}.

(** An entry whose value, 2^53 + 1, is not a double. *)
Definition entry_above_2_53 : pydict json :=
  [("value", JNum 9007199254740993)].

Definition push_above_2_53 : SyncPayload :=
  {| clientId := "A"; config := [];
     days := [("2024-01-07", [("t1", entry_above_2_53)])];
     lastSyncTime := None |}.

Definition resp_above_2_53 : SyncResponse :=
  {| success := true; conflicts := []; appliedConfig := [];
     appliedDays :=
       [("2024-01-07",
         [("t1", applied_entry (JNum 9007199254740993) JNull 1 "A" time_B)])];
     lastModified := Some time_B; overwrittenData := [] |}.

(** [B] pushes the tombstoned [t3] from base version 0. *)
Definition push_stale_t3 : SyncPayload :=
  {| clientId := "B"; config := [fresh_tracker "t3" "Read"]; days := [];
     lastSyncTime := None |}.

Definition resp_stale_t3 : SyncResponse :=
  {| success := false;
     conflicts :=
       [{| entityType := "tracker"; entityId := "t3"; serverVersion := 2;
           clientBaseVersion := 0;
           serverData :=
             [("id", JStr "t3"); ("name", JStr "Read"); ("category", JStr "");
              ("type", JStr "simple"); ("_version", JNum 2)] |}];
     appliedConfig := []; appliedDays := [];
     lastModified := None; overwrittenData := [] |}.
End Scenario.

(** * Properties *)

(** ** Dictionaries *)

Section dict_facts.
Context {A : Type}.
Implicit Types (d m : pydict A) (k : string) (v : A).

Lemma dict_get_None d k : dict_get k d = None ↔ k ∉ d.*1.
Proof.
  induction d as [|[k' v'] d IH]; simpl.
  - split; [intros _; apply not_elem_of_nil | reflexivity].
  - destruct (String.eqb_spec k k') as [->|Hne].
    + split; [done | intros Hk; exfalso; apply Hk; left].
    + rewrite IH, not_elem_of_cons. tauto.
Qed.

Lemma dict_get_set_eq d k v : dict_get k (dict_set k v d) = Some v.
Proof.
  induction d as [|[k' v'] d IH]; simpl.
  - by rewrite String.eqb_refl.
  - destruct (String.eqb_spec k k') as [->|Hne]; simpl.
    + by rewrite String.eqb_refl.
    + by destruct (String.eqb_spec k k').
Qed.

Lemma dict_get_set_ne d k k' v :
  k ≠ k' → dict_get k (dict_set k' v d) = dict_get k d.
Proof.
  intros Hne. induction d as [|[k0 v0] d IH]; simpl.
  - by destruct (String.eqb_spec k k').
  - destruct (String.eqb_spec k' k0) as [->|Hne0]; simpl.
    + by destruct (String.eqb_spec k k0).
    + by rewrite IH.
Qed.

Lemma dict_set_fresh d k v : k ∉ d.*1 → dict_set k v d = d ++ [(k, v)].
Proof.
  induction d as [|[k' v'] d IH]; simpl; [done|].
  rewrite not_elem_of_cons. intros [Hne Hk].
  destruct (String.eqb_spec k k') as [->|_]; [done|]. by rewrite IH.
Qed.

Lemma dict_update_fresh d m :
  NoDup m.*1 → (∀ k, k ∈ m.*1 → k ∉ d.*1) → dict_update d m = d ++ m.
Proof.
  unfold dict_update. revert d.
  induction m as [|[k v] m IH]; simpl; intros d Hnd Hdisj.
  - by rewrite app_nil_r.
  - apply NoDup_cons in Hnd as [Hk Hnd].
    rewrite dict_set_fresh by (apply Hdisj; left).
    rewrite IH; [by rewrite <- app_assoc | done |].
    intros k' Hk'. rewrite fmap_app, elem_of_app. simpl.
    intros [Hd|Hd%list_elem_of_singleton].
    + by apply (Hdisj k'); [right|].
    + by subst.
Qed.

Lemma dict_get_app d m k :
  dict_get k (d ++ m) =
    match dict_get k d with Some v => Some v | None => dict_get k m end.
Proof.
  induction d as [|[k' v'] d IH]; simpl; [done|].
  by destruct (String.eqb_spec k k').
Qed.

Lemma dict_get_filter (P : string * A → Prop) {HP : ∀ kv, Decision (P kv)}
    d k :
  (∀ v, P (k, v)) → dict_get k (filter P d) = dict_get k d.
Proof.
  intros Hk. induction d as [|[k' v'] d IH]; [done|].
  rewrite filter_cons. simpl.
  destruct (decide (P (k', v'))) as [Hk'|Hk']; simpl.
  - by rewrite IH.
  - rewrite IH. destruct (String.eqb_spec k k') as [->|_]; [|done].
    destruct Hk'. apply Hk.
Qed.

Lemma dict_filter_keys (P : string * A → Prop) {HP : ∀ kv, Decision (P kv)}
    d k :
  k ∈ (filter P d).*1 → ∃ v, P (k, v) ∧ (k, v) ∈ d.
Proof.
  intros ([k' v] & -> & Hin)%list_elem_of_fmap.
  apply list_elem_of_filter in Hin as [Hk Hin]. by exists v.
Qed.

Lemma dict_filter_NoDup (P : string * A → Prop) {HP : ∀ kv, Decision (P kv)}
    d :
  NoDup d.*1 → NoDup (filter P d).*1.
Proof.
  intros Hnd. apply (sublist_NoDup _ d.*1); [exact Hnd|].
  apply fmap_sublist, sublist_filter.
Qed.
End dict_facts.

(** ** The result monad *)

Lemma bind_Ok {A B} (m : result A) (k : A → result B) b :
  m ≫= k = Ok b ↔ ∃ a, m = Ok a ∧ k a = Ok b.
Proof.
  destruct m as [a|f]; simpl.
  - split; [by exists a | by intros (? & [= <-] & ?)].
  - split; [done | by intros (? & ? & ?)].
Qed.

(** ** One tracker item *)

Section tracker_item.
Context (client_id now : string) (item : pydict json) (s : loop_state).

Lemma process_tracker_item_conflict tid r sv cbv :
  dict_get_none "id" item = JStr tid →
  trackers (ls_db s) !! tid = Some r →
  tr_version r = Some sv →
  as_int (base_version item) = Some cbv →
  cbv < sv →
  process_tracker_item client_id now item s
  = Ok (append_conflict (tracker_conflict tid r sv cbv) s).
Proof.
  intros Hid Hrow Hv Hb Hlt. unfold process_tracker_item.
  rewrite Hid. simpl. rewrite Hrow, Hv. simpl.
  unfold py_gt, pydantic_int. rewrite Hb. simpl.
  apply Z.ltb_lt in Hlt. rewrite Hlt. simpl. reflexivity.
Qed.

Lemma process_tracker_item_new tid :
  dict_get_none "id" item = JStr tid →
  trackers (ls_db s) !! tid = None →
  process_tracker_item client_id now item s
  = db' ← write_tracker client_id now item tid 1 (ls_db s);
    Ok (applied_tracker db' item 1 client_id now s).
Proof.
  intros Hid Hrow. unfold process_tracker_item.
  rewrite Hid. simpl. rewrite Hrow. simpl. reflexivity.
Qed.

Lemma process_tracker_item_current tid r sv cbv :
  dict_get_none "id" item = JStr tid →
  trackers (ls_db s) !! tid = Some r →
  tr_version r = Some sv →
  as_int (base_version item) = Some cbv →
  sv ≤ cbv →
  process_tracker_item client_id now item s
  = db' ← write_tracker client_id now item tid (sv + 1) (ls_db s);
    Ok (applied_tracker db' item (sv + 1) client_id now s).
Proof.
  intros Hid Hrow Hv Hb Hle. unfold process_tracker_item.
  rewrite Hid. simpl. rewrite Hrow, Hv. simpl.
  unfold py_gt. rewrite Hb. simpl.
  apply Z.ltb_ge in Hle. rewrite Hle. simpl. reflexivity.
Qed.

(** Every successful iteration is one of the three cases above. *)
Lemma process_tracker_item_inv s' :
  process_tracker_item client_id now item s = Ok s' →
  ∃ tid, dict_get_none "id" item = JStr tid ∧
    ((∃ r sv cbv,
        trackers (ls_db s) !! tid = Some r ∧ tr_version r = Some sv ∧
        as_int (base_version item) = Some cbv ∧ cbv < sv ∧
        s' = append_conflict (tracker_conflict tid r sv cbv) s)
     ∨ (∃ db',
        trackers (ls_db s) !! tid = None ∧
        write_tracker client_id now item tid 1 (ls_db s) = Ok db' ∧
        s' = applied_tracker db' item 1 client_id now s)
     ∨ (∃ r sv cbv db',
        trackers (ls_db s) !! tid = Some r ∧ tr_version r = Some sv ∧
        as_int (base_version item) = Some cbv ∧ sv ≤ cbv ∧
        write_tracker client_id now item tid (sv + 1) (ls_db s) = Ok db' ∧
        s' = applied_tracker db' item (sv + 1) client_id now s)).
Proof.
  intros Hok.
  destruct (dict_get_none "id" item) as [| | |tid| |] eqn:Hid;
    try (unfold process_tracker_item in Hok; rewrite Hid in Hok; discriminate).
  exists tid. split; [done|].
  destruct (trackers (ls_db s) !! tid) as [r|] eqn:Hrow.
  - destruct (tr_version r) as [sv|] eqn:Hv;
      [|unfold process_tracker_item in Hok; rewrite Hid in Hok; simpl in Hok;
        rewrite Hrow, Hv in Hok; discriminate].
    destruct (as_int (base_version item)) as [cbv|] eqn:Hb;
      [|unfold process_tracker_item in Hok; rewrite Hid in Hok; simpl in Hok;
        rewrite Hrow, Hv in Hok; simpl in Hok; unfold py_gt in Hok;
        rewrite Hb in Hok; discriminate].
    destruct (Z.lt_ge_cases cbv sv) as [Hlt|Hle].
    + left. exists r, sv, cbv.
      rewrite (process_tracker_item_conflict tid r sv cbv) in Hok by done.
      by injection Hok as <-.
    + right; right.
      rewrite (process_tracker_item_current tid r sv cbv) in Hok by done.
      apply bind_Ok in Hok as (db' & Hw & [= <-]).
      by exists r, sv, cbv, db'.
  - right; left.
    rewrite (process_tracker_item_new tid) in Hok by done.
    apply bind_Ok in Hok as (db' & Hw & [= <-]).
    by exists db'.
Qed.
End tracker_item.

(** ** One entry item *)

Section entry_item.
Context (client_id now date_str tracker_id : string) (data : pydict json)
  (s : loop_state).

Lemma process_entry_item_conflict r sv cbv :
  entries (ls_db s) !! (date_str, tracker_id) = Some r →
  en_version r = Some sv →
  as_int (base_version data) = Some cbv →
  cbv < sv →
  process_entry_item client_id now date_str (tracker_id, data) s
  = Ok (append_conflict (entry_conflict date_str tracker_id r sv cbv) s).
Proof.
  intros Hrow Hv Hb Hlt. unfold process_entry_item. simpl.
  rewrite Hrow, Hv. simpl.
  unfold py_gt, pydantic_int. rewrite Hb. simpl.
  apply Z.ltb_lt in Hlt. rewrite Hlt. simpl. reflexivity.
Qed.

Lemma process_entry_item_new :
  entries (ls_db s) !! (date_str, tracker_id) = None →
  process_entry_item client_id now date_str (tracker_id, data) s
  = db' ← write_entry client_id now date_str tracker_id data 1 (ls_db s);
    Ok (applied_entry_state db' date_str tracker_id data 1 client_id now s).
Proof.
  intros Hrow. unfold process_entry_item. simpl.
  rewrite Hrow. simpl. reflexivity.
Qed.

Lemma process_entry_item_current r sv cbv :
  entries (ls_db s) !! (date_str, tracker_id) = Some r →
  en_version r = Some sv →
  as_int (base_version data) = Some cbv →
  sv ≤ cbv →
  process_entry_item client_id now date_str (tracker_id, data) s
  = db' ← write_entry client_id now date_str tracker_id data (sv + 1)
            (ls_db s);
    Ok (applied_entry_state db' date_str tracker_id data (sv + 1)
          client_id now s).
Proof.
  intros Hrow Hv Hb Hle. unfold process_entry_item. simpl.
  rewrite Hrow, Hv. simpl.
  unfold py_gt. rewrite Hb. simpl.
  apply Z.ltb_ge in Hle. rewrite Hle. simpl. reflexivity.
Qed.

Lemma process_entry_item_inv s' :
  process_entry_item client_id now date_str (tracker_id, data) s = Ok s' →
  (∃ r sv cbv,
      entries (ls_db s) !! (date_str, tracker_id) = Some r ∧
      en_version r = Some sv ∧
      as_int (base_version data) = Some cbv ∧ cbv < sv ∧
      s' = append_conflict (entry_conflict date_str tracker_id r sv cbv) s)
  ∨ (∃ db',
      entries (ls_db s) !! (date_str, tracker_id) = None ∧
      write_entry client_id now date_str tracker_id data 1 (ls_db s)
        = Ok db' ∧
      s' = applied_entry_state db' date_str tracker_id data 1 client_id now s)
  ∨ (∃ r sv cbv db',
      entries (ls_db s) !! (date_str, tracker_id) = Some r ∧
      en_version r = Some sv ∧
      as_int (base_version data) = Some cbv ∧ sv ≤ cbv ∧
      write_entry client_id now date_str tracker_id data (sv + 1) (ls_db s)
        = Ok db' ∧
      s' = applied_entry_state db' date_str tracker_id data (sv + 1)
             client_id now s).
Proof.
  intros Hok.
  destruct (entries (ls_db s) !! (date_str, tracker_id)) as [r|] eqn:Hrow.
  - destruct (en_version r) as [sv|] eqn:Hv;
      [|unfold process_entry_item in Hok; simpl in Hok;
        rewrite Hrow, Hv in Hok; discriminate].
    destruct (as_int (base_version data)) as [cbv|] eqn:Hb;
      [|unfold process_entry_item in Hok; simpl in Hok;
        rewrite Hrow, Hv in Hok; simpl in Hok; unfold py_gt in Hok;
        rewrite Hb in Hok; discriminate].
    destruct (Z.lt_ge_cases cbv sv) as [Hlt|Hle].
    + left. exists r, sv, cbv.
      rewrite (process_entry_item_conflict r sv cbv) in Hok by done.
      by injection Hok as <-.
    + right; right.
      rewrite (process_entry_item_current r sv cbv) in Hok by done.
      apply bind_Ok in Hok as (db' & Hw & [= <-]).
      by exists r, sv, cbv, db'.
  - right; left.
    rewrite process_entry_item_new in Hok by done.
    apply bind_Ok in Hok as (db' & Hw & [= <-]).
    by exists db'.
Qed.
End entry_item.

(** ** The version gate (C1) *)

Lemma snoc_neq {A} (l : list A) x : l ++ [x] ≠ l.
Proof.
  intros H. apply (f_equal List.length) in H.
  rewrite length_app in H. simpl in H. lia.
Qed.

Lemma tracker_version_Some db id r sv :
  trackers db !! id = Some r → tr_version r = Some sv →
  tracker_version db id = sv.
Proof. intros Hr Hv. unfold tracker_version. by rewrite Hr, Hv. Qed.

Lemma tracker_version_None db id :
  trackers db !! id = None → tracker_version db id = 0.
Proof. intros Hr. unfold tracker_version. by rewrite Hr. Qed.

Lemma entry_version_Some db d t r sv :
  entries db !! (d, t) = Some r → en_version r = Some sv →
  entry_version db d t = sv.
Proof. intros Hr Hv. unfold entry_version. by rewrite Hr, Hv. Qed.

Lemma entry_version_None db d t :
  entries db !! (d, t) = None → entry_version db d t = 0.
Proof. intros Hr. unfold entry_version. by rewrite Hr. Qed.

(** C1 (as amended).  For a tracker item and for an entry item whose base
    version is an integer (0 when omitted), a completed iteration applies
    the item exactly when the record does not exist or
    [server_version <= client_base_version], and reports a conflict
    carrying both versions exactly when the record exists and
    [server_version > client_base_version].  A missing record has
    [server_version = 0] and passes whatever the base version is; for a
    base version that is not negative the decision is therefore exactly
    [server_version <= client_base_version]. *)
Theorem version_gate_decides :
  (∀ client_id now item s s' tid cbv,
     dict_get_none "id" item = JStr tid →
     as_int (base_version item) = Some cbv →
     process_tracker_item client_id now item s = Ok s' →
     let present := trackers (ls_db s) !! tid in
     let sv := tracker_version (ls_db s) tid in
     ((ls_applied_config s' =
         ls_applied_config s ++ [annotate item (sv + 1) client_id now]
       ∧ ls_conflicts s' = ls_conflicts s)
      ↔ present = None ∨ sv ≤ cbv)
     ∧ ((∃ c, ls_conflicts s' = ls_conflicts s ++ [c]
              ∧ serverVersion c = sv ∧ clientBaseVersion c = cbv
              ∧ ls_applied_config s' = ls_applied_config s)
        ↔ is_Some present ∧ cbv < sv)
     ∧ (present = None → sv = 0)
     ∧ (0 ≤ cbv → (present = None ∨ sv ≤ cbv ↔ sv ≤ cbv)))
  ∧ (∀ client_id now date_str tracker_id data s s' cbv,
       as_int (base_version data) = Some cbv →
       process_entry_item client_id now date_str (tracker_id, data) s = Ok s' →
       let present := entries (ls_db s) !! (date_str, tracker_id) in
       let sv := entry_version (ls_db s) date_str tracker_id in
       ((ls_applied_days s' =
           days_set date_str tracker_id
             (applied_entry (dict_get_none "value" data)
                (dict_get_none "completed" data) (sv + 1) client_id now)
             (ls_applied_days s)
         ∧ ls_conflicts s' = ls_conflicts s)
        ↔ present = None ∨ sv ≤ cbv)
       ∧ ((∃ c, ls_conflicts s' = ls_conflicts s ++ [c]
                ∧ serverVersion c = sv ∧ clientBaseVersion c = cbv
                ∧ ls_applied_days s' = ls_applied_days s)
          ↔ is_Some present ∧ cbv < sv)
       ∧ (present = None → sv = 0)
       ∧ (0 ≤ cbv → (present = None ∨ sv ≤ cbv ↔ sv ≤ cbv))).
Proof.
  split.
  - intros client_id now item s s' tid cbv Hid Hb Hok. simpl.
    apply process_tracker_item_inv in Hok as (tid' & Hid' & Hcase).
    assert (tid' = tid) as -> by congruence.
    split; [|split; [|split]].
    + destruct Hcase as
        [(r & sv & cbv' & Hr & Hv & Hb' & Hlt & ->)
        |[(db' & Hr & Hw & ->)|(r & sv & cbv' & db' & Hr & Hv & Hb' & Hle & Hw & ->)]].
      * simpl. split.
        -- intros [_ Hc]. by apply snoc_neq in Hc.
        -- rewrite (tracker_version_Some _ _ _ _ Hr Hv), Hr.
           intros [?|?]; [done|]. assert (cbv' = cbv) by congruence. lia.
      * simpl. rewrite (tracker_version_None _ _ Hr). split; [by left|done].
      * simpl. rewrite (tracker_version_Some _ _ _ _ Hr Hv).
        assert (cbv' = cbv) as -> by congruence. split; [by right|done].
    + destruct Hcase as
        [(r & sv & cbv' & Hr & Hv & Hb' & Hlt & ->)
        |[(db' & Hr & Hw & ->)|(r & sv & cbv' & db' & Hr & Hv & Hb' & Hle & Hw & ->)]].
      * simpl. rewrite (tracker_version_Some _ _ _ _ Hr Hv), Hr.
        assert (cbv' = cbv) as -> by congruence. split.
        -- intros _. split; [by eexists | done].
        -- intros _. eexists. split; [done|]. done.
      * simpl. rewrite Hr. split.
        -- intros (c & Hc & _). symmetry in Hc. by apply snoc_neq in Hc.
        -- intros [[? [=]] _].
      * simpl. rewrite (tracker_version_Some _ _ _ _ Hr Hv).
        assert (cbv' = cbv) as -> by congruence. split.
        -- intros (c & Hc & _). symmetry in Hc. by apply snoc_neq in Hc.
        -- intros [_ ?]. lia.
    + apply tracker_version_None.
    + intros Hnn. split; [|by right].
      intros [Hnone|?]; [|done]. rewrite (tracker_version_None _ _ Hnone). done.
  - intros client_id now date_str tracker_id data s s' cbv Hb Hok. simpl.
    apply process_entry_item_inv in Hok as Hcase.
    split; [|split; [|split]].
    + destruct Hcase as
        [(r & sv & cbv' & Hr & Hv & Hb' & Hlt & ->)
        |[(db' & Hr & Hw & ->)|(r & sv & cbv' & db' & Hr & Hv & Hb' & Hle & Hw & ->)]].
      * simpl. split.
        -- intros [_ Hc]. by apply snoc_neq in Hc.
        -- rewrite (entry_version_Some _ _ _ _ _ Hr Hv), Hr.
           intros [?|?]; [done|]. assert (cbv' = cbv) by congruence. lia.
      * simpl. rewrite (entry_version_None _ _ _ Hr). split; [by left|done].
      * simpl. rewrite (entry_version_Some _ _ _ _ _ Hr Hv).
        assert (cbv' = cbv) as -> by congruence. split; [by right|done].
    + destruct Hcase as
        [(r & sv & cbv' & Hr & Hv & Hb' & Hlt & ->)
        |[(db' & Hr & Hw & ->)|(r & sv & cbv' & db' & Hr & Hv & Hb' & Hle & Hw & ->)]].
      * simpl. rewrite (entry_version_Some _ _ _ _ _ Hr Hv), Hr.
        assert (cbv' = cbv) as -> by congruence. split.
        -- intros _. split; [by eexists | done].
        -- intros _. eexists. split; [done|]. done.
      * simpl. rewrite Hr. split.
        -- intros (c & Hc & _). symmetry in Hc. by apply snoc_neq in Hc.
        -- intros [[? [=]] _].
      * simpl. rewrite (entry_version_Some _ _ _ _ _ Hr Hv).
        assert (cbv' = cbv) as -> by congruence. split.
        -- intros (c & Hc & _). symmetry in Hc. by apply snoc_neq in Hc.
        -- intros [_ ?]. lia.
    + apply entry_version_None.
    + intros Hnn. split; [|by right].
      intros [Hnone|?]; [|done]. rewrite (entry_version_None _ _ _ Hnone). done.
Qed.

(** Witness of C1: on the database left by [A], [B]'s stale tracker and
    entry (base version 0 against stored version 1) are both reported as
    conflicts. *)
Lemma version_gate_decides_witness :
  let s := begin_update Scenario.db_A "B" Scenario.time_B in
  let st := append_conflict (tracker_conflict "t1" Scenario.row_t1_A 1 0) s in
  let se :=
    append_conflict
      (entry_conflict "2024-01-05" "t1" Scenario.row_entry_A 1 0) s in
  (process_tracker_item "B" Scenario.time_B Scenario.t1_by_B s = Ok st
   ∧ ∃ c, ls_conflicts st = ls_conflicts s ++ [c]
          ∧ serverVersion c = tracker_version (ls_db s) "t1"
          ∧ clientBaseVersion c = 0
          ∧ ls_applied_config st = ls_applied_config s)
  ∧ (process_entry_item "B" Scenario.time_B "2024-01-05"
       ("t1", Scenario.entry_by_B) s = Ok se
     ∧ ∃ c, ls_conflicts se = ls_conflicts s ++ [c]
            ∧ serverVersion c = entry_version (ls_db s) "2024-01-05" "t1"
            ∧ clientBaseVersion c = 0
            ∧ ls_applied_days se = ls_applied_days s).
Proof.
  intros s st se.
  assert (process_tracker_item "B" Scenario.time_B Scenario.t1_by_B s = Ok st)
    as Ht by (vm_compute; reflexivity).
  assert (process_entry_item "B" Scenario.time_B "2024-01-05"
            ("t1", Scenario.entry_by_B) s = Ok se)
    as He by (vm_compute; reflexivity).
  assert (trackers (ls_db s) !! "t1" = Some Scenario.row_t1_A) as Hrt
    by (vm_compute; reflexivity).
  assert (entries (ls_db s) !! ("2024-01-05", "t1") = Some Scenario.row_entry_A)
    as Hre by (vm_compute; reflexivity).
  split; (split; [assumption|]).
  - pose proof (proj1 version_gate_decides "B" Scenario.time_B
                  Scenario.t1_by_B s st "t1" 0 eq_refl eq_refl Ht) as H.
    cbv zeta in H. apply H. split; [by eexists|].
    rewrite (tracker_version_Some _ _ _ 1 Hrt); [lia | reflexivity].
  - pose proof (proj2 version_gate_decides "B" Scenario.time_B "2024-01-05"
                  "t1" Scenario.entry_by_B s se 0 eq_refl He) as H.
    cbv zeta in H. apply H. split; [by eexists|].
    rewrite (entry_version_Some _ _ _ _ 1 Hre); [lia | reflexivity].
Defined.

(** Counterexample to C1 as stated: tracker [t2] is not stored, so its
    server version is 0; the item carries base version -1, so
    [server_version <= client_base_version] fails, and yet the item is
    applied and no conflict is reported. *)
Lemma version_gate_applies_above_base :
  (sync_update Scenario.db_A Scenario.push_negative_base Scenario.time_B).2
  = Ok {| success := true; conflicts := [];
          appliedConfig :=
            [annotate Scenario.t2_negative_base 1 "B" Scenario.time_B];
          appliedDays := []; lastModified := Some Scenario.time_B;
          overwrittenData := [] |}
  ∧ trackers Scenario.db_A !! "t2" = None
  ∧ tracker_version Scenario.db_A "t2" = 0
  ∧ as_int (base_version Scenario.t2_negative_base) = Some (-1)
  ∧ ¬ (tracker_version Scenario.db_A "t2" ≤ -1)
  ∧ tracker_version
      (sync_update Scenario.db_A Scenario.push_negative_base Scenario.time_B).1
      "t2" = 1.
Proof.
  assert (tracker_version Scenario.db_A "t2" = 0) as Hv
    by (vm_compute; reflexivity).
  split; [vm_compute; reflexivity|].
  split; [vm_compute; reflexivity|].
  split; [exact Hv|]. split; [reflexivity|]. split; [rewrite Hv; lia|].
  vm_compute; reflexivity.
Qed.

(** ** Conflicts leave the store alone (C6) *)

Lemma extract_meta_extension_map item :
  NoDup item.*1 → extension_map (extract_meta item).
Proof.
  intros Hnd. unfold extract_meta. split.
  - by apply dict_filter_NoDup.
  - intros k Hk. by apply dict_filter_keys in Hk as (v & Hk & _).
Qed.

Lemma dict_update_extension (d meta : pydict json) :
  extension_map meta → (∀ k, k ∈ d.*1 → k ∈ excluded_keys) →
  dict_update d meta = d ++ meta.
Proof.
  intros [Hnd Hex] Hd. apply dict_update_fresh; [done|].
  intros k Hk Hk'. by apply (Hex k Hk), Hd.
Qed.

Lemma tracker_server_data_extension tid r sv meta :
  tr_meta_json r = Some meta → extension_map meta →
  tracker_server_data tid r sv
  = [("id", JStr tid); ("name", text_json (tr_name r));
     ("category", text_json (tr_category r));
     ("type", text_json (tr_type r)); ("_version", JNum sv)] ++ meta.
Proof.
  intros Hm Hext. unfold tracker_server_data. rewrite Hm.
  apply dict_update_extension; [done|].
  intros k Hk. apply list_elem_of_In in Hk. apply list_elem_of_In.
  unfold excluded_keys. simpl in *. tauto.
Qed.

(** ** What the loops leave alone *)

Lemma same_bookkeeping_refl db : same_bookkeeping db db.
Proof. by repeat split. Qed.

Lemma same_bookkeeping_trans db1 db2 db3 :
  same_bookkeeping db1 db2 → same_bookkeeping db2 db3 →
  same_bookkeeping db1 db3.
Proof.
  intros (H1 & H2 & H3) (H1' & H2' & H3').
  repeat split; congruence.
Qed.

Lemma write_tracker_frame client_id now item tid v db db' :
  write_tracker client_id now item tid v db = Ok db' →
  same_bookkeeping db db' ∧ entries db' = entries db.
Proof.
  unfold write_tracker. destruct (is_deleted item).
  - intros [= <-]. by repeat split.
  - intros Hw.
    apply bind_Ok in Hw as (n & _ & Hw).
    apply bind_Ok in Hw as (c & _ & Hw).
    apply bind_Ok in Hw as (t & _ & [= <-]).
    by repeat split.
Qed.

Lemma write_entry_frame client_id now date_str tid data v db db' :
  write_entry client_id now date_str tid data v db = Ok db' →
  same_bookkeeping db db' ∧ trackers db' = trackers db.
Proof.
  unfold write_entry. intros Hw.
  apply bind_Ok in Hw as (x & _ & [= <-]). by repeat split.
Qed.

Lemma process_tracker_item_frame client_id now item s s' :
  process_tracker_item client_id now item s = Ok s' →
  same_bookkeeping (ls_db s) (ls_db s') ∧ entries (ls_db s') = entries (ls_db s)
  ∧ ls_applied_days s' = ls_applied_days s.
Proof.
  intros (tid & _ & Hcase)%process_tracker_item_inv.
  destruct Hcase as
    [(r & sv & cbv & _ & _ & _ & _ & ->)
    |[(db' & _ & Hw & ->)|(r & sv & cbv & db' & _ & _ & _ & _ & Hw & ->)]];
    simpl.
  - split; [apply same_bookkeeping_refl | done].
  - apply write_tracker_frame in Hw as [? ?]. done.
  - apply write_tracker_frame in Hw as [? ?]. done.
Qed.

Lemma process_entry_item_frame client_id now date_str kv s s' :
  process_entry_item client_id now date_str kv s = Ok s' →
  same_bookkeeping (ls_db s) (ls_db s') ∧ trackers (ls_db s') = trackers (ls_db s)
  ∧ ls_applied_config s' = ls_applied_config s.
Proof.
  destruct kv as [tid data].
  intros Hcase%process_entry_item_inv.
  destruct Hcase as
    [(r & sv & cbv & _ & _ & _ & _ & ->)
    |[(db' & _ & Hw & ->)|(r & sv & cbv & db' & _ & _ & _ & _ & Hw & ->)]];
    simpl.
  - split; [apply same_bookkeeping_refl | done].
  - apply write_entry_frame in Hw as [? ?]. done.
  - apply write_entry_frame in Hw as [? ?]. done.
Qed.

Lemma process_config_frame client_id now items s s' :
  process_config client_id now items s = Ok s' →
  same_bookkeeping (ls_db s) (ls_db s') ∧ entries (ls_db s') = entries (ls_db s)
  ∧ ls_applied_days s' = ls_applied_days s.
Proof.
  revert s. induction items as [|item items IH]; simpl; intros s.
  - intros [= <-]. split; [apply same_bookkeeping_refl | done].
  - intros (s1 & Hstep & Hrest)%bind_Ok.
    apply process_tracker_item_frame in Hstep as (Hb & He & Hd).
    apply IH in Hrest as (Hb' & He' & Hd').
    split; [by eapply same_bookkeeping_trans|]. split; congruence.
Qed.

Lemma process_trackers_map_frame client_id now date_str m s s' :
  process_trackers_map client_id now date_str m s = Ok s' →
  same_bookkeeping (ls_db s) (ls_db s') ∧ trackers (ls_db s') = trackers (ls_db s)
  ∧ ls_applied_config s' = ls_applied_config s.
Proof.
  revert s. induction m as [|kv m IH]; simpl; intros s.
  - intros [= <-]. split; [apply same_bookkeeping_refl | done].
  - intros (s1 & Hstep & Hrest)%bind_Ok.
    apply process_entry_item_frame in Hstep as (Hb & He & Hd).
    apply IH in Hrest as (Hb' & He' & Hd').
    split; [by eapply same_bookkeeping_trans|]. split; congruence.
Qed.

Lemma process_days_frame client_id now dys s s' :
  process_days client_id now dys s = Ok s' →
  same_bookkeeping (ls_db s) (ls_db s') ∧ trackers (ls_db s') = trackers (ls_db s)
  ∧ ls_applied_config s' = ls_applied_config s.
Proof.
  revert s. induction dys as [|[d m] dys IH]; simpl; intros s.
  - intros [= <-]. split; [apply same_bookkeeping_refl | done].
  - intros (s1 & Hstep & Hrest)%bind_Ok.
    apply process_trackers_map_frame in Hstep as (Hb & He & Hd).
    apply IH in Hrest as (Hb' & He' & Hd'). simpl in *.
    split; [by eapply same_bookkeeping_trans|]. split; congruence.
Qed.

(** The two loops of [sync_update], run one after the other. *)
Lemma sync_update_loops db payload now db' resp :
  sync_update db payload now = (db', Ok resp) →
  ∃ s,
    process_config (clientId payload) now (config payload)
      (begin_update db (clientId payload) now)
      ≫= process_days (clientId payload) now (days payload) = Ok s
    ∧ db' = (if no_conflicts (ls_conflicts s)
             then set_meta_sync (insert last_server_sync_time now) (ls_db s)
             else ls_db s)
    ∧ resp = {| success := no_conflicts (ls_conflicts s);
                conflicts := ls_conflicts s;
                appliedConfig := ls_applied_config s;
                appliedDays := ls_applied_days s;
                lastModified :=
                  if no_conflicts (ls_conflicts s) then Some now else None;
                overwrittenData := [] |}.
Proof.
  unfold sync_update. simpl.
  destruct (process_config _ _ _ _ ≫= _) as [s|f]; [|done].
  intros [= <- <-]. by exists s.
Qed.

Lemma sync_update_loops_frame db payload now s :
  process_config (clientId payload) now (config payload)
    (begin_update db (clientId payload) now)
    ≫= process_days (clientId payload) now (days payload) = Ok s →
  meta_sync (ls_db s) = meta_sync db
  ∧ sync_conflicts (ls_db s) = sync_conflicts db.
Proof.
  intros (s1 & H1 & H2)%bind_Ok.
  apply process_config_frame in H1 as ((_ & Hm & Hc) & _).
  apply process_days_frame in H2 as ((_ & Hm' & Hc') & _).
  simpl in *. split; congruence.
Qed.

(** ** The watermark (C3) *)

(** C3.  When [sync_update] completes, the watermark is set to the time
    of the request, and returned as [lastModified], exactly when the
    batch produced no conflict; with one conflict or more the watermark
    is what it was before the request and [lastModified] is empty.  In
    both cases the trackers and entries committed are those the two loops
    wrote, and the applied items are reported.  When [sync_update] fails
    the transaction is rolled back and the database, watermark included,
    is what it was. *)
Theorem watermark_advances_iff_no_conflicts db payload now :
  let out := sync_update db payload now in
  match out.2 with
  | Ok resp =>
      (conflicts resp = [] →
         sync_status out.1 = Some now ∧ lastModified resp = Some now
         ∧ success resp = true)
      ∧ (conflicts resp ≠ [] →
           sync_status out.1 = sync_status db
           ∧ meta_sync out.1 = meta_sync db
           ∧ lastModified resp = None ∧ success resp = false)
      ∧ (∃ s,
           process_config (clientId payload) now (config payload)
             (begin_update db (clientId payload) now)
             ≫= process_days (clientId payload) now (days payload) = Ok s
           ∧ trackers out.1 = trackers (ls_db s)
           ∧ entries out.1 = entries (ls_db s)
           ∧ appliedConfig resp = ls_applied_config s
           ∧ appliedDays resp = ls_applied_days s
           ∧ conflicts resp = ls_conflicts s)
  | Err _ => out.1 = db
  end.
Proof.
  intros out. subst out.
  destruct (sync_update db payload now) as [db' [resp|f]] eqn:Hup; simpl.
  - apply sync_update_loops in Hup as (s & Hloops & -> & ->). simpl.
    pose proof (sync_update_loops_frame _ _ _ _ Hloops) as [Hm _].
    split; [|split].
    + intros ->. simpl. unfold sync_status. simpl.
      by rewrite lookup_insert_eq.
    + intros Hne. destruct (ls_conflicts s) as [|c cs]; [done|]. simpl.
      unfold sync_status. by rewrite Hm.
    + exists s. split; [done|].
      by destruct (no_conflicts (ls_conflicts s)).
  - unfold sync_update in Hup. simpl in Hup.
    destruct (process_config _ _ _ _ ≫= _); [done|].
    by injection Hup as <- _.
Qed.

(** Witness of C3: a batch of five new trackers and one stale item.  The
    five are stored at version 1, the stale item leaves [t1] at version
    1, and the watermark stays at the time of [A]'s push. *)
Lemma watermark_advances_iff_no_conflicts_witness :
  let out := sync_update Scenario.db_A Scenario.push_mixed Scenario.time_B in
  out.2 = Ok Scenario.resp_mixed
  ∧ sync_status out.1 = sync_status Scenario.db_A
  ∧ sync_status Scenario.db_A = Some Scenario.time_A
  ∧ map (tracker_version out.1) ["t1"; "t2"; "t3"; "t4"; "t5"; "t6"]
    = [1; 1; 1; 1; 1; 1]
  ∧ map (tracker_version Scenario.db_A) ["t1"; "t2"; "t3"; "t4"; "t5"; "t6"]
    = [1; 0; 0; 0; 0; 0].
Proof.
  intros out.
  assert (out.2 = Ok Scenario.resp_mixed) as Hout
    by (vm_compute; reflexivity).
  split; [exact Hout|].
  split.
  - pose proof (watermark_advances_iff_no_conflicts
                  Scenario.db_A Scenario.push_mixed Scenario.time_B) as H.
    cbv zeta in H. fold out in H. rewrite Hout in H.
    destruct H as (_ & Hc & _). by apply Hc.
  - split; [vm_compute; reflexivity|]. split; vm_compute; reflexivity.
Defined.

(** ** The conflict ledger (C2, C9) *)

Lemma sync_update_ledger db payload now :
  sync_conflicts (sync_update db payload now).1 = sync_conflicts db.
Proof.
  destruct (sync_update db payload now) as [db' [resp|f]] eqn:Hup.
  - apply sync_update_loops in Hup as (s & Hloops & -> & _).
    apply sync_update_loops_frame in Hloops as [_ Hc]. simpl.
    by destruct (no_conflicts (ls_conflicts s)).
  - unfold sync_update in Hup. simpl in Hup.
    destruct (process_config _ _ _ _ ≫= _); [done|].
    by injection Hup as <- _.
Qed.

Lemma force_tracker_ledger db entity_id client_id now d db' :
  force_tracker db entity_id client_id now d = Ok db' →
  sync_conflicts db' = sync_conflicts db ∧ meta_sync db' = meta_sync db
  ∧ entries db' = entries db.
Proof.
  unfold force_tracker. intros H.
  apply bind_Ok in H as (v & _ & H).
  apply bind_Ok in H as (n & _ & H).
  apply bind_Ok in H as (c & _ & H).
  apply bind_Ok in H as (t & _ & [= <-]). done.
Qed.

Lemma force_entry_ledger db entity_id client_id now d db' :
  force_entry db entity_id client_id now d = Ok db' →
  sync_conflicts db' = sync_conflicts db ∧ meta_sync db' = meta_sync db
  ∧ trackers db' = trackers db.
Proof.
  unfold force_entry. intros H.
  apply bind_Ok in H as (k & _ & H).
  apply bind_Ok in H as (v & _ & H).
  apply bind_Ok in H as (x & _ & [= <-]). done.
Qed.

(** [resolve_conflict] either commits nothing or appends one row, stamped
    with the time of the request in [resolved_at]. *)
Lemma resolve_conflict_ledger db entity_type entity_id resolution client_id
    client_data now :
  let db' := (resolve_conflict db entity_type entity_id resolution client_id
                client_data now).1 in
  sync_conflicts db' = sync_conflicts db
  ∨ sync_conflicts db' =
      log_resolution entity_type entity_id resolution client_id client_data
        now (sync_conflicts db).
Proof.
  unfold resolve_conflict.
  destruct (forced_payload resolution client_data) as [d|]; simpl.
  - destruct (String.eqb entity_type "tracker").
    + destruct (force_tracker db entity_id client_id now d) as [db1|f] eqn:Hf;
        simpl; [|by left].
      apply force_tracker_ledger in Hf as (-> & _). by right.
    + destruct (String.eqb entity_type "entry"); simpl; [|by right].
      destruct (force_entry db entity_id client_id now d) as [db1|f] eqn:Hf;
        simpl; [|by left].
      apply force_entry_ledger in Hf as (-> & _). by right.
  - by right.
Qed.

Lemma log_resolution_resolved entity_type entity_id resolution client_id
    client_data now ledger :
  all_resolved ledger →
  all_resolved (log_resolution entity_type entity_id resolution client_id
                  client_data now ledger).
Proof.
  intros H. unfold log_resolution, all_resolved.
  apply Forall_app. split; [done|].
  apply Forall_singleton. by eexists.
Qed.

Lemma handle_resolved db r :
  all_resolved (sync_conflicts db) →
  all_resolved (sync_conflicts (handle db r)).
Proof.
  intros H. destruct r; simpl.
  - done.
  - by rewrite sync_update_ledger.
  - destruct (resolve_conflict_ledger db entity_type entity_id resolution
                client_id client_data now) as [->| ->]; [done|].
    by apply log_resolution_resolved.
Qed.

Lemma fold_handle_resolved history db :
  all_resolved (sync_conflicts db) →
  all_resolved (sync_conflicts (fold_left handle history db)).
Proof.
  revert db. induction history as [|r history IH]; simpl; intros db H;
    [done|].
  by apply IH, handle_resolved.
Qed.

Lemma no_unresolved_rows client_id ledger :
  all_resolved ledger →
  filter (λ row, Is_true (unresolved_for client_id row)) ledger = [].
Proof.
  induction 1 as [|row ledger [t Ht] _ IH]; [done|].
  rewrite filter_cons, IH.
  destruct (decide _) as [Hu|_]; [|done].
  unfold unresolved_for in Hu. rewrite Ht in Hu.
  by destruct (sc_client_id row).
Qed.

(** C9.  After any history of requests on a fresh server, every row of
    [sync_conflicts] has a [resolved_at]: [register_client] and
    [sync_update] never write the ledger, and [resolve_conflict] only
    appends a row that it stamps with the time of the request.  So the
    query of [get_unresolved_conflicts] returns the empty list for every
    client. *)
Theorem ledger_rows_are_born_resolved :
  (∀ db client_id client_name now,
     sync_conflicts (handle db (Register client_id client_name now))
     = sync_conflicts db)
  ∧ (∀ db payload now,
       sync_conflicts (handle db (Update payload now)) = sync_conflicts db)
  ∧ (∀ db entity_type entity_id resolution client_id client_data now,
       let ledger' :=
         sync_conflicts
           (handle db (Resolve entity_type entity_id resolution client_id
                         client_data now)) in
       ledger' = sync_conflicts db
       ∨ ∃ row, ledger' = sync_conflicts db ++ [row]
                ∧ sc_resolved_at row = Some now)
  ∧ (∀ history,
       all_resolved (sync_conflicts (run history))
       ∧ ∀ client_id, get_unresolved_conflicts (run history) client_id = []).
Proof.
  split; [done|]. split; [intros; apply sync_update_ledger|]. split.
  - intros db entity_type entity_id resolution client_id client_data now.
    simpl.
    destruct (resolve_conflict_ledger db entity_type entity_id resolution
                client_id client_data now) as [->| ->]; [by left|].
    right. by eexists.
  - intros history.
    assert (all_resolved (sync_conflicts (run history))) as H
      by (apply fold_handle_resolved; constructor).
    split; [done|]. intros client_id.
    unfold get_unresolved_conflicts. by rewrite no_unresolved_rows.
Qed.

(** C2 on the code.  [sync_update] never writes [sync_conflicts]: for
    every push the ledger, and with it the unresolved conflicts listed for
    any client, are after the push what they were before.  On the
    scenario: [B]'s stale push of [t1] is answered with a conflict, the
    ledger stays empty, and the list of unresolved conflicts of [B] is
    empty afterwards. *)
Theorem conflict_is_not_logged :
  (∀ db payload now client_id,
     sync_conflicts (sync_update db payload now).1 = sync_conflicts db
     ∧ get_unresolved_conflicts (sync_update db payload now).1 client_id
       = get_unresolved_conflicts db client_id)
  ∧ (sync_update Scenario.db_A Scenario.push_B Scenario.time_B).2
    = Ok Scenario.resp_B
  ∧ conflicts Scenario.resp_B
    = [{| entityType := "tracker"; entityId := "t1"; serverVersion := 1;
          clientBaseVersion := 0;
          serverData :=
            [("id", JStr "t1"); ("name", JStr "Run"); ("category", JStr "");
             ("type", JStr "simple"); ("_version", JNum 1);
             ("goal", JNum 10); ("unit", JStr "km")] |}]
  ∧ sync_conflicts Scenario.db_B = []
  ∧ get_unresolved_conflicts Scenario.db_B "B" = [].
Proof.
  split.
  { intros db payload now client_id.
    split; [apply sync_update_ledger|].
    unfold get_unresolved_conflicts. by rewrite sync_update_ledger. }
  split; [vm_compute; reflexivity|]. split; [reflexivity|].
  split; vm_compute; reflexivity.
Qed.

(** ** Forced applies (C5) *)

Lemma force_tracker_inv db id client_id now d db' :
  force_tracker db id client_id now d = Ok db' →
  ∃ n c t,
    bind_text (dict_get_none "name" d) = Ok n
    ∧ bind_text (dict_get_default "category" (JStr "") d) = Ok c
    ∧ bind_text (dict_get_default "type" (JStr "simple") d) = Ok t
    ∧ (trackers db !! id = None
       ∨ ∃ r v, trackers db !! id = Some r ∧ tr_version r = Some v)
    ∧ db' = set_trackers
              (insert id
                 (new_tracker_row n c t (extract_meta d)
                    (tracker_version db id + 1) client_id now)) db.
Proof.
  unfold force_tracker, tracker_version. intros H.
  apply bind_Ok in H as (nv & Hv & H).
  apply bind_Ok in H as (n & Hn & H).
  apply bind_Ok in H as (c & Hc & H).
  apply bind_Ok in H as (t & Ht & [= <-]).
  exists n, c, t. repeat (split; [done|]).
  destruct (trackers db !! id) as [r|].
  - destruct (tr_version r) as [v|] eqn:Hr; [|done]. simpl in Hv.
    injection Hv as <-. split; [right; by exists r, v | done].
  - injection Hv as <-. split; [by left | done].
Qed.

Lemma force_tracker_intro db id client_id now d n c t :
  bind_text (dict_get_none "name" d) = Ok n →
  bind_text (dict_get_default "category" (JStr "") d) = Ok c →
  bind_text (dict_get_default "type" (JStr "simple") d) = Ok t →
  (trackers db !! id = None
   ∨ ∃ r v, trackers db !! id = Some r ∧ tr_version r = Some v) →
  force_tracker db id client_id now d
  = Ok (set_trackers
          (insert id
             (new_tracker_row n c t (extract_meta d)
                (tracker_version db id + 1) client_id now)) db).
Proof.
  intros Hn Hc Ht Hrow. unfold force_tracker, tracker_version.
  destruct Hrow as [->|(r & v & -> & ->)]; simpl;
    rewrite Hn; simpl; rewrite Hc; simpl; rewrite Ht; reflexivity.
Qed.

Lemma force_entry_inv db entity_id client_id now d db' :
  force_entry db entity_id client_id now d = Ok db' →
  ∃ date_str tracker_id x,
    split_entity_id entity_id = Ok (date_str, tracker_id)
    ∧ bind_real (dict_get_none "value" d) = Ok x
    ∧ (entries db !! (date_str, tracker_id) = None
       ∨ ∃ r v, entries db !! (date_str, tracker_id) = Some r
                ∧ en_version r = Some v)
    ∧ db' = set_entries
              (insert (date_str, tracker_id)
                 (new_entry_row x (dict_get_none "completed" d)
                    (entry_version db date_str tracker_id + 1) client_id now))
              db.
Proof.
  unfold force_entry, entry_version. intros H.
  apply bind_Ok in H as ([date_str tracker_id] & Hk & H).
  apply bind_Ok in H as (nv & Hv & H).
  apply bind_Ok in H as (x & Hx & [= <-]).
  exists date_str, tracker_id, x. repeat (split; [done|]).
  destruct (entries db !! (date_str, tracker_id)) as [r|].
  - destruct (en_version r) as [v|] eqn:Hr; [|done]. simpl in Hv.
    injection Hv as <-. split; [right; by exists r, v | done].
  - injection Hv as <-. split; [by left | done].
Qed.

Lemma force_entry_intro db entity_id client_id now d date_str tracker_id x :
  split_entity_id entity_id = Ok (date_str, tracker_id) →
  bind_real (dict_get_none "value" d) = Ok x →
  (entries db !! (date_str, tracker_id) = None
   ∨ ∃ r v, entries db !! (date_str, tracker_id) = Some r
            ∧ en_version r = Some v) →
  force_entry db entity_id client_id now d
  = Ok (set_entries
          (insert (date_str, tracker_id)
             (new_entry_row x (dict_get_none "completed" d)
                (entry_version db date_str tracker_id + 1) client_id now)) db).
Proof.
  intros Hk Hx Hrow. unfold force_entry, entry_version.
  rewrite Hk. simpl.
  destruct Hrow as [->|(r & v & -> & ->)]; simpl;
    rewrite Hx; reflexivity.
Qed.

(** The forced apply of a tracker, as [resolve_conflict] commits it. *)
Lemma resolve_client_tracker db id client_id d now :
  d ≠ [] →
  resolve_conflict db "tracker" id "client" client_id (Some d) now
  = match force_tracker db id client_id now d with
    | Ok db1 =>
        (set_meta_sync (insert last_server_sync_time now)
           (set_sync_conflicts
              (log_resolution "tracker" id "client" client_id (Some d) now)
              db1),
         Ok [("status", JStr "ok"); ("resolution", JStr "client");
             ("entityId", JStr id)])
    | Err f => (db, Err f)
    end.
Proof. intros Hd. destruct d; [done|]. reflexivity. Qed.

(** The forced apply of an entry, as [resolve_conflict] commits it. *)
Lemma resolve_client_entry db id client_id d now :
  d ≠ [] →
  resolve_conflict db "entry" id "client" client_id (Some d) now
  = match force_entry db id client_id now d with
    | Ok db1 =>
        (set_meta_sync (insert last_server_sync_time now)
           (set_sync_conflicts
              (log_resolution "entry" id "client" client_id (Some d) now)
              db1),
         Ok [("status", JStr "ok"); ("resolution", JStr "client");
             ("entityId", JStr id)])
    | Err f => (db, Err f)
    end.
Proof. intros Hd. destruct d; [done|]. reflexivity. Qed.

Lemma tracker_version_insert db id row v :
  tr_version row = Some v →
  tracker_version (set_trackers (insert id row) db) id = v.
Proof.
  intros Hv. unfold tracker_version. simpl.
  by rewrite lookup_insert_eq, Hv.
Qed.

Lemma entry_version_insert db d t row v :
  en_version row = Some v →
  entry_version (set_entries (insert (d, t) row) db) d t = v.
Proof.
  intros Hv. unfold entry_version. simpl.
  by rewrite lookup_insert_eq, Hv.
Qed.

(** C5 (as amended).  [resolve_conflict] keeps no record of what has been
    resolved, so every completed call with resolution ["client"] and a
    non-empty payload is a forced apply of its own: it raises the stored
    version by one and appends one resolved row to the ledger.  A second
    call with the same arguments therefore completes as well and leaves
    the version two above where it started, for a tracker and for an
    entry alike. *)
Theorem resolve_twice_increments_twice :
  (∀ db id client_id d now1 now2 db1 r1,
     d ≠ [] →
     resolve_conflict db "tracker" id "client" client_id (Some d) now1
     = (db1, Ok r1) →
     ∃ db2 r2,
       resolve_conflict db1 "tracker" id "client" client_id (Some d) now2
       = (db2, Ok r2)
       ∧ tracker_version db1 id = tracker_version db id + 1
       ∧ tracker_version db2 id = tracker_version db id + 2
       ∧ List.length (sync_conflicts db2)
         = S (S (List.length (sync_conflicts db))))
  ∧ (∀ db id date_str tracker_id client_id d now1 now2 db1 r1,
       d ≠ [] →
       split_entity_id id = Ok (date_str, tracker_id) →
       resolve_conflict db "entry" id "client" client_id (Some d) now1
       = (db1, Ok r1) →
       ∃ db2 r2,
         resolve_conflict db1 "entry" id "client" client_id (Some d) now2
         = (db2, Ok r2)
         ∧ entry_version db1 date_str tracker_id
           = entry_version db date_str tracker_id + 1
         ∧ entry_version db2 date_str tracker_id
           = entry_version db date_str tracker_id + 2
         ∧ List.length (sync_conflicts db2)
           = S (S (List.length (sync_conflicts db)))).
Proof.
  split.
  - intros db id client_id d now1 now2 db1 r1 Hd H1.
    rewrite resolve_client_tracker in H1 by done.
    destruct (force_tracker db id client_id now1 d) as [dbf|f] eqn:Hf;
      [|done].
    injection H1 as <- <-.
    apply force_tracker_inv in Hf as (n & c & t & Hn & Hc & Ht & _ & ->).
    set (row1 := new_tracker_row n c t (extract_meta d)
                   (tracker_version db id + 1) client_id now1).
    set (db1 := set_meta_sync _ _).
    assert (trackers db1 !! id = Some row1) as Hrow1
      by (subst db1; simpl; apply lookup_insert_eq).
    assert (tracker_version db1 id = tracker_version db id + 1) as Hv1
      by (by apply (tracker_version_Some _ _ row1)).
    rewrite resolve_client_tracker by done.
    rewrite (force_tracker_intro db1 id client_id now2 d n c t Hn Hc Ht)
      by (right; by exists row1, (tracker_version db id + 1)).
    eexists _, _. split; [reflexivity|]. split; [done|]. split.
    + unfold tracker_version at 1. simpl.
      rewrite lookup_insert_eq. simpl. rewrite Hv1. lia.
    + subst db1. simpl. unfold log_resolution.
      rewrite !length_app. simpl. lia.
  - intros db id date_str tracker_id client_id d now1 now2 db1 r1 Hd Hk H1.
    rewrite resolve_client_entry in H1 by done.
    destruct (force_entry db id client_id now1 d) as [dbf|f] eqn:Hf;
      [|done].
    injection H1 as <- <-.
    apply force_entry_inv in Hf as (d' & t' & x & Hk' & Hx & _ & ->).
    assert (d' = date_str ∧ t' = tracker_id) as [-> ->]
      by (split; congruence).
    set (row1 := new_entry_row x (dict_get_none "completed" d)
                   (entry_version db date_str tracker_id + 1) client_id now1).
    set (db1 := set_meta_sync _ _).
    assert (entries db1 !! (date_str, tracker_id) = Some row1) as Hrow1
      by (subst db1; simpl; apply lookup_insert_eq).
    assert (entry_version db1 date_str tracker_id
            = entry_version db date_str tracker_id + 1) as Hv1
      by (by apply (entry_version_Some _ _ _ row1)).
    rewrite resolve_client_entry by done.
    rewrite (force_entry_intro db1 id client_id now2 d date_str tracker_id x
               Hk Hx)
      by (right; by exists row1, (entry_version db date_str tracker_id + 1)).
    eexists _, _. split; [reflexivity|]. split; [done|]. split.
    + unfold entry_version at 1. simpl.
      rewrite lookup_insert_eq. simpl. rewrite Hv1. lia.
    + subst db1. simpl. unfold log_resolution.
      rewrite !length_app. simpl. lia.
Qed.

(** Witness of C5: [B] resolves the conflict on [t1] twice with the same
    arguments; the entry of 2024-01-05 is resolved twice as well. *)
Lemma resolve_twice_increments_twice_witness :
  tracker_version Scenario.db_D "t1" = tracker_version Scenario.db_B "t1" + 2
  ∧ ∃ db1 db2 r1 r2,
      resolve_conflict Scenario.db_B "entry" "2024-01-05|t1" "client" "B"
        (Some Scenario.entry_by_B) Scenario.time_C = (db1, Ok r1)
      ∧ resolve_conflict db1 "entry" "2024-01-05|t1" "client" "B"
          (Some Scenario.entry_by_B) Scenario.time_D = (db2, Ok r2)
      ∧ entry_version db2 "2024-01-05" "t1"
        = entry_version Scenario.db_B "2024-01-05" "t1" + 2.
Proof.
  split.
  - destruct (proj1 resolve_twice_increments_twice Scenario.db_B "t1" "B"
                Scenario.t1_by_B Scenario.time_C Scenario.time_D Scenario.db_C
                [("status", JStr "ok"); ("resolution", JStr "client");
                 ("entityId", JStr "t1")])
      as (db2 & r2 & Hres & _ & Hv & _);
      [discriminate | vm_compute; reflexivity |].
    unfold Scenario.db_D, Scenario.resolve_B. rewrite Hres. exact Hv.
  - set (db1 := (resolve_conflict Scenario.db_B "entry" "2024-01-05|t1"
                   "client" "B" (Some Scenario.entry_by_B) Scenario.time_C).1).
    assert (resolve_conflict Scenario.db_B "entry" "2024-01-05|t1" "client"
              "B" (Some Scenario.entry_by_B) Scenario.time_C
            = (db1, Ok [("status", JStr "ok"); ("resolution", JStr "client");
                        ("entityId", JStr "2024-01-05|t1")])) as H1
      by (vm_compute; reflexivity).
    destruct (proj2 resolve_twice_increments_twice Scenario.db_B
                "2024-01-05|t1" "2024-01-05" "t1" "B" Scenario.entry_by_B
                Scenario.time_C Scenario.time_D db1 _ ltac:(discriminate)
                eq_refl H1)
      as (db2 & r2 & Hres & _ & Hv & _).
    eexists db1, db2, _, r2. split; [exact H1|]. split; [exact Hres|].
    exact Hv.
Defined.

(** Counterexample to C5 as stated: after [A]'s push, [B]'s stale push and
    [B]'s first resolution, tracker [t1] is at version 2 (the single
    forced apply).  The same resolution sent again is not rejected and
    stores version 3. *)
Lemma second_resolution_increments_again :
  tracker_version Scenario.db_B "t1" = 1
  ∧ tracker_version Scenario.db_C "t1" = 2
  ∧ (resolve_conflict Scenario.db_C "tracker" "t1" "client" "B"
       (Some Scenario.t1_by_B) Scenario.time_D).2
    = Ok [("status", JStr "ok"); ("resolution", JStr "client");
          ("entityId", JStr "t1")]
  ∧ tracker_version Scenario.db_D "t1" = 3
  ∧ tracker_version Scenario.db_D "t1" ≠ tracker_version Scenario.db_C "t1"
  ∧ List.length (sync_conflicts Scenario.db_D) = 2%nat.
Proof.
  assert (tracker_version Scenario.db_C "t1" = 2) as HC
    by (vm_compute; reflexivity).
  assert (tracker_version Scenario.db_D "t1" = 3) as HD
    by (vm_compute; reflexivity).
  split; [vm_compute; reflexivity|]. split; [exact HC|].
  split; [vm_compute; reflexivity|]. split; [exact HD|].
  split; [rewrite HC, HD; lia | vm_compute; reflexivity].
Qed.

(** ** Snapshots (C8) *)

Lemma modified_since_spec since t :
  modified_since since t = true ↔ changed_after since t.
Proof.
  unfold modified_since, changed_after. destruct t as [t|].
  - split; [intros H; right; by exists t | by intros [[=]|(? & [= <-] & ?)]].
  - split; [by left | done].
Qed.

Lemma split_trackers_fold rows cfg del :
  fold_left
    (λ (acc : list (list (string * json)) * list string)
       (r : string * tracker_row),
       if deleted_flag r.2 then (acc.1, acc.2 ++ [r.1])
       else (acc.1 ++ [tracker_json r.1 r.2], acc.2))
    rows (cfg, del)
  = (cfg ++ map (λ r, tracker_json r.1 r.2)
              (filter (λ r, ¬ Is_true (deleted_flag r.2)) rows),
     del ++ map fst (filter (λ r, Is_true (deleted_flag r.2)) rows)).
Proof.
  revert cfg del. induction rows as [|[id row] rows IH]; intros cfg del.
  - simpl. by rewrite !app_nil_r.
  - rewrite !filter_cons. simpl.
    destruct (deleted_flag row) eqn:Hd; simpl; rewrite IH.
    + destruct (decide (¬ True)) as [Hn|_]; [exfalso; tauto|].
      destruct (decide True) as [_|Hn]; [|exfalso; tauto].
      simpl. by rewrite <- app_assoc.
    + destruct (decide (¬ False)) as [_|Hn]; [|exfalso; apply Hn; tauto].
      destruct (decide False) as [[]|_].
      simpl. by rewrite <- app_assoc.
Qed.

Lemma split_trackers_spec rows :
  split_trackers rows
  = (map (λ r, tracker_json r.1 r.2)
       (filter (λ r, ¬ Is_true (deleted_flag r.2)) rows),
     map fst (filter (λ r, Is_true (deleted_flag r.2)) rows)).
Proof. unfold split_trackers. by rewrite split_trackers_fold. Qed.

Lemma days_get_set_eq d t v dys : days_get d t (days_set d t v dys) = Some v.
Proof.
  unfold days_get, days_set. rewrite dict_get_set_eq. simpl.
  apply dict_get_set_eq.
Qed.

Lemma days_get_set_ne d t d' t' v dys :
  (d, t) ≠ (d', t') → days_get d t (days_set d' t' v dys) = days_get d t dys.
Proof.
  intros Hne. unfold days_get, days_set.
  destruct (decide (d = d')) as [->|Hd].
  - rewrite dict_get_set_eq. simpl.
    rewrite dict_get_set_ne by congruence.
    by destruct (dict_get d' dys).
  - by rewrite dict_get_set_ne.
Qed.

Lemma collect_days_fold_other (rows : list (string * string * entry_row))
    d t acc :
  (d, t) ∉ rows.*1 →
  days_get d t
    (fold_left (λ dys r, days_set r.1.1 r.1.2 (entry_json r.2) dys) rows acc)
  = days_get d t acc.
Proof.
  revert acc. induction rows as [|[[d' t'] r] rows IH]; intros acc; [done|].
  rewrite fmap_cons, not_elem_of_cons. simpl. intros [Hne Hnin].
  rewrite IH by done. by apply days_get_set_ne.
Qed.

Lemma collect_days_fold_elem (rows : list (string * string * entry_row))
    d t r acc :
  NoDup rows.*1 → (d, t, r) ∈ rows →
  days_get d t
    (fold_left (λ dys r, days_set r.1.1 r.1.2 (entry_json r.2) dys) rows acc)
  = Some (entry_json r).
Proof.
  revert acc. induction rows as [|[[d' t'] r'] rows IH]; intros acc.
  - intros _ Hin. by apply elem_of_nil in Hin.
  - rewrite fmap_cons. intros [Hnin Hnd]%NoDup_cons.
    intros [[= -> -> ->]|Hin]%elem_of_cons; simpl.
    + rewrite collect_days_fold_other by done. apply days_get_set_eq.
    + by apply IH.
Qed.

Lemma collect_days_spec (rows : list (string * string * entry_row)) d t e :
  NoDup rows.*1 →
  days_get d t (collect_days rows) = Some e
  ↔ ∃ r, (d, t, r) ∈ rows ∧ e = entry_json r.
Proof.
  intros Hnd. unfold collect_days. split.
  - intros Hget.
    destruct (decide ((d, t) ∈ rows.*1)) as [Hin|Hnin].
    + apply list_elem_of_fmap in Hin as ([[d' t'] r] & [= <- <-] & Hin).
      exists r. split; [done|].
      rewrite (collect_days_fold_elem rows d t r) in Hget by done.
      congruence.
    + rewrite collect_days_fold_other in Hget by done. done.
  - intros (r & Hin & ->). by apply collect_days_fold_elem.
Qed.

Lemma filter_rows_NoDup {K A} `{Countable K} (m : gmap K A)
    (P : K * A → Prop) `{!∀ x, Decision (P x)} :
  NoDup (filter P (map_to_list m)).*1.
Proof.
  apply (sublist_NoDup _ (map_to_list m).*1);
    [apply NoDup_fst_map_to_list|].
  apply fmap_sublist, sublist_filter.
Qed.

Lemma sync_delta_deleted db since client_id seven_days_ago now id :
  id ∈ deletedTrackers (sync_delta db since client_id seven_days_ago now)
  ↔ ∃ row, trackers db !! id = Some row
           ∧ changed_after since (tr_last_modified_at row)
           ∧ deleted_flag row = true.
Proof.
  unfold sync_delta. rewrite split_trackers_spec. simpl.
  rewrite list_elem_of_fmap. split.
  - intros ([id' row] & -> & Hin). simpl.
    apply list_elem_of_filter in Hin as [Hd Hin].
    apply list_elem_of_filter in Hin as [Hm Hin].
    apply elem_of_map_to_list in Hin. simpl in *.
    exists row. split; [done|].
    split; [by apply modified_since_spec, Is_true_true | by apply Is_true_true].
  - intros (row & Hrow & Hm & Hd). exists (id, row). split; [done|].
    apply list_elem_of_filter. split; [by apply Is_true_true|].
    apply list_elem_of_filter. simpl.
    split; [by apply Is_true_true, modified_since_spec|].
    by apply elem_of_map_to_list.
Qed.

Lemma sync_delta_deleted_NoDup db since client_id seven_days_ago now :
  NoDup (deletedTrackers (sync_delta db since client_id seven_days_ago now)).
Proof.
  unfold sync_delta. rewrite split_trackers_spec. simpl.
  apply (sublist_NoDup _
           (filter (λ r : string * tracker_row,
              Is_true (modified_since since (tr_last_modified_at r.2)))
              (map_to_list (trackers db))).*1);
    [apply filter_rows_NoDup|].
  apply fmap_sublist, sublist_filter.
Qed.

Lemma sync_delta_config db since client_id seven_days_ago now t :
  t ∈ ds_config (sync_delta db since client_id seven_days_ago now)
  ↔ ∃ id row, trackers db !! id = Some row
              ∧ changed_after since (tr_last_modified_at row)
              ∧ deleted_flag row = false
              ∧ t = tracker_json id row.
Proof.
  unfold sync_delta. rewrite split_trackers_spec. simpl.
  rewrite list_elem_of_fmap. split.
  - intros ([id row] & -> & Hin). simpl.
    apply list_elem_of_filter in Hin as [Hd Hin].
    apply list_elem_of_filter in Hin as [Hm Hin].
    apply elem_of_map_to_list in Hin. simpl in *.
    exists id, row. split; [done|].
    split; [by apply modified_since_spec, Is_true_true|].
    split; [|done]. by destruct (deleted_flag row).
  - intros (id & row & Hrow & Hm & Hd & ->). exists (id, row).
    split; [done|].
    apply list_elem_of_filter. simpl. split; [rewrite Hd; by intros []|].
    apply list_elem_of_filter. simpl.
    split; [by apply Is_true_true, modified_since_spec|].
    by apply elem_of_map_to_list.
Qed.

Lemma sync_delta_days db since client_id seven_days_ago now d t e :
  days_get d t (ds_days (sync_delta db since client_id seven_days_ago now))
  = Some e
  ↔ ∃ row, entries db !! (d, t) = Some row
           ∧ changed_after since (en_last_modified_at row)
           ∧ String.leb seven_days_ago d = true
           ∧ e = entry_json row.
Proof.
  unfold sync_delta. rewrite split_trackers_spec. simpl.
  rewrite collect_days_spec by apply filter_rows_NoDup.
  split.
  - intros (row & Hin & ->).
    apply list_elem_of_filter in Hin as [Hp Hin].
    apply elem_of_map_to_list in Hin. simpl in *.
    apply andb_prop_elim in Hp as [Hm Hw].
    exists row. split; [done|].
    split; [by apply modified_since_spec, Is_true_true|].
    split; [by apply Is_true_true | done].
  - intros (row & Hrow & Hm & Hw & ->). exists row. split; [|done].
    apply list_elem_of_filter. simpl. split.
    + apply andb_prop_intro. split.
      * by apply Is_true_true, modified_since_spec.
      * by apply Is_true_true.
    + by apply elem_of_map_to_list.
Qed.

Lemma sync_full_config db seven_days_ago now t :
  t ∈ fs_config (sync_full db seven_days_ago now)
  ↔ ∃ id row, trackers db !! id = Some row ∧ live row = true
              ∧ t = tracker_json id row.
Proof.
  unfold sync_full. simpl. rewrite list_elem_of_fmap. split.
  - intros ([id row] & -> & Hin). simpl.
    apply list_elem_of_filter in Hin as [Hl Hin].
    apply elem_of_map_to_list in Hin. simpl in *.
    exists id, row. split; [done|]. split; [by apply Is_true_true | done].
  - intros (id & row & Hrow & Hl & ->). exists (id, row). split; [done|].
    apply list_elem_of_filter. simpl. split; [by apply Is_true_true|].
    by apply elem_of_map_to_list.
Qed.

Lemma tracker_json_explicit id row :
  tracker_json id row
  = dict_update
      [("id", JStr id); ("name", text_json (tr_name row));
       ("category", text_json (tr_category row));
       ("type", text_json (tr_type row));
       ("_version", JNum (version_or_1 (tr_version row)));
       ("_lastModifiedBy", text_json (tr_last_modified_by row));
       ("_lastModifiedAt", text_json (tr_last_modified_at row))]
      (default [] (tr_meta_json row)).
Proof. unfold tracker_json. by destruct (tr_meta_json row). Qed.

Lemma tracker_json_extension id row meta :
  tr_meta_json row = Some meta → extension_map meta →
  tracker_json id row
  = [("id", JStr id); ("name", text_json (tr_name row));
     ("category", text_json (tr_category row));
     ("type", text_json (tr_type row));
     ("_version", JNum (version_or_1 (tr_version row)));
     ("_lastModifiedBy", text_json (tr_last_modified_by row));
     ("_lastModifiedAt", text_json (tr_last_modified_at row))] ++ meta.
Proof.
  intros Hm Hext. unfold tracker_json. rewrite Hm.
  apply dict_update_extension; [done|].
  intros k Hk. apply list_elem_of_In in Hk. apply list_elem_of_In.
  unfold excluded_keys. simpl in *. tauto.
Qed.

(** C8.  [sync_delta] selects the trackers whose [last_modified_at] is
    after [since] (as text) or NULL.  The ids in [deletedTrackers] are
    exactly those of the selected trackers with the deleted flag, each
    once; [config] holds exactly the selected trackers without the flag,
    each as a full record: the seven fields [id], [name], [category],
    [type], [_version], [_lastModifiedBy] and [_lastModifiedAt] read from
    the row, updated with the row's extension map (for a map of distinct
    keys outside the reserved ones: followed by its fields); so no live
    tracker has its id in [deletedTrackers].  [days] holds exactly the
    entries dated on or after the cutoff whose [last_modified_at] is
    after [since] or NULL, each with its value, completion, version and
    stamp.  The server time is returned. *)
Theorem sync_delta_selects_changed_rows db since client_id seven_days_ago now :
  let r := sync_delta db since client_id seven_days_ago now in
  (∀ id, id ∈ deletedTrackers r
         ↔ ∃ row, trackers db !! id = Some row
                  ∧ changed_after since (tr_last_modified_at row)
                  ∧ deleted_flag row = true)
  ∧ NoDup (deletedTrackers r)
  ∧ (∀ t, t ∈ ds_config r
          ↔ ∃ id row, trackers db !! id = Some row
                      ∧ changed_after since (tr_last_modified_at row)
                      ∧ deleted_flag row = false
                      ∧ t = tracker_json id row)
  ∧ (∀ id row, trackers db !! id = Some row → deleted_flag row = false →
               id ∉ deletedTrackers r)
  ∧ (∀ d t e, days_get d t (ds_days r) = Some e
              ↔ ∃ row, entries db !! (d, t) = Some row
                       ∧ changed_after since (en_last_modified_at row)
                       ∧ String.leb seven_days_ago d = true
                       ∧ e = entry_json row)
  ∧ ds_serverTime r = now
  ∧ (∀ id row,
       tracker_json id row
       = dict_update
           [("id", JStr id); ("name", text_json (tr_name row));
            ("category", text_json (tr_category row));
            ("type", text_json (tr_type row));
            ("_version", JNum (version_or_1 (tr_version row)));
            ("_lastModifiedBy", text_json (tr_last_modified_by row));
            ("_lastModifiedAt", text_json (tr_last_modified_at row))]
           (default [] (tr_meta_json row))
       ∧ ∀ meta, tr_meta_json row = Some meta → extension_map meta →
           tracker_json id row
           = [("id", JStr id); ("name", text_json (tr_name row));
              ("category", text_json (tr_category row));
              ("type", text_json (tr_type row));
              ("_version", JNum (version_or_1 (tr_version row)));
              ("_lastModifiedBy", text_json (tr_last_modified_by row));
              ("_lastModifiedAt", text_json (tr_last_modified_at row))]
             ++ meta)
  ∧ (∀ row,
       entry_json row
       = [("value", real_json (en_value row));
          ("completed", completed_json (en_completed row));
          ("_version", JNum (version_or_1 (en_version row)));
          ("_lastModifiedBy", text_json (en_last_modified_by row));
          ("_lastModifiedAt", text_json (en_last_modified_at row))])
  ∧ (∀ id z, id ∈ deletedTrackers r →
             tr_deleted <$> trackers db !! id = Some (Some z) → z ≠ 0)
  ∧ (∀ t, t ∈ ds_config r →
          ∃ id row, trackers db !! id = Some row
                    ∧ t = tracker_json id row
                    ∧ (tr_deleted row = None ∨ tr_deleted row = Some 0)).
Proof.
  intros r. subst r.
  split; [intros; apply sync_delta_deleted|].
  split; [apply sync_delta_deleted_NoDup|].
  split; [intros; apply sync_delta_config|].
  split; [|split; [intros; apply sync_delta_days|]].
  - intros id row Hrow Hd (row' & Hrow' & _ & Hd')%sync_delta_deleted.
    congruence.
  - split; [unfold sync_delta; by rewrite split_trackers_spec|].
    split; [|split; [done|split]].
    + intros id row. split; [apply tracker_json_explicit|].
      apply tracker_json_extension.
    + intros id z (row & Hrow & _ & Hd)%sync_delta_deleted.
      rewrite Hrow. simpl. intros [= Hz] Hz0.
      unfold deleted_flag in Hd. rewrite Hz, Hz0 in Hd. done.
    + intros t (id & row & Hrow & _ & Hd & ->)%sync_delta_config.
      exists id, row. split; [done|]. split; [done|].
      unfold deleted_flag in Hd.
      destruct (tr_deleted row) as [z|]; [right | by left].
      destruct (decide (z = 0)) as [Hz|Hz]; [by rewrite Hz|].
      apply Z.eqb_neq in Hz. by rewrite Hz in Hd.
Qed.

(** Witness of C8: three trackers pushed, [t3] deleted afterwards.  The
    delta snapshot taken since a time before the pushes lists [t3], and
    only [t3], as deleted, returns [t1] and [t2] as records, and returns
    the entry of 2024-01-05. *)
Lemma sync_delta_selects_changed_rows_witness :
  let r :=
    sync_delta Scenario.db_F Scenario.time_0 "B" Scenario.cutoff
      Scenario.time_D in
  "t3" ∈ deletedTrackers r
  ∧ ("t1" ∉ deletedTrackers r)
  ∧ ("t2" ∉ deletedTrackers r)
  ∧ List.length (deletedTrackers r) = 1%nat
  ∧ [("id", JStr "t1"); ("name", JStr "Run"); ("category", JStr "");
     ("type", JStr "simple"); ("_version", JNum 1);
     ("_lastModifiedBy", JStr "A");
     ("_lastModifiedAt", JStr "2024-01-05T10:00:00Z");
     ("goal", JNum 10); ("unit", JStr "km")] ∈ ds_config r
  ∧ [("id", JStr "t2"); ("name", JStr "Swim"); ("category", JStr "");
     ("type", JStr "simple"); ("_version", JNum 1);
     ("_lastModifiedBy", JStr "A");
     ("_lastModifiedAt", JStr "2024-01-05T11:00:00Z")] ∈ ds_config r
  ∧ List.length (ds_config r) = 2%nat
  ∧ days_get "2024-01-05" "t1" (ds_days r)
    = Some [("value", JNum 5); ("completed", JNull); ("_version", JNum 1);
            ("_lastModifiedBy", JStr "A");
            ("_lastModifiedAt", JStr "2024-01-05T10:00:00Z")].
Proof.
  intros r.
  destruct (sync_delta_selects_changed_rows Scenario.db_F Scenario.time_0 "B"
              Scenario.cutoff Scenario.time_D)
    as (Hdel & _ & Hcfg & Hlive & Hdays & _).
  fold r in Hdel, Hcfg, Hlive, Hdays.
  assert (trackers Scenario.db_F !! "t1" = Some Scenario.row_t1_A) as H1
    by (vm_compute; reflexivity).
  assert (trackers Scenario.db_F !! "t2" = Some Scenario.row_t2_A) as H2
    by (vm_compute; reflexivity).
  assert (trackers Scenario.db_F !! "t3"
          = Some (soft_delete_row 2 "A" Scenario.time_C
                    (new_tracker_row (Some "Read") (Some "") (Some "simple")
                       [] 1 "A" Scenario.time_B))) as H3
    by (vm_compute; reflexivity).
  assert (entries Scenario.db_F !! ("2024-01-05", "t1")
          = Some Scenario.row_entry_A) as He
    by (vm_compute; reflexivity).
  split; [|split; [|split; [|split; [|split; [|split; [|split]]]]]].
  - apply Hdel. eexists. split; [exact H3|].
    split; [right; eexists; split; reflexivity | reflexivity].
  - by apply (Hlive "t1" _ H1).
  - by apply (Hlive "t2" _ H2).
  - vm_compute; reflexivity.
  - apply Hcfg. exists "t1", Scenario.row_t1_A. split; [exact H1|].
    split; [right; eexists; split; reflexivity|]. split; reflexivity.
  - apply Hcfg. exists "t2", Scenario.row_t2_A. split; [exact H2|].
    split; [right; eexists; split; reflexivity|]. split; reflexivity.
  - vm_compute; reflexivity.
  - apply Hdays. exists Scenario.row_entry_A. split; [exact He|].
    split; [right; eexists; split; reflexivity|]. split; reflexivity.
Defined.

(** ** Extension fields (C7) *)

Lemma process_config_app client_id now pre post s :
  process_config client_id now (pre ++ post) s
  = process_config client_id now pre s ≫= process_config client_id now post.
Proof.
  revert s. induction pre as [|item pre IH]; intros s; simpl; [done|].
  destruct (process_tracker_item client_id now item s) as [s1|f]; simpl;
    [apply IH | done].
Qed.

Lemma write_tracker_upsert client_id now item tid v db db' :
  is_deleted item = false →
  write_tracker client_id now item tid v db = Ok db' →
  ∃ n c t,
    db' = set_trackers
            (insert tid
               (new_tracker_row n c t (extract_meta item) v client_id now)) db.
Proof.
  unfold write_tracker. intros ->. intros H.
  apply bind_Ok in H as (n & _ & H).
  apply bind_Ok in H as (c & _ & H).
  apply bind_Ok in H as (t & _ & [= <-]).
  by exists n, c, t.
Qed.

Lemma write_tracker_other client_id now item tid' v db db' tid :
  write_tracker client_id now item tid' v db = Ok db' →
  tid' ≠ tid →
  trackers db' !! tid = trackers db !! tid.
Proof.
  unfold write_tracker. intros H Hne. destruct (is_deleted item).
  - injection H as <-. simpl. by apply lookup_alter_ne.
  - apply bind_Ok in H as (n & _ & H).
    apply bind_Ok in H as (c & _ & H).
    apply bind_Ok in H as (t & _ & [= <-]).
    simpl. by apply lookup_insert_ne.
Qed.

Lemma process_tracker_item_other client_id now item s s' tid :
  process_tracker_item client_id now item s = Ok s' →
  dict_get_none "id" item ≠ JStr tid →
  trackers (ls_db s') !! tid = trackers (ls_db s) !! tid.
Proof.
  intros (tid' & Hid & Hcase)%process_tracker_item_inv Hne.
  assert (tid' ≠ tid) as Hne' by congruence.
  destruct Hcase as
    [(r & sv & cbv & _ & _ & _ & _ & ->)
    |[(db' & _ & Hw & ->)|(r & sv & cbv & db' & _ & _ & _ & _ & Hw & ->)]];
    simpl; [done| |]; by eapply write_tracker_other.
Qed.

Lemma process_config_other client_id now items s s' tid :
  Forall (λ it, dict_get_none "id" it ≠ JStr tid) items →
  process_config client_id now items s = Ok s' →
  trackers (ls_db s') !! tid = trackers (ls_db s) !! tid.
Proof.
  intros Hall. revert s.
  induction Hall as [|item items Hne _ IH]; simpl; intros s.
  - by intros [= <-].
  - intros (s1 & Hstep & Hrest)%bind_Ok.
    rewrite (IH _ Hrest). by eapply process_tracker_item_other.
Qed.

Lemma snapshot_columns_keys id n c t v client_id now k :
  k ∈ (snapshot_columns id n c t v client_id now).*1 → k ∈ excluded_keys.
Proof.
  intros Hk. apply list_elem_of_In in Hk. apply list_elem_of_In.
  unfold excluded_keys. simpl in *. tauto.
Qed.

Lemma tracker_json_new_row id n c t meta v client_id now :
  extension_map meta →
  tracker_json id (new_tracker_row n c t meta v client_id now)
  = snapshot_columns id n c t v client_id now ++ meta.
Proof.
  intros Hext. unfold tracker_json. simpl.
  apply (dict_update_extension
           (snapshot_columns id n c t v client_id now) meta Hext).
  apply snapshot_columns_keys.
Qed.

Lemma extension_field_kept id n c t v client_id now item k x :
  k ∉ excluded_keys → dict_get k item = Some x →
  dict_get k (extract_meta item) = Some x
  ∧ dict_get k (snapshot_columns id n c t v client_id now ++ extract_meta item)
    = Some x.
Proof.
  intros Hk Hget.
  assert (dict_get k (extract_meta item) = Some x) as Hmeta.
  { unfold extract_meta. by rewrite dict_get_filter. }
  split; [done|]. rewrite dict_get_app.
  assert (dict_get k (snapshot_columns id n c t v client_id now) = None)
    as ->; [|done].
  apply dict_get_None. intros Hin. by apply snapshot_columns_keys in Hin.
Qed.

(** C7.  Take a push that completes, and in it a tracker item that is not
    a delete, passes the version gate where it stands in the batch, and
    is the last item of the batch for its id.  Then the committed row
    holds the item's fields outside [excluded_keys] as its extension map,
    in the item's order, and both the full snapshot and every delta
    snapshot taken since a time before the push return the tracker as the
    seven columns followed by exactly these fields, each with the value
    the client sent. *)
Theorem extension_fields_round_trip
    db payload now db' resp pre item post s tid :
  sync_update db payload now = (db', Ok resp) →
  config payload = pre ++ item :: post →
  process_config (clientId payload) now pre
    (begin_update db (clientId payload) now) = Ok s →
  dict_get_none "id" item = JStr tid →
  NoDup item.*1 →
  is_deleted item = false →
  (trackers (ls_db s) !! tid = None
   ∨ ∃ cbv, as_int (base_version item) = Some cbv
            ∧ tracker_version (ls_db s) tid ≤ cbv) →
  Forall (λ it, dict_get_none "id" it ≠ JStr tid) post →
  ∃ n c t v,
    trackers db' !! tid
    = Some (new_tracker_row n c t (extract_meta item) v (clientId payload) now)
    ∧ v = tracker_version (ls_db s) tid + 1
    ∧ ∀ seven_days_ago now',
        let tracker :=
          snapshot_columns tid n c t v (clientId payload) now
            ++ extract_meta item in
        tracker ∈ fs_config (sync_full db' seven_days_ago now')
        ∧ (∀ since client_id,
             String.ltb since now = true →
             tracker ∈ ds_config
                         (sync_delta db' since client_id seven_days_ago now'))
        ∧ (∀ k x, k ∉ excluded_keys → dict_get k item = Some x →
                  dict_get k (extract_meta item) = Some x
                  ∧ dict_get k tracker = Some x).
Proof.
  intros Hup Hcfg Hpre Hid Hnd Hdel Hgate Hpost.
  apply sync_update_loops in Hup as (sf & Hloops & -> & _).
  apply bind_Ok in Hloops as (s1 & Hc & Hd).
  rewrite Hcfg, process_config_app, Hpre in Hc. simpl in Hc.
  apply bind_Ok in Hc as (s2 & Hstep & Hrest).
  assert (∃ n c t,
            ls_db s2 = set_trackers
              (insert tid
                 (new_tracker_row n c t (extract_meta item)
                    (tracker_version (ls_db s) tid + 1) (clientId payload) now))
              (ls_db s)) as (n & c & t & Hs2).
  { apply process_tracker_item_inv in Hstep as (tid' & Hid' & Hcase).
    assert (tid' = tid) as -> by congruence.
    destruct Hcase as
      [(r & sv & cbv & Hr & Hv & Hb & Hlt & ->)
      |[(db2 & Hr & Hw & ->)|(r & sv & cbv & db2 & Hr & Hv & Hb & Hle & Hw & ->)]].
    - exfalso. destruct Hgate as [Hnone|(cbv' & Hb' & Hle)]; [congruence|].
      rewrite (tracker_version_Some _ _ _ _ Hr Hv) in Hle.
      assert (cbv' = cbv) by congruence. lia.
    - rewrite (tracker_version_None _ _ Hr).
      by apply write_tracker_upsert in Hw.
    - rewrite (tracker_version_Some _ _ _ _ Hr Hv).
      by apply write_tracker_upsert in Hw. }
  exists n, c, t, (tracker_version (ls_db s) tid + 1).
  set (row := new_tracker_row n c t (extract_meta item)
                (tracker_version (ls_db s) tid + 1) (clientId payload) now).
  assert (trackers (ls_db sf) !! tid = Some row) as Hrow.
  { apply process_days_frame in Hd as (_ & -> & _).
    rewrite (process_config_other _ _ _ _ _ _ Hpost Hrest), Hs2. simpl.
    apply lookup_insert_eq. }
  assert (trackers
            (if no_conflicts (ls_conflicts sf)
             then set_meta_sync (insert last_server_sync_time now) (ls_db sf)
             else ls_db sf) !! tid = Some row) as Hrow'
    by (by destruct (no_conflicts (ls_conflicts sf))).
  split; [done|]. split; [done|].
  intros seven_days_ago now'. cbv zeta.
  pose proof (extract_meta_extension_map item Hnd) as Hext.
  rewrite <- (tracker_json_new_row tid n c t (extract_meta item) _ _ _ Hext).
  split; [|split].
  - apply sync_full_config. by exists tid, row.
  - intros since client_id Hsince. apply sync_delta_config.
    exists tid, row. split; [done|]. split; [|done].
    right. by exists now.
  - intros k x Hk Hget.
    rewrite (tracker_json_new_row tid n c t (extract_meta item) _ _ _ Hext).
    by apply extension_field_kept.
Qed.

(** Witness of C7: [A] pushes [t1] with the extension fields [goal = 10]
    and [unit = "km"]; the full snapshot returns the tracker with both
    fields after the seven columns. *)
Lemma extension_fields_round_trip_witness :
  let tracker :=
    snapshot_columns "t1" (Some "Run") (Some "") (Some "simple") 1 "A"
      Scenario.time_A ++ [("goal", JNum 10); ("unit", JStr "km")] in
  tracker ∈ fs_config (sync_full Scenario.db_A "2024-01-01" Scenario.time_B)
  ∧ dict_get "goal" tracker = dict_get "goal" Scenario.t1_by_A
  ∧ dict_get "unit" tracker = dict_get "unit" Scenario.t1_by_A.
Proof.
  destruct (extension_fields_round_trip init_database Scenario.push_A
              Scenario.time_A Scenario.db_A Scenario.resp_A []
              Scenario.t1_by_A []
              (begin_update init_database "A" Scenario.time_A) "t1")
    as (n & c & t & v & Hrow & _ & H).
  - vm_compute; reflexivity.
  - reflexivity.
  - reflexivity.
  - reflexivity.
  - apply (bool_decide_unpack _). vm_compute. exact I.
  - reflexivity.
  - left. vm_compute; reflexivity.
  - constructor.
  - assert (trackers Scenario.db_A !! "t1" = Some Scenario.row_t1_A) as Hrow'
      by (vm_compute; reflexivity).
    rewrite Hrow' in Hrow. injection Hrow as <- <- <- <-.
    destruct (H "2024-01-01" Scenario.time_B) as (Hfull & _ & _).
    split; [exact Hfull|]. split; reflexivity.
Defined.

(** ** Deleting a tracker that is not stored (C10, C4) *)

Lemma set_trackers_alter_None f id db :
  trackers db !! id = None → set_trackers (alter f id) db = db.
Proof.
  intros Hnone. destruct db as [cl ms tr en sc]. unfold set_trackers.
  simpl in *. f_equal. apply alter_id. intros x Hx. congruence.
Qed.

Lemma annotate_version item v client_id now :
  dict_get "_version" (annotate item v client_id now) = Some (JNum v).
Proof.
  unfold annotate.
  rewrite !dict_get_set_ne by done. apply dict_get_set_eq.
Qed.

Lemma process_tracker_item_delete_unknown client_id now item s tid :
  dict_get_none "id" item = JStr tid →
  is_deleted item = true →
  trackers (ls_db s) !! tid = None →
  process_tracker_item client_id now item s
  = Ok (applied_tracker (ls_db s) item 1 client_id now s).
Proof.
  intros Hid Hdel Hrow.
  rewrite (process_tracker_item_new client_id now item s tid Hid Hrow).
  unfold write_tracker. rewrite Hdel. simpl.
  by rewrite set_trackers_alter_None.
Qed.

Lemma process_tracker_item_applied_prefix client_id now item s s' :
  process_tracker_item client_id now item s = Ok s' →
  ∃ more, ls_applied_config s' = ls_applied_config s ++ more.
Proof.
  intros (tid & _ & Hcase)%process_tracker_item_inv.
  destruct Hcase as
    [(r & sv & cbv & _ & _ & _ & _ & ->)
    |[(db' & _ & _ & ->)|(r & sv & cbv & db' & _ & _ & _ & _ & _ & ->)]];
    simpl.
  - exists []. by rewrite app_nil_r.
  - by eexists.
  - by eexists.
Qed.

Lemma process_config_applied_prefix client_id now items s s' :
  process_config client_id now items s = Ok s' →
  ∃ more, ls_applied_config s' = ls_applied_config s ++ more.
Proof.
  revert s. induction items as [|item items IH]; simpl; intros s.
  - intros [= <-]. exists []. by rewrite app_nil_r.
  - intros (s1 & Hstep & Hrest)%bind_Ok.
    apply process_tracker_item_applied_prefix in Hstep as (m1 & H1).
    apply IH in Hrest as (m2 & H2).
    exists (m1 ++ m2). by rewrite H2, H1, app_assoc.
Qed.

(** C10.  A tracker item with the delete flag whose id is not stored
    passes the gate whatever its base version: the iteration succeeds,
    reports the item as applied with [_version] 1 and leaves the database
    exactly as it was, because the soft delete is an [UPDATE] that
    matches no row.  In a completed push where the item is the last one
    for its id, it is reported in [appliedConfig], no row is committed
    under the id, and no delta snapshot lists the id in
    [deletedTrackers]. *)
Theorem delete_of_unknown_tracker_writes_nothing :
  (∀ client_id now item s tid,
     dict_get_none "id" item = JStr tid →
     is_deleted item = true →
     trackers (ls_db s) !! tid = None →
     process_tracker_item client_id now item s
     = Ok {| ls_db := ls_db s; ls_conflicts := ls_conflicts s;
             ls_applied_config :=
               ls_applied_config s ++ [annotate item 1 client_id now];
             ls_applied_days := ls_applied_days s |}
     ∧ dict_get "_version" (annotate item 1 client_id now) = Some (JNum 1))
  ∧ (∀ db payload now db' resp pre item post s tid,
       sync_update db payload now = (db', Ok resp) →
       config payload = pre ++ item :: post →
       process_config (clientId payload) now pre
         (begin_update db (clientId payload) now) = Ok s →
       dict_get_none "id" item = JStr tid →
       is_deleted item = true →
       trackers (ls_db s) !! tid = None →
       Forall (λ it, dict_get_none "id" it ≠ JStr tid) post →
       annotate item 1 (clientId payload) now ∈ appliedConfig resp
       ∧ trackers db' !! tid = None
       ∧ tracker_version db' tid = 0
       ∧ ∀ since client_id seven_days_ago now',
           tid ∉ deletedTrackers
                   (sync_delta db' since client_id seven_days_ago now')).
Proof.
  split.
  - intros client_id now item s tid Hid Hdel Hrow.
    split; [by apply (process_tracker_item_delete_unknown _ _ _ _ tid)|].
    apply annotate_version.
  - intros db payload now db' resp pre item post s tid
      Hup Hcfg Hpre Hid Hdel Hrow Hpost.
    apply sync_update_loops in Hup as (sf & Hloops & -> & ->).
    apply bind_Ok in Hloops as (s1 & Hc & Hd).
    rewrite Hcfg, process_config_app, Hpre in Hc. simpl in Hc.
    apply bind_Ok in Hc as (s2 & Hstep & Hrest).
    rewrite (process_tracker_item_delete_unknown _ _ _ _ tid Hid Hdel Hrow)
      in Hstep.
    injection Hstep as <-.
    assert (trackers (ls_db sf) !! tid = None) as Hnone.
    { apply process_days_frame in Hd as (_ & -> & _).
      by rewrite (process_config_other _ _ _ _ _ _ Hpost Hrest). }
    assert (trackers
              (if no_conflicts (ls_conflicts sf)
               then set_meta_sync (insert last_server_sync_time now) (ls_db sf)
               else ls_db sf) !! tid = None) as Hnone'
      by (by destruct (no_conflicts (ls_conflicts sf))).
    split; [|split; [done|split]].
    + simpl. apply process_days_frame in Hd as (_ & _ & ->).
      apply process_config_applied_prefix in Hrest as (more & ->). simpl.
      rewrite !elem_of_app. left. right. left.
    + by apply tracker_version_None.
    + intros since client_id seven_days_ago now'
        (row & Hrow' & _)%sync_delta_deleted.
      congruence.
Qed.

(** Witness of C10: [B] deletes [t9], which the server has never stored. *)
Lemma delete_of_unknown_tracker_writes_nothing_witness :
  (sync_update Scenario.db_A Scenario.push_delete_t9 Scenario.time_B).2
  = Ok {| success := true; conflicts := [];
          appliedConfig := [annotate Scenario.delete_t9 1 "B" Scenario.time_B];
          appliedDays := []; lastModified := Some Scenario.time_B;
          overwrittenData := [] |}
  ∧ trackers Scenario.db_E !! "t9" = None
  ∧ "t9" ∉ deletedTrackers
             (sync_delta Scenario.db_E Scenario.time_A "A" "2024-01-01"
                Scenario.time_C).
Proof.
  set (resp := {| success := true; conflicts := [];
                  appliedConfig :=
                    [annotate Scenario.delete_t9 1 "B" Scenario.time_B];
                  appliedDays := []; lastModified := Some Scenario.time_B;
                  overwrittenData := [] |}).
  assert (sync_update Scenario.db_A Scenario.push_delete_t9 Scenario.time_B
          = (Scenario.db_E, Ok resp)) as Hup by (vm_compute; reflexivity).
  destruct (proj2 delete_of_unknown_tracker_writes_nothing
              Scenario.db_A Scenario.push_delete_t9 Scenario.time_B
              Scenario.db_E resp [] Scenario.delete_t9 []
              (begin_update Scenario.db_A "B" Scenario.time_B) "t9"
              Hup eq_refl eq_refl eq_refl eq_refl
              ltac:(vm_compute; reflexivity) ltac:(constructor))
    as (_ & Hnone & _ & Hdelta).
  split; [by rewrite Hup|]. split; [exact Hnone|]. apply Hdelta.
Defined.

(** C4 on the code: [B]'s delete of the unknown tracker [t9] is reported
    as applied with [_version] 1, yet no row is stored, so the stored
    version of [t9] is still 0 and not 1.  When [B] creates [t9]
    afterwards, the push is again answered with [_version] 1. *)
Theorem soft_delete_of_unknown_tracker_stores_no_version :
  (sync_update Scenario.db_A Scenario.push_delete_t9 Scenario.time_B).2
  = Ok {| success := true; conflicts := [];
          appliedConfig := [annotate Scenario.delete_t9 1 "B" Scenario.time_B];
          appliedDays := []; lastModified := Some Scenario.time_B;
          overwrittenData := [] |}
  ∧ dict_get "_version" (annotate Scenario.delete_t9 1 "B" Scenario.time_B)
    = Some (JNum 1)
  ∧ tracker_version Scenario.db_A "t9" = 0
  ∧ trackers Scenario.db_E !! "t9" = None
  ∧ tracker_version Scenario.db_E "t9" = 0
  ∧ (sync_update Scenario.db_E Scenario.push_create_t9 Scenario.time_C).2
    = Ok {| success := true; conflicts := [];
            appliedConfig :=
              [annotate (Scenario.fresh_tracker "t9" "Nap") 1 "B"
                 Scenario.time_C];
            appliedDays := []; lastModified := Some Scenario.time_C;
            overwrittenData := [] |}
  ∧ tracker_version
      (sync_update Scenario.db_E Scenario.push_create_t9 Scenario.time_C).1
      "t9" = 1.
Proof.
  repeat split; vm_compute; reflexivity.
Qed.

(** ** Stored versions *)

Lemma tracker_version_other db db' id :
  trackers db' !! id = trackers db !! id →
  tracker_version db' id = tracker_version db id.
Proof. unfold tracker_version. by intros ->. Qed.

Lemma entry_version_other db db' d t :
  entries db' !! (d, t) = entries db !! (d, t) →
  entry_version db' d t = entry_version db d t.
Proof. unfold entry_version. by intros ->. Qed.

Lemma write_tracker_version client_id now item tid v db db' :
  write_tracker client_id now item tid v db = Ok db' →
  is_deleted item = false ∨ is_Some (trackers db !! tid) →
  tracker_version db' tid = v.
Proof.
  unfold write_tracker. intros H Hcase.
  destruct (is_deleted item).
  - destruct Hcase as [?|[r Hr]]; [done|].
    injection H as <-. unfold tracker_version. simpl.
    rewrite lookup_alter_eq, Hr. done.
  - apply bind_Ok in H as (n & _ & H).
    apply bind_Ok in H as (c & _ & H).
    apply bind_Ok in H as (t & _ & [= <-]).
    by apply tracker_version_insert.
Qed.

Lemma write_entry_version client_id now d t data v db db' :
  write_entry client_id now d t data v db = Ok db' →
  entry_version db' d t = v.
Proof.
  unfold write_entry. intros H.
  apply bind_Ok in H as (x & _ & [= <-]).
  by apply entry_version_insert.
Qed.

Lemma write_entry_other client_id now d t data v db db' d' t' :
  write_entry client_id now d t data v db = Ok db' →
  (d, t) ≠ (d', t') →
  entries db' !! (d', t') = entries db !! (d', t').
Proof.
  unfold write_entry. intros H Hne.
  apply bind_Ok in H as (x & _ & [= <-]).
  simpl. by apply lookup_insert_ne.
Qed.

Lemma write_tracker_monotone client_id now item tid v db db' id :
  write_tracker client_id now item tid v db = Ok db' →
  v = tracker_version db tid + 1 →
  tracker_version db id ≤ tracker_version db' id ≤ tracker_version db id + 1.
Proof.
  intros Hw ->. destruct (decide (tid = id)) as [->|Hne].
  - destruct (is_deleted item) eqn:Hdel;
      [destruct (trackers db !! id) as [r|] eqn:Hr|].
    + rewrite (write_tracker_version _ _ _ _ _ _ _ Hw); [lia|].
      right. rewrite Hr. by eexists.
    + unfold write_tracker in Hw. rewrite Hdel in Hw. injection Hw as <-.
      rewrite set_trackers_alter_None by done. lia.
    + rewrite (write_tracker_version _ _ _ _ _ _ _ Hw); [lia | by left].
  - rewrite (tracker_version_other db db' id); [lia|].
    by eapply write_tracker_other.
Qed.

Lemma process_tracker_item_monotone client_id now item s s' id :
  process_tracker_item client_id now item s = Ok s' →
  tracker_version (ls_db s) id ≤ tracker_version (ls_db s') id
  ≤ tracker_version (ls_db s) id + 1.
Proof.
  intros (tid & _ & Hcase)%process_tracker_item_inv.
  destruct Hcase as
    [(r & sv & cbv & _ & _ & _ & _ & ->)
    |[(db' & Hr & Hw & ->)|(r & sv & cbv & db' & Hr & Hv & _ & _ & Hw & ->)]];
    simpl.
  - lia.
  - eapply write_tracker_monotone; [exact Hw|].
    by rewrite (tracker_version_None _ _ Hr).
  - eapply write_tracker_monotone; [exact Hw|].
    by rewrite (tracker_version_Some _ _ _ _ Hr Hv).
Qed.

Lemma process_config_monotone client_id now items s s' id :
  process_config client_id now items s = Ok s' →
  tracker_version (ls_db s) id ≤ tracker_version (ls_db s') id.
Proof.
  revert s. induction items as [|item items IH]; simpl; intros s.
  - intros [= <-]. lia.
  - intros (s1 & Hstep & Hrest)%bind_Ok.
    apply (process_tracker_item_monotone _ _ _ _ _ id) in Hstep.
    apply IH in Hrest. lia.
Qed.

Lemma process_entry_item_monotone client_id now date_str kv s s' d t :
  process_entry_item client_id now date_str kv s = Ok s' →
  entry_version (ls_db s) d t ≤ entry_version (ls_db s') d t
  ≤ entry_version (ls_db s) d t + 1.
Proof.
  destruct kv as [tid data].
  intros Hcase%process_entry_item_inv.
  destruct Hcase as
    [(r & sv & cbv & _ & _ & _ & _ & ->)
    |[(db' & Hr & Hw & ->)|(r & sv & cbv & db' & Hr & Hv & _ & _ & Hw & ->)]];
    simpl; [lia| |].
  - destruct (decide ((date_str, tid) = (d, t))) as [[= -> ->]|Hne].
    + rewrite (write_entry_version _ _ _ _ _ _ _ _ Hw).
      rewrite (entry_version_None _ _ _ Hr). lia.
    + rewrite (entry_version_other (ls_db s) db' d t); [lia|].
      by eapply write_entry_other.
  - destruct (decide ((date_str, tid) = (d, t))) as [[= -> ->]|Hne].
    + rewrite (write_entry_version _ _ _ _ _ _ _ _ Hw).
      rewrite (entry_version_Some _ _ _ _ _ Hr Hv). lia.
    + rewrite (entry_version_other (ls_db s) db' d t); [lia|].
      by eapply write_entry_other.
Qed.

Lemma process_trackers_map_monotone client_id now date_str m s s' d t :
  process_trackers_map client_id now date_str m s = Ok s' →
  entry_version (ls_db s) d t ≤ entry_version (ls_db s') d t.
Proof.
  revert s. induction m as [|kv m IH]; simpl; intros s.
  - intros [= <-]. lia.
  - intros (s1 & Hstep & Hrest)%bind_Ok.
    apply (process_entry_item_monotone _ _ _ _ _ _ d t) in Hstep.
    apply IH in Hrest. lia.
Qed.

Lemma process_days_monotone client_id now dys s s' d t :
  process_days client_id now dys s = Ok s' →
  entry_version (ls_db s) d t ≤ entry_version (ls_db s') d t.
Proof.
  revert s. induction dys as [|[date_str m] dys IH]; simpl; intros s.
  - intros [= <-]. lia.
  - intros (s1 & Hstep & Hrest)%bind_Ok.
    apply (process_trackers_map_monotone _ _ _ _ _ _ d t) in Hstep.
    apply IH in Hrest. simpl in Hstep. lia.
Qed.

Lemma sync_update_monotone db payload now :
  (∀ id, tracker_version db id
         ≤ tracker_version (sync_update db payload now).1 id)
  ∧ (∀ d t, entry_version db d t
            ≤ entry_version (sync_update db payload now).1 d t).
Proof.
  destruct (sync_update db payload now) as [db' [resp|f]] eqn:Hup.
  - apply sync_update_loops in Hup as (sf & Hloops & -> & _).
    apply bind_Ok in Hloops as (s1 & Hc & Hd).
    pose proof (process_config_frame _ _ _ _ _ Hc) as (_ & Hce & _).
    pose proof (process_days_frame _ _ _ _ _ Hd) as (_ & Hdt & _).
    simpl. split.
    + intros id.
      apply (process_config_monotone _ _ _ _ _ id) in Hc. simpl in Hc.
      assert (tracker_version (ls_db sf) id = tracker_version (ls_db s1) id)
        as Heq by (apply tracker_version_other; by rewrite Hdt).
      destruct (no_conflicts (ls_conflicts sf)); simpl;
        unfold tracker_version in *; simpl in *; lia.
    + intros d t.
      apply (process_days_monotone _ _ _ _ _ d t) in Hd.
      assert (entry_version (ls_db s1) d t = entry_version db d t)
        as Heq by (apply entry_version_other; by rewrite Hce).
      destruct (no_conflicts (ls_conflicts sf)); simpl;
        unfold entry_version in *; simpl in *; lia.
  - unfold sync_update in Hup. simpl in Hup.
    destruct (process_config _ _ _ _ ≫= _); [done|].
    injection Hup as <- _. simpl. split; intros; lia.
Qed.

Lemma resolve_conflict_monotone db entity_type entity_id resolution client_id
    client_data now :
  let db' := (resolve_conflict db entity_type entity_id resolution client_id
                client_data now).1 in
  (∀ id, tracker_version db id ≤ tracker_version db' id)
  ∧ (∀ d t, entry_version db d t ≤ entry_version db' d t).
Proof.
  unfold resolve_conflict.
  destruct (forced_payload resolution client_data) as [data|]; simpl;
    [|split; intros; unfold tracker_version, entry_version; simpl; lia].
  destruct (String.eqb entity_type "tracker").
  - destruct (force_tracker db entity_id client_id now data) as [db1|f] eqn:Hf;
      simpl; [|split; intros; unfold tracker_version, entry_version; simpl; lia].
    pose proof (force_tracker_ledger _ _ _ _ _ _ Hf) as (_ & _ & He).
    apply force_tracker_inv in Hf as (n & c & t & _ & _ & _ & _ & ->).
    split.
    + intros id. destruct (decide (entity_id = id)) as [->|Hne].
      * unfold tracker_version at 2. simpl. rewrite lookup_insert_eq. simpl.
        lia.
      * unfold tracker_version at 2. simpl.
        rewrite lookup_insert_ne by done. fold (tracker_version db id). lia.
    + intros d t'. unfold entry_version. simpl. lia.
  - destruct (String.eqb entity_type "entry"); simpl; [|split; intros; unfold tracker_version, entry_version; simpl; lia].
    destruct (force_entry db entity_id client_id now data) as [db1|f] eqn:Hf;
      simpl; [|split; intros; unfold tracker_version, entry_version; simpl; lia].
    apply force_entry_inv in Hf as (d0 & t0 & x & _ & _ & _ & ->).
    split.
    + intros id. unfold tracker_version. simpl. lia.
    + intros d t'. destruct (decide ((d0, t0) = (d, t'))) as [[= -> ->]|Hne].
      * unfold entry_version at 2. simpl. rewrite lookup_insert_eq. simpl.
        lia.
      * unfold entry_version at 2. simpl.
        rewrite lookup_insert_ne by done. fold (entry_version db d t'). lia.
Qed.

Lemma handle_monotone db r :
  (∀ id, tracker_version db id ≤ tracker_version (handle db r) id)
  ∧ (∀ d t, entry_version db d t ≤ entry_version (handle db r) d t).
Proof.
  destruct r; simpl.
  - split; intros; unfold tracker_version, entry_version; simpl; lia.
  - apply sync_update_monotone.
  - apply resolve_conflict_monotone.
Qed.

(** X1.  Stored versions never decrease: no request lowers the stored version
    of a tracker or of an entry, so neither does any continuation of a
    history of requests. *)
Theorem stored_versions_never_decrease :
  (∀ db r id, tracker_version db id ≤ tracker_version (handle db r) id)
  ∧ (∀ db r d t, entry_version db d t ≤ entry_version (handle db r) d t)
  ∧ (∀ history more id,
       tracker_version (run history) id
       ≤ tracker_version (run (history ++ more)) id)
  ∧ (∀ history more d t,
       entry_version (run history) d t
       ≤ entry_version (run (history ++ more)) d t).
Proof.
  assert (∀ more db,
            (∀ id, tracker_version db id
                   ≤ tracker_version (fold_left handle more db) id)
            ∧ (∀ d t, entry_version db d t
                      ≤ entry_version (fold_left handle more db) d t)) as Hfold.
  { induction more as [|r more IH]; intros db; simpl.
    - split; intros; lia.
    - destruct (handle_monotone db r) as [Ht He].
      destruct (IH (handle db r)) as [Ht' He'].
      split.
      + intros id. specialize (Ht id). specialize (Ht' id). lia.
      + intros d t. specialize (He d t). specialize (He' d t). lia. }
  split; [intros; apply handle_monotone|].
  split; [intros; apply handle_monotone|].
  unfold run. split.
  - intros history more id. rewrite fold_left_app. apply Hfold.
  - intros history more d t. rewrite fold_left_app. apply Hfold.
Qed.

(** X2.  Every write that stores a record stores the next version.  An
    accepted tracker item that is an upsert, or a soft delete of a stored
    tracker, leaves the tracker at its previous version plus 1 (1 for a
    new tracker) and reports that version; so does an accepted entry
    item; and so does a forced apply of [resolve_conflict]. *)
Theorem stored_write_stores_next_version :
  (∀ client_id now item s s' tid,
     dict_get_none "id" item = JStr tid →
     process_tracker_item client_id now item s = Ok s' →
     ls_conflicts s' = ls_conflicts s →
     is_deleted item = false ∨ is_Some (trackers (ls_db s) !! tid) →
     tracker_version (ls_db s') tid = tracker_version (ls_db s) tid + 1
     ∧ ls_applied_config s' =
         ls_applied_config s ++
           [annotate item (tracker_version (ls_db s') tid) client_id now])
  ∧ (∀ client_id now date_str tracker_id data s s',
       process_entry_item client_id now date_str (tracker_id, data) s = Ok s' →
       ls_conflicts s' = ls_conflicts s →
       entry_version (ls_db s') date_str tracker_id
       = entry_version (ls_db s) date_str tracker_id + 1)
  ∧ (∀ db id client_id d now db1 r1,
       d ≠ [] →
       resolve_conflict db "tracker" id "client" client_id (Some d) now
       = (db1, Ok r1) →
       tracker_version db1 id = tracker_version db id + 1).
Proof.
  split; [|split].
  - intros client_id now item s s' tid Hid Hok Hconf Hstored.
    apply process_tracker_item_inv in Hok as (tid' & Hid' & Hcase).
    assert (tid' = tid) as -> by congruence.
    destruct Hcase as
      [(r & sv & cbv & _ & _ & _ & _ & ->)
      |[(db' & Hr & Hw & ->)|(r & sv & cbv & db' & Hr & Hv & _ & _ & Hw & ->)]];
      simpl in *.
    + by apply snoc_neq in Hconf.
    + rewrite (write_tracker_version _ _ _ _ _ _ _ Hw Hstored).
      by rewrite (tracker_version_None _ _ Hr).
    + rewrite (write_tracker_version _ _ _ _ _ _ _ Hw Hstored).
      by rewrite (tracker_version_Some _ _ _ _ Hr Hv).
  - intros client_id now date_str tracker_id data s s' Hok Hconf.
    apply process_entry_item_inv in Hok as Hcase.
    destruct Hcase as
      [(r & sv & cbv & _ & _ & _ & _ & ->)
      |[(db' & Hr & Hw & ->)|(r & sv & cbv & db' & Hr & Hv & _ & _ & Hw & ->)]];
      simpl in *.
    + by apply snoc_neq in Hconf.
    + rewrite (write_entry_version _ _ _ _ _ _ _ _ Hw).
      by rewrite (entry_version_None _ _ _ Hr).
    + rewrite (write_entry_version _ _ _ _ _ _ _ _ Hw).
      by rewrite (entry_version_Some _ _ _ _ _ Hr Hv).
  - intros db id client_id d now db1 r1 Hd H1.
    rewrite resolve_client_tracker in H1 by done.
    destruct (force_tracker db id client_id now d) as [dbf|f] eqn:Hf;
      [|done].
    injection H1 as <- _.
    apply force_tracker_inv in Hf as (n & c & t & _ & _ & _ & _ & ->).
    unfold tracker_version at 1. simpl. by rewrite lookup_insert_eq.
Qed.

(** Witness of X2: on the database left by [A], an edit and a soft delete of
    [t1] from base version 1, an entry pushed by [B] for another day, and
    [B]'s forced apply each store the next version. *)
Lemma stored_write_stores_next_version_witness :
  let s := begin_update Scenario.db_A "A" Scenario.time_B in
  (∃ s', process_tracker_item "A" Scenario.time_B Scenario.t1_edit_by_A s
         = Ok s'
         ∧ tracker_version (ls_db s') "t1"
           = tracker_version (ls_db s) "t1" + 1)
  ∧ (∃ s', process_tracker_item "A" Scenario.time_B Scenario.t1_delete_by_A s
           = Ok s'
           ∧ tracker_version (ls_db s') "t1"
             = tracker_version (ls_db s) "t1" + 1)
  ∧ (∃ s', process_entry_item "A" Scenario.time_B "2024-01-06"
             ("t1", Scenario.entry_by_B) s = Ok s'
           ∧ entry_version (ls_db s') "2024-01-06" "t1"
             = entry_version (ls_db s) "2024-01-06" "t1" + 1)
  ∧ tracker_version Scenario.db_C "t1" = tracker_version Scenario.db_B "t1" + 1.
Proof.
  intros s.
  destruct stored_write_stores_next_version as (Ht & He & Hf).
  assert (trackers (ls_db s) !! "t1" = Some Scenario.row_t1_A) as Hrow
    by (vm_compute; reflexivity).
  split; [|split; [|split]].
  - destruct (process_tracker_item "A" Scenario.time_B Scenario.t1_edit_by_A s)
      as [s'|f] eqn:Hstep; [|by vm_compute in Hstep].
    exists s'. split; [done|].
    destruct (Ht "A" Scenario.time_B Scenario.t1_edit_by_A s s' "t1"
                eq_refl Hstep) as [Hv _]; [|by left|exact Hv].
    rewrite (process_tracker_item_current _ _ _ _ "t1" Scenario.row_t1_A 1 1)
      in Hstep by (done || lia).
    apply bind_Ok in Hstep as (db' & _ & [= <-]). done.
  - destruct (process_tracker_item "A" Scenario.time_B
                Scenario.t1_delete_by_A s)
      as [s'|f] eqn:Hstep; [|by vm_compute in Hstep].
    exists s'. split; [done|].
    destruct (Ht "A" Scenario.time_B Scenario.t1_delete_by_A s s' "t1"
                eq_refl Hstep) as [Hv _];
      [|right; rewrite Hrow; by eexists|exact Hv].
    rewrite (process_tracker_item_current _ _ _ _ "t1" Scenario.row_t1_A 1 1)
      in Hstep by (done || lia).
    apply bind_Ok in Hstep as (db' & _ & [= <-]). done.
  - destruct (process_entry_item "A" Scenario.time_B "2024-01-06"
                ("t1", Scenario.entry_by_B) s)
      as [s'|f] eqn:Hstep; [|by vm_compute in Hstep].
    exists s'. split; [done|].
    apply (He _ _ _ _ _ _ _ Hstep).
    rewrite process_entry_item_new in Hstep by (vm_compute; reflexivity).
    apply bind_Ok in Hstep as (db' & _ & [= <-]). done.
  - apply (Hf Scenario.db_B "t1" "B" Scenario.t1_by_B Scenario.time_C
             Scenario.db_C
             [("status", JStr "ok"); ("resolution", JStr "client");
              ("entityId", JStr "t1")]); [discriminate|].
    vm_compute; reflexivity.
Defined.

(** ** The REAL column *)

Lemma to_double_small z : - 2 ^ 53 ≤ z ≤ 2 ^ 53 → to_double z = z.
Proof.
  intros Hz. unfold to_double.
  destruct (Z.leb_spec (Z.log2 (Z.abs z) - 52) 0) as [_|He]; [done|].
  assert (0 < Z.abs z) as Hpos
    by (destruct (Z.eq_dec z 0) as [->|]; [simpl in He; lia | lia]).
  assert (2 ^ 53 ≤ Z.abs z) as Hle by (apply Z.log2_le_pow2; lia).
  assert (z = 2 ^ 53 ∨ z = - 2 ^ 53) as [->| ->] by lia;
    vm_compute; reflexivity.
Qed.

Lemma bind_real_inv j x :
  bind_real j = Ok x →
  match j with
  | JNull => x = None
  | JNum z => - 2 ^ 63 ≤ z < 2 ^ 63 ∧ x = Some (to_double z)
  | JBool b => x = Some (if b then 1 else 0)
  | _ => False
  end.
Proof.
  unfold bind_real. destruct j as [|b|z|s|l|l].
  - by intros [= <-].
  - by intros [= <-].
  - destruct ((- 2 ^ 63 <=? z) && (z <? 2 ^ 63)) eqn:Hr; [|done].
    intros [= <-]. apply andb_true_iff in Hr as [H1%Z.leb_le H2%Z.ltb_lt].
    done.
  - done.
  - done.
  - done.
Qed.


Lemma bind_real_out_of_range z :
  z < - 2 ^ 63 ∨ 2 ^ 63 ≤ z → bind_real (JNum z) = Err ServerError.
Proof.
  intros Hz. unfold bind_real.
  destruct (Z.leb_spec (- 2 ^ 63) z), (Z.ltb_spec z (2 ^ 63)); simpl;
    try done; lia.
Qed.

(** ** The full snapshot and whole-record writes *)

Lemma sync_full_days db seven_days_ago now d t e :
  days_get d t (fs_days (sync_full db seven_days_ago now)) = Some e
  ↔ ∃ row, entries db !! (d, t) = Some row
           ∧ String.leb seven_days_ago d = true
           ∧ e = entry_json row.
Proof.
  unfold sync_full. simpl.
  rewrite collect_days_spec by apply filter_rows_NoDup.
  split.
  - intros (row & Hin & ->).
    apply list_elem_of_filter in Hin as [Hw Hin].
    apply elem_of_map_to_list in Hin. simpl in *.
    exists row. split; [done|]. split; [by apply Is_true_true | done].
  - intros (row & Hrow & Hw & ->). exists row. split; [|done].
    apply list_elem_of_filter. simpl. split; [by apply Is_true_true|].
    by apply elem_of_map_to_list.
Qed.

Lemma live_spec row :
  live row = true ↔ tr_deleted row = Some 0 ∨ tr_deleted row = None.
Proof.
  unfold live. destruct (tr_deleted row) as [z|]; [|split; auto].
  rewrite Z.eqb_eq. split; [intros ->; by left|].
  by intros [[= ->]|?].
Qed.

(** X3.  The full snapshot returns exactly the trackers that are not deleted
    (the column [deleted] is 0 or NULL), each as the seven fields [id],
    [name], [category], [type], [_version], [_lastModifiedBy] and
    [_lastModifiedAt] read from the row and updated with the row's
    extension map (for a map of distinct keys outside the reserved ones:
    followed by its fields); exactly the entries dated on or after the
    cutoff, each with its value, completion, version and stamp; and the
    server time. *)
Theorem sync_full_returns_live_rows db seven_days_ago now :
  let r := sync_full db seven_days_ago now in
  (∀ t, t ∈ fs_config r
        ↔ ∃ id row,
            trackers db !! id = Some row
            ∧ (tr_deleted row = Some 0 ∨ tr_deleted row = None)
            ∧ t = dict_update
                    [("id", JStr id); ("name", text_json (tr_name row));
                     ("category", text_json (tr_category row));
                     ("type", text_json (tr_type row));
                     ("_version", JNum (version_or_1 (tr_version row)));
                     ("_lastModifiedBy",
                      text_json (tr_last_modified_by row));
                     ("_lastModifiedAt",
                      text_json (tr_last_modified_at row))]
                    (default [] (tr_meta_json row)))
  ∧ (∀ d t e, days_get d t (fs_days r) = Some e
              ↔ ∃ row,
                  entries db !! (d, t) = Some row
                  ∧ String.leb seven_days_ago d = true
                  ∧ e = [("value", real_json (en_value row));
                         ("completed", completed_json (en_completed row));
                         ("_version", JNum (version_or_1 (en_version row)));
                         ("_lastModifiedBy",
                          text_json (en_last_modified_by row));
                         ("_lastModifiedAt",
                          text_json (en_last_modified_at row))])
  ∧ fs_serverTime r = now
  ∧ (∀ (d : list (string * json)) meta,
       extension_map meta → (∀ k, k ∈ d.*1 → k ∈ excluded_keys) →
       dict_update d meta = d ++ meta).
Proof.
  intros r. subst r.
  split; [|split; [|split; [reflexivity|]]].
  - intros t. rewrite sync_full_config. split.
    + intros (id & row & Hrow & Hl%live_spec & ->). exists id, row.
      split; [done|]. split; [done|]. apply tracker_json_explicit.
    + intros (id & row & Hrow & Hl%live_spec & ->). exists id, row.
      split; [done|]. split; [done|]. symmetry. apply tracker_json_explicit.
  - intros d t e. rewrite sync_full_days. split.
    + intros (row & Hrow & Hw & ->). by exists row.
    + intros (row & Hrow & Hw & ->). by exists row.
  - intros d meta. apply dict_update_extension.
Qed.

(** Witness of X3: of the three trackers of [db_F] the full snapshot
    returns [t1] and [t2], not the deleted [t3], and it returns the
    entry of 2024-01-05. *)
Lemma sync_full_returns_live_rows_witness :
  let r := sync_full Scenario.db_F Scenario.cutoff Scenario.time_D in
  [("id", JStr "t1"); ("name", JStr "Run"); ("category", JStr "");
   ("type", JStr "simple"); ("_version", JNum 1);
   ("_lastModifiedBy", JStr "A");
   ("_lastModifiedAt", JStr "2024-01-05T10:00:00Z");
   ("goal", JNum 10); ("unit", JStr "km")] ∈ fs_config r
  ∧ List.length (fs_config r) = 2%nat
  ∧ days_get "2024-01-05" "t1" (fs_days r)
    = Some [("value", JNum 5); ("completed", JNull); ("_version", JNum 1);
            ("_lastModifiedBy", JStr "A");
            ("_lastModifiedAt", JStr "2024-01-05T10:00:00Z")].
Proof.
  intros r.
  destruct (sync_full_returns_live_rows Scenario.db_F Scenario.cutoff
              Scenario.time_D) as (Hcfg & Hdays & _).
  fold r in Hcfg, Hdays.
  assert (trackers Scenario.db_F !! "t1" = Some Scenario.row_t1_A) as H1
    by (vm_compute; reflexivity).
  assert (entries Scenario.db_F !! ("2024-01-05", "t1")
          = Some Scenario.row_entry_A) as He
    by (vm_compute; reflexivity).
  split; [|split].
  - apply Hcfg. exists "t1", Scenario.row_t1_A. split; [exact H1|].
    split; [by left | reflexivity].
  - vm_compute; reflexivity.
  - apply Hdays. exists Scenario.row_entry_A. split; [exact He|].
    split; reflexivity.
Defined.

(** X4.  An accepted write replaces the whole record and is stamped by the
    server.  After an accepted tracker upsert the row holds the item's
    name, category and type (with their defaults), its extension map, the
    new version, the pushing client and the time of the request, and is
    not deleted; a soft delete of a stored tracker changes only the
    deleted flag, the version and the stamp.  After an accepted entry
    item the row holds the item's completion and its value as the REAL
    column stores it, so a field the client leaves out is stored as
    NULL, whatever the row held before.  The REAL column stores null as
    NULL, a boolean as 0 or 1 and an integer of the 64-bit range as the
    nearest double (the integer itself up to 2^53); an integer outside
    that range is refused, and with it the push. *)
Theorem accepted_write_replaces_record :
  (∀ client_id now item s s' tid,
     dict_get_none "id" item = JStr tid →
     process_tracker_item client_id now item s = Ok s' →
     ls_conflicts s' = ls_conflicts s →
     is_deleted item = false →
     ∃ n c t,
       bind_text (dict_get_none "name" item) = Ok n
       ∧ bind_text (dict_get_default "category" (JStr "") item) = Ok c
       ∧ bind_text (dict_get_default "type" (JStr "simple") item) = Ok t
       ∧ trackers (ls_db s') !! tid
         = Some {| tr_name := n; tr_category := c; tr_type := t;
                   tr_meta_json := Some (extract_meta item);
                   tr_version := Some (tracker_version (ls_db s) tid + 1);
                   tr_last_modified_by := Some client_id;
                   tr_last_modified_at := Some now;
                   tr_deleted := Some 0 |})
  ∧ (∀ client_id now item s s' tid row,
       dict_get_none "id" item = JStr tid →
       process_tracker_item client_id now item s = Ok s' →
       ls_conflicts s' = ls_conflicts s →
       is_deleted item = true →
       trackers (ls_db s) !! tid = Some row →
       trackers (ls_db s') !! tid
       = Some {| tr_name := tr_name row; tr_category := tr_category row;
                 tr_type := tr_type row; tr_meta_json := tr_meta_json row;
                 tr_version := Some (tracker_version (ls_db s) tid + 1);
                 tr_last_modified_by := Some client_id;
                 tr_last_modified_at := Some now;
                 tr_deleted := Some 1 |})
  ∧ (∀ client_id now date_str tracker_id data s s',
       process_entry_item client_id now date_str (tracker_id, data) s = Ok s' →
       ls_conflicts s' = ls_conflicts s →
       ∃ x,
         bind_real (dict_get_none "value" data) = Ok x
         ∧ (dict_get "value" data = None → x = None)
         ∧ entries (ls_db s') !! (date_str, tracker_id)
           = Some {| en_value := x;
                     en_completed :=
                       completed_int (dict_get_none "completed" data);
                     en_version :=
                       Some (entry_version (ls_db s) date_str tracker_id + 1);
                     en_last_modified_by := Some client_id;
                     en_last_modified_at := Some now |})
  ∧ (∀ j x,
       bind_real j = Ok x →
       match j with
       | JNull => x = None
       | JNum z => - 2 ^ 63 ≤ z < 2 ^ 63 ∧ x = Some (to_double z)
       | JBool b => x = Some (if b then 1 else 0)
       | _ => False
       end)
  ∧ (∀ z, - 2 ^ 53 ≤ z ≤ 2 ^ 53 → to_double z = z)
  ∧ to_double (2 ^ 53 + 1) = 2 ^ 53
  ∧ (∀ client_id now date_str tracker_id data s z,
       dict_get "value" data = Some (JNum z) →
       z < - 2 ^ 63 ∨ 2 ^ 63 ≤ z →
       (entries (ls_db s) !! (date_str, tracker_id) = None
        ∨ ∃ r sv cbv,
            entries (ls_db s) !! (date_str, tracker_id) = Some r
            ∧ en_version r = Some sv
            ∧ as_int (base_version data) = Some cbv ∧ sv ≤ cbv) →
       process_entry_item client_id now date_str (tracker_id, data) s
       = Err ServerError).
Proof.
  split; [|split; [|split; [|split; [apply bind_real_inv|
    split; [apply to_double_small|split; [vm_compute; reflexivity|]]]]]].
  4:{ intros client_id now date_str tracker_id data s z Hval Hz Hgate.
      assert (∀ v, write_entry client_id now date_str tracker_id data v
                     (ls_db s) = Err ServerError) as Hw.
      { intros v. unfold write_entry, dict_get_none, dict_get_default.
        rewrite Hval.
        change (default JNull (Some (JNum z))) with (JNum z).
        by rewrite bind_real_out_of_range. }
      destruct Hgate as [Hnone|(r & sv & cbv & Hr & Hsv & Hb & Hle)].
      - rewrite process_entry_item_new by done. by rewrite Hw.
      - rewrite (process_entry_item_current _ _ _ _ _ _ r sv cbv) by done.
        by rewrite Hw. }
  - intros client_id now item s s' tid Hid Hok Hconf Hdel.
    apply process_tracker_item_inv in Hok as (tid' & Hid' & Hcase).
    assert (tid' = tid) as -> by congruence.
    assert (∀ v db',
              write_tracker client_id now item tid v (ls_db s) = Ok db' →
              ∃ n c t,
                bind_text (dict_get_none "name" item) = Ok n
                ∧ bind_text (dict_get_default "category" (JStr "") item) = Ok c
                ∧ bind_text (dict_get_default "type" (JStr "simple") item)
                  = Ok t
                ∧ trackers db' !! tid
                  = Some (new_tracker_row n c t (extract_meta item) v
                            client_id now)) as Hwrite.
    { intros v db'. unfold write_tracker. rewrite Hdel. intros H.
      apply bind_Ok in H as (n & Hn & H).
      apply bind_Ok in H as (c & Hc & H).
      apply bind_Ok in H as (t & Ht & [= <-]).
      exists n, c, t. repeat (split; [done|]). simpl.
      apply lookup_insert_eq. }
    destruct Hcase as
      [(r & sv & cbv & _ & _ & _ & _ & ->)
      |[(db' & Hr & Hw & ->)|(r & sv & cbv & db' & Hr & Hv & _ & _ & Hw & ->)]];
      simpl in *.
    + by apply snoc_neq in Hconf.
    + rewrite (tracker_version_None _ _ Hr). by apply Hwrite.
    + rewrite (tracker_version_Some _ _ _ _ Hr Hv). by apply Hwrite.
  - intros client_id now item s s' tid row Hid Hok Hconf Hdel Hrow.
    apply process_tracker_item_inv in Hok as (tid' & Hid' & Hcase).
    assert (tid' = tid) as -> by congruence.
    destruct Hcase as
      [(r & sv & cbv & _ & _ & _ & _ & ->)
      |[(db' & Hr & Hw & ->)|(r & sv & cbv & db' & Hr & Hv & _ & _ & Hw & ->)]];
      simpl in *.
    + by apply snoc_neq in Hconf.
    + congruence.
    + rewrite (tracker_version_Some _ _ _ _ Hr Hv).
      unfold write_tracker in Hw. rewrite Hdel in Hw. injection Hw as <-.
      simpl. rewrite lookup_alter_eq, Hr. simpl.
      assert (r = row) as -> by congruence. done.
  - intros client_id now date_str tracker_id data s s' Hok Hconf.
    apply process_entry_item_inv in Hok as Hcase.
    assert (∀ v db',
              write_entry client_id now date_str tracker_id data v (ls_db s)
              = Ok db' →
              ∃ x,
                bind_real (dict_get_none "value" data) = Ok x
                ∧ (dict_get "value" data = None → x = None)
                ∧ entries db' !! (date_str, tracker_id)
                  = Some (new_entry_row x (dict_get_none "completed" data) v
                            client_id now)) as Hwrite.
    { intros v db'. unfold write_entry. intros H.
      apply bind_Ok in H as (x & Hx & [= <-]).
      exists x. split; [done|]. split; [|simpl; apply lookup_insert_eq].
      intros Hnone. unfold dict_get_none, dict_get_default in Hx.
      rewrite Hnone in Hx. simpl in Hx. congruence. }
    destruct Hcase as
      [(r & sv & cbv & _ & _ & _ & _ & ->)
      |[(db' & Hr & Hw & ->)|(r & sv & cbv & db' & Hr & Hv & _ & _ & Hw & ->)]];
      simpl in *.
    + by apply snoc_neq in Hconf.
    + rewrite (entry_version_None _ _ _ Hr). by apply Hwrite.
    + rewrite (entry_version_Some _ _ _ _ _ Hr Hv). by apply Hwrite.
Qed.

(** Witness of X4: on the database left by [A], [A]'s edit and soft delete of
    [t1], a second push for the entry of 2024-01-05 that leaves the
    value out (the value 5 stored before is replaced by NULL), and an
    entry with the value 2^53 + 1, which is stored as 2^53. *)
Lemma accepted_write_replaces_record_witness :
  let s := begin_update Scenario.db_A "A" Scenario.time_B in
  (∃ s', process_tracker_item "A" Scenario.time_B Scenario.t1_edit_by_A s
         = Ok s'
         ∧ tr_name <$> trackers (ls_db s') !! "t1" = Some (Some "Jog"))
  ∧ (∃ s', process_tracker_item "A" Scenario.time_B Scenario.t1_delete_by_A s
           = Ok s'
           ∧ tr_deleted <$> trackers (ls_db s') !! "t1" = Some (Some 1))
  ∧ (∃ s', process_entry_item "A" Scenario.time_B "2024-01-05"
             ("t1", Scenario.entry_completed_only) s = Ok s'
           ∧ en_value <$> entries (ls_db s) !! ("2024-01-05", "t1")
             = Some (Some 5)
           ∧ en_value <$> entries (ls_db s') !! ("2024-01-05", "t1")
             = Some None)
  ∧ (∃ s', process_entry_item "A" Scenario.time_B "2024-01-07"
             ("t1", Scenario.entry_above_2_53) s = Ok s'
           ∧ en_value <$> entries (ls_db s') !! ("2024-01-07", "t1")
             = Some (Some 9007199254740992)).
Proof.
  intros s.
  destruct accepted_write_replaces_record as (Hu & Hd & He & _).
  assert (trackers (ls_db s) !! "t1" = Some Scenario.row_t1_A) as Hrow
    by (vm_compute; reflexivity).
  assert (entries (ls_db s) !! ("2024-01-05", "t1")
          = Some Scenario.row_entry_A) as Hent
    by (vm_compute; reflexivity).
  split; [|split; [|split]].
  - destruct (process_tracker_item "A" Scenario.time_B Scenario.t1_edit_by_A s)
      as [s'|f] eqn:Hstep; [|by vm_compute in Hstep].
    exists s'. split; [done|].
    destruct (Hu "A" Scenario.time_B Scenario.t1_edit_by_A s s' "t1"
                eq_refl Hstep) as (n & c & t & Hn & _ & _ & ->);
      [|reflexivity|].
    + rewrite (process_tracker_item_current _ _ _ _ "t1" Scenario.row_t1_A 1 1)
        in Hstep by (done || lia).
      apply bind_Ok in Hstep as (db' & _ & [= <-]). done.
    + simpl. injection Hn as <-. done.
  - destruct (process_tracker_item "A" Scenario.time_B
                Scenario.t1_delete_by_A s)
      as [s'|f] eqn:Hstep; [|by vm_compute in Hstep].
    exists s'. split; [done|].
    rewrite (Hd "A" Scenario.time_B Scenario.t1_delete_by_A s s' "t1"
               Scenario.row_t1_A eq_refl Hstep); [done| |reflexivity|exact Hrow].
    rewrite (process_tracker_item_current _ _ _ _ "t1" Scenario.row_t1_A 1 1)
      in Hstep by (done || lia).
    apply bind_Ok in Hstep as (db' & _ & [= <-]). done.
  - destruct (process_entry_item "A" Scenario.time_B "2024-01-05"
                ("t1", Scenario.entry_completed_only) s)
      as [s'|f] eqn:Hstep; [|by vm_compute in Hstep].
    exists s'. split; [done|]. split; [by rewrite Hent|].
    destruct (He "A" Scenario.time_B "2024-01-05" "t1"
                Scenario.entry_completed_only s s' Hstep)
      as (x & _ & Hx & ->); [|by rewrite Hx].
    rewrite (process_entry_item_current _ _ _ _ _ _ Scenario.row_entry_A 1 1)
      in Hstep by (done || lia).
    apply bind_Ok in Hstep as (db' & _ & [= <-]). done.
  - destruct (process_entry_item "A" Scenario.time_B "2024-01-07"
                ("t1", Scenario.entry_above_2_53) s)
      as [s'|f] eqn:Hstep; [|by vm_compute in Hstep].
    exists s'. split; [done|].
    destruct (He "A" Scenario.time_B "2024-01-07" "t1"
                Scenario.entry_above_2_53 s s' Hstep)
      as (x & Hx & _ & ->).
    + rewrite process_entry_item_new in Hstep by (vm_compute; reflexivity).
      apply bind_Ok in Hstep as (db' & _ & [= <-]). done.
    + vm_compute in Hx. injection Hx as <-. reflexivity.
Defined.

(** ** Pushes that complete *)

















(** * Further properties of the endpoints *)

(** ** [resolve_conflict] *)

Lemma forced_payload_None resolution client_data :
  forced_payload resolution client_data = None
  ↔ resolution ≠ "client" ∨ client_data = None ∨ client_data = Some [].
Proof.
  unfold forced_payload.
  destruct (String.eqb_spec resolution "client") as [->|Hne].
  - destruct client_data as [[|kv d]|]; split; try done;
      try (intros _; by auto).
    intros [?|[?|?]]; done.
  - split; [by left | done].
Qed.

(** X6.  A resolution that forces nothing (a resolution other than
    ["client"], a missing or empty [client_data], or an entity type that
    is neither ["tracker"] nor ["entry"]) always completes: it leaves
    the trackers, entries and clients as they were, appends one ledger
    row stamped as resolved at the time of the request, and sets the
    watermark to that time.  Neither the entity type, the entity id nor
    the resolution is checked against anything. *)
Theorem resolution_without_forced_apply
    db entity_type entity_id resolution client_id client_data now :
  (resolution ≠ "client" ∨ client_data = None ∨ client_data = Some [])
  ∨ (entity_type ≠ "tracker" ∧ entity_type ≠ "entry") →
  ∃ db',
    resolve_conflict db entity_type entity_id resolution client_id
      client_data now
    = (db', Ok [("status", JStr "ok"); ("resolution", JStr resolution);
                ("entityId", JStr entity_id)])
    ∧ trackers db' = trackers db ∧ entries db' = entries db
    ∧ clients db' = clients db
    ∧ sync_conflicts db'
      = sync_conflicts db ++
          [{| sc_id := Z.of_nat (List.length (sync_conflicts db)) + 1;
              sc_entity_type := Some entity_type;
              sc_entity_id := Some entity_id;
              sc_client_id := Some client_id;
              sc_client_data :=
                match client_data with
                | Some (kv :: d) => Some (kv :: d)
                | _ => None
                end;
              sc_server_data := None;
              sc_resolution := Some resolution;
              sc_resolved_at := Some now;
              sc_created_at := Some now |}]
    ∧ sync_status db' = Some now.
Proof.
  intros Hcase. unfold resolve_conflict.
  assert (match forced_payload resolution client_data with
          | Some d =>
              if String.eqb entity_type "tracker"
              then force_tracker db entity_id client_id now d
              else if String.eqb entity_type "entry"
                   then force_entry db entity_id client_id now d
                   else Ok db
          | None => Ok db
          end = Ok db) as ->.
  { destruct Hcase as [Hnone|[Ht He]].
    - apply forced_payload_None in Hnone. by rewrite Hnone.
    - destruct (forced_payload resolution client_data); [|done].
      destruct (String.eqb_spec entity_type "tracker"); [done|].
      by destruct (String.eqb_spec entity_type "entry"). }
  eexists. split; [reflexivity|]. simpl.
  repeat split; try reflexivity.
  unfold sync_status. simpl. apply lookup_insert_eq.
Qed.

(** Witness of X6: [B] accepts the server's version of [t1]; a resolution
    for an entity type the server does not know is logged all the same. *)
Lemma resolution_without_forced_apply_witness :
  (∃ db',
     (resolve_conflict Scenario.db_B "tracker" "t1" "server" "B" None
        Scenario.time_C).1 = db'
     ∧ trackers db' = trackers Scenario.db_B
     ∧ sync_status db' = Some Scenario.time_C)
  ∧ (∃ db',
       (resolve_conflict Scenario.db_B "note" "n1" "client" "B"
          (Some Scenario.t1_by_B) Scenario.time_C).1 = db'
       ∧ trackers db' = trackers Scenario.db_B
       ∧ sync_status db' = Some Scenario.time_C).
Proof.
  split.
  - destruct (resolution_without_forced_apply Scenario.db_B "tracker" "t1"
                "server" "B" None Scenario.time_C)
      as (db' & Hres & Ht & _ & _ & _ & Hw); [left; left; discriminate|].
    exists db'. rewrite Hres. by repeat split.
  - destruct (resolution_without_forced_apply Scenario.db_B "note" "n1"
                "client" "B" (Some Scenario.t1_by_B) Scenario.time_C)
      as (db' & Hres & Ht & _ & _ & _ & Hw);
      [right; split; discriminate|].
    exists db'. rewrite Hres. by repeat split.
Defined.

(** X7.  A completed forced apply ([resolution = "client"] with a
    non-empty payload) writes the whole record under the entity id of the
    request: for a tracker the row holds the payload's name, category
    and type, its fields outside [excluded_keys], the stored version
    plus 1 (1 when the tracker was not stored), the resolving client and
    the time of the request, and it is not deleted, whatever the row was
    before and whatever ["id"] the payload carries; every other tracker
    and all entries are untouched.  For an entry the row under the date
    and tracker id parsed from the entity id holds the payload's
    completion and its value as the REAL column stores it (null as NULL,
    a boolean as 0 or 1, an integer of the 64-bit range as the nearest
    double; with any other integer the request fails).  In both cases
    one ledger row holding the payload is appended and the watermark is
    set to the time of the request. *)
Theorem forced_apply_writes_whole_record :
  (∀ db id client_id d now db1 r1,
     d ≠ [] →
     resolve_conflict db "tracker" id "client" client_id (Some d) now
     = (db1, Ok r1) →
     ∃ n c t,
       bind_text (dict_get_none "name" d) = Ok n
       ∧ bind_text (dict_get_default "category" (JStr "") d) = Ok c
       ∧ bind_text (dict_get_default "type" (JStr "simple") d) = Ok t
       ∧ trackers db1
         = <[id := {| tr_name := n; tr_category := c; tr_type := t;
                      tr_meta_json := Some (extract_meta d);
                      tr_version := Some (tracker_version db id + 1);
                      tr_last_modified_by := Some client_id;
                      tr_last_modified_at := Some now;
                      tr_deleted := Some 0 |}]> (trackers db)
       ∧ entries db1 = entries db
       ∧ sync_conflicts db1
         = log_resolution "tracker" id "client" client_id (Some d) now
             (sync_conflicts db)
       ∧ sc_client_data <$> last (sync_conflicts db1) = Some (Some d)
       ∧ sync_status db1 = Some now)
  ∧ (∀ db id client_id d now db1 r1,
       d ≠ [] →
       resolve_conflict db "entry" id "client" client_id (Some d) now
       = (db1, Ok r1) →
       ∃ date_str tracker_id x,
         split_entity_id id = Ok (date_str, tracker_id)
         ∧ bind_real (dict_get_none "value" d) = Ok x
         ∧ entries db1
           = <[(date_str, tracker_id) :=
                 {| en_value := x;
                    en_completed :=
                      completed_int (dict_get_none "completed" d);
                    en_version :=
                      Some (entry_version db date_str tracker_id + 1);
                    en_last_modified_by := Some client_id;
                    en_last_modified_at := Some now |}]> (entries db)
         ∧ trackers db1 = trackers db
         ∧ sync_conflicts db1
           = log_resolution "entry" id "client" client_id (Some d) now
               (sync_conflicts db)
         ∧ sync_status db1 = Some now).
Proof.
  split.
  - intros db id client_id d now db1 r1 Hd H1.
    rewrite resolve_client_tracker in H1 by done.
    destruct (force_tracker db id client_id now d) as [dbf|f] eqn:Hf;
      [|done].
    injection H1 as <- _.
    apply force_tracker_inv in Hf as (n & c & t & Hn & Hc & Ht & _ & ->).
    exists n, c, t. repeat (split; [done|]). simpl.
    split; [|unfold sync_status; simpl; apply lookup_insert_eq].
    unfold log_resolution. rewrite last_snoc. simpl.
    by destruct d.
  - intros db id client_id d now db1 r1 Hd H1.
    rewrite resolve_client_entry in H1 by done.
    destruct (force_entry db id client_id now d) as [dbf|f] eqn:Hf;
      [|done].
    injection H1 as <- _.
    apply force_entry_inv in Hf as (d' & t' & x & Hk & Hx & _ & ->).
    exists d', t', x. repeat (split; [done|]). simpl.
    unfold sync_status. simpl. apply lookup_insert_eq.
Qed.

(** Witness of X7: [t3] is a tombstone at version 2; the forced apply
    stores it live at version 3 under [t3], not under the id the payload
    names. *)
Lemma forced_apply_writes_whole_record_witness :
  let db1 :=
    (resolve_conflict Scenario.db_F "tracker" "t3" "client" "B"
       (Some Scenario.revive_t3) Scenario.time_D).1 in
  tr_deleted <$> trackers Scenario.db_F !! "t3" = Some (Some 1)
  ∧ trackers db1 !! "t3"
    = Some (new_tracker_row (Some "Read again") (Some "") (Some "simple")
              [("pages", JNum 30)] 3 "B" Scenario.time_D)
  ∧ trackers db1 !! "zzz" = None.
Proof.
  intros db1.
  assert (tracker_version Scenario.db_F "t3" = 2) as Hv
    by (vm_compute; reflexivity).
  destruct (proj1 forced_apply_writes_whole_record Scenario.db_F "t3" "B"
              Scenario.revive_t3 Scenario.time_D db1
              [("status", JStr "ok"); ("resolution", JStr "client");
               ("entityId", JStr "t3")])
    as (n & c & t & Hn & Hc & Ht & Htr & _);
    [discriminate | vm_compute; reflexivity |].
  injection Hn as <-. injection Hc as <-. injection Ht as <-.
  split; [vm_compute; reflexivity|].
  rewrite Htr, Hv. split; [by rewrite lookup_insert_eq|].
  rewrite lookup_insert_ne by done. vm_compute; reflexivity.
Defined.

(** ** Entity ids of entries *)

Lemma count_char_app c s1 s2 :
  count_char c (s1 +:+ s2) = (count_char c s1 + count_char c s2)%nat.
Proof.
  induction s1 as [|c' s1 IH]; simpl; [done|].
  destruct (Ascii.eqb c' c); simpl; by rewrite IH.
Qed.

Lemma split_on_length sep s :
  List.length (split_on sep s) = S (count_char sep s).
Proof.
  induction s as [|c s IH]; simpl; [done|].
  destruct (Ascii.eqb c sep); simpl; [by rewrite IH|].
  destruct (split_on sep s) as [|h t]; simpl in *; [done | done].
Qed.

Lemma split_on_single sep s t :
  split_on sep s = [t] → s = t ∧ count_char sep t = 0%nat.
Proof.
  revert t. induction s as [|c s IH]; simpl; intros t.
  - by intros [= <-].
  - destruct (Ascii.eqb c sep) eqn:Hc.
    + intros [= <- Hs]. apply (f_equal List.length) in Hs.
      rewrite split_on_length in Hs. done.
    + destruct (split_on sep s) as [|h tl] eqn:Hs.
      * apply (f_equal List.length) in Hs.
        rewrite split_on_length in Hs. done.
      * intros [= <- ->]. destruct (IH h eq_refl) as [-> Hn].
        split; [done|]. simpl. by rewrite Hc.
Qed.

Lemma split_on_pair sep s d t :
  split_on sep s = [d; t] →
  s = d +:+ String sep t
  ∧ count_char sep d = 0%nat ∧ count_char sep t = 0%nat.
Proof.
  revert d. induction s as [|c s IH]; simpl; intros d; [done|].
  destruct (Ascii.eqb_spec c sep) as [->|Hne].
  - intros [= <- Hs]. apply split_on_single in Hs as [-> Hn]. done.
  - destruct (split_on sep s) as [|h tl] eqn:Hs; [done|].
    intros [= <- ->]. destruct (IH h eq_refl) as (-> & Hd & Ht).
    repeat split; [|done]. simpl.
    by destruct (Ascii.eqb_spec c sep).
Qed.

Lemma split_on_join sep d t :
  count_char sep d = 0%nat →
  split_on sep (d +:+ String sep t) = d :: split_on sep t.
Proof.
  induction d as [|c d IH]; simpl.
  - intros _. by rewrite Ascii.eqb_refl.
  - destruct (Ascii.eqb c sep); [done|]. intros Hd. by rewrite IH.
Qed.

Lemma split_on_no_sep sep s :
  count_char sep s = 0%nat → split_on sep s = [s].
Proof.
  induction s as [|c s IH]; simpl; [done|].
  destruct (Ascii.eqb c sep); [done|]. intros Hs. by rewrite IH.
Qed.

Lemma split_entity_id_Ok s d t :
  split_entity_id s = Ok (d, t) ↔ split_on "|" s = [d; t].
Proof.
  unfold split_entity_id.
  destruct (split_on "|" s) as [|a [|b [|c l]]]; split;
    (done || by intros [= -> ->]).
Qed.

Lemma split_entity_id_Err s :
  count_char "|" s ≠ 1%nat → split_entity_id s = Err ServerError.
Proof.
  intros Hn. unfold split_entity_id.
  pose proof (split_on_length "|" s) as Hlen.
  destruct (split_on "|" s) as [|a [|b [|c l]]]; try done.
  simpl in Hlen. lia.
Qed.

(** X8.  The entity id of an entry is [date|tracker_id], split at ["|"]
    by [resolve_conflict].  An id parses exactly when it holds one
    ["|"], and then into the text before and after it.  So the
    [entityId] that [sync_update] reports for an entry conflict parses
    back into the date and tracker id of the entry exactly when neither
    of them holds a ["|"]; with any other number of separators a forced
    apply to the entry fails and commits nothing. *)
Theorem entry_entity_id_round_trip :
  (∀ s d t,
     split_entity_id s = Ok (d, t)
     ↔ s = d +:+ "|" +:+ t
       ∧ count_char "|" d = 0%nat ∧ count_char "|" t = 0%nat)
  ∧ (∀ s, (∃ d t, split_entity_id s = Ok (d, t)) ↔ count_char "|" s = 1%nat)
  ∧ (∀ date_str tracker_id row sv cbv,
       split_entity_id
         (entityId (entry_conflict date_str tracker_id row sv cbv))
       = if decide (count_char "|" date_str = 0%nat
                    ∧ count_char "|" tracker_id = 0%nat)
         then Ok (date_str, tracker_id)
         else Err ServerError)
  ∧ (∀ db id client_id d now,
       d ≠ [] → count_char "|" id ≠ 1%nat →
       resolve_conflict db "entry" id "client" client_id (Some d) now
       = (db, Err ServerError)).
Proof.
  assert (∀ s d t,
            split_entity_id s = Ok (d, t)
            ↔ s = d +:+ "|" +:+ t
              ∧ count_char "|" d = 0%nat ∧ count_char "|" t = 0%nat) as Hiff.
  { intros s d t. rewrite split_entity_id_Ok. split.
    - apply split_on_pair.
    - intros (-> & Hd & Ht).
      change (d +:+ "|" +:+ t) with (d +:+ String "|" t).
      by rewrite split_on_join, split_on_no_sep. }
  split; [exact Hiff|]. split; [|split].
  - intros s. split.
    + intros (d & t & (-> & Hd & Ht)%Hiff).
      rewrite !count_char_app. simpl. lia.
    + intros Hs. pose proof (split_on_length "|" s) as Hlen.
      rewrite Hs in Hlen.
      destruct (split_on "|" s) as [|a [|b [|c l]]] eqn:Hsplit; try done.
      exists a, b. by apply split_entity_id_Ok.
  - intros date_str tracker_id row sv cbv. simpl.
    destruct (decide _) as [[Hd Ht]|Hn].
    + by apply Hiff.
    + apply split_entity_id_Err. rewrite !count_char_app. simpl. lia.
  - intros db id client_id d now Hd Hn.
    rewrite resolve_client_entry by done.
    unfold force_entry. by rewrite split_entity_id_Err.
Qed.

(** Witness of X8: the entity id of [B]'s entry conflict parses back; an
    id with two separators is refused. *)
Lemma entry_entity_id_round_trip_witness :
  split_entity_id "2024-01-05|t1" = Ok ("2024-01-05", "t1")
  ∧ resolve_conflict Scenario.db_B "entry" "2024-01-05|t|1" "client" "B"
      (Some Scenario.entry_by_B) Scenario.time_C
    = (Scenario.db_B, Err ServerError).
Proof.
  destruct entry_entity_id_round_trip as (Hiff & _ & _ & Hres).
  split.
  - apply Hiff. by repeat split.
  - apply Hres; [discriminate|]. vm_compute. lia.
Defined.

(** ** The outcome of a push, item by item *)

Lemma process_tracker_item_conflicts_prefix client_id now item s s' :
  process_tracker_item client_id now item s = Ok s' →
  ∃ more, ls_conflicts s' = ls_conflicts s ++ more
          ∧ Forall (λ c, entityType c = "tracker") more.
Proof.
  intros (tid & _ & Hcase)%process_tracker_item_inv.
  destruct Hcase as
    [(r & sv & cbv & _ & _ & _ & _ & ->)
    |[(db' & _ & _ & ->)|(r & sv & cbv & db' & _ & _ & _ & _ & _ & ->)]];
    simpl.
  - eexists. split; [done|]. by repeat constructor.
  - exists []. by rewrite app_nil_r.
  - exists []. by rewrite app_nil_r.
Qed.

Lemma process_config_conflicts_prefix client_id now items s s' :
  process_config client_id now items s = Ok s' →
  ∃ more, ls_conflicts s' = ls_conflicts s ++ more
          ∧ Forall (λ c, entityType c = "tracker") more.
Proof.
  revert s. induction items as [|item items IH]; simpl; intros s.
  - intros [= <-]. exists []. by rewrite app_nil_r.
  - intros (s1 & Hstep & Hrest)%bind_Ok.
    apply process_tracker_item_conflicts_prefix in Hstep as (m1 & H1 & Hf1).
    apply IH in Hrest as (m2 & H2 & Hf2).
    exists (m1 ++ m2). rewrite H2, H1, app_assoc.
    split; [done | by apply Forall_app].
Qed.

Lemma process_entry_item_conflicts_prefix client_id now date_str kv s s' :
  process_entry_item client_id now date_str kv s = Ok s' →
  ∃ more, ls_conflicts s' = ls_conflicts s ++ more
          ∧ Forall (λ c, entityType c = "entry") more.
Proof.
  destruct kv as [tid data].
  intros Hcase%process_entry_item_inv.
  destruct Hcase as
    [(r & sv & cbv & _ & _ & _ & _ & ->)
    |[(db' & _ & _ & ->)|(r & sv & cbv & db' & _ & _ & _ & _ & _ & ->)]];
    simpl.
  - eexists. split; [done|]. by repeat constructor.
  - exists []. by rewrite app_nil_r.
  - exists []. by rewrite app_nil_r.
Qed.

Lemma process_trackers_map_conflicts_prefix client_id now date_str m s s' :
  process_trackers_map client_id now date_str m s = Ok s' →
  ∃ more, ls_conflicts s' = ls_conflicts s ++ more
          ∧ Forall (λ c, entityType c = "entry") more.
Proof.
  revert s. induction m as [|kv m IH]; simpl; intros s.
  - intros [= <-]. exists []. by rewrite app_nil_r.
  - intros (s1 & Hstep & Hrest)%bind_Ok.
    apply process_entry_item_conflicts_prefix in Hstep as (m1 & H1 & Hf1).
    apply IH in Hrest as (m2 & H2 & Hf2).
    exists (m1 ++ m2). rewrite H2, H1, app_assoc.
    split; [done | by apply Forall_app].
Qed.

Lemma process_days_conflicts_prefix client_id now dys s s' :
  process_days client_id now dys s = Ok s' →
  ∃ more, ls_conflicts s' = ls_conflicts s ++ more
          ∧ Forall (λ c, entityType c = "entry") more.
Proof.
  revert s. induction dys as [|[d m] dys IH]; simpl; intros s.
  - intros [= <-]. exists []. by rewrite app_nil_r.
  - intros (s1 & Hstep & Hrest)%bind_Ok.
    apply process_trackers_map_conflicts_prefix in Hstep as (m1 & H1 & Hf1).
    apply IH in Hrest as (m2 & H2 & Hf2). simpl in H1.
    exists (m1 ++ m2). rewrite H2, H1, app_assoc.
    split; [done | by apply Forall_app].
Qed.

Lemma process_trackers_map_app client_id now date_str pre post s :
  process_trackers_map client_id now date_str (pre ++ post) s
  = process_trackers_map client_id now date_str pre s
      ≫= process_trackers_map client_id now date_str post.
Proof.
  revert s. induction pre as [|kv pre IH]; intros s; simpl; [done|].
  destruct (process_entry_item client_id now date_str kv s) as [s1|f]; simpl;
    [apply IH | done].
Qed.

Lemma process_days_app client_id now pre post s :
  process_days client_id now (pre ++ post) s
  = process_days client_id now pre s ≫= process_days client_id now post.
Proof.
  revert s. induction pre as [|[d m] pre IH]; intros s; simpl; [done|].
  destruct (process_trackers_map client_id now d m (open_day d s))
    as [s1|f]; simpl; [apply IH | done].
Qed.

Lemma open_day_days_get date_str s d t :
  days_get d t (ls_applied_days (open_day date_str s))
  = days_get d t (ls_applied_days s).
Proof.
  unfold open_day. simpl.
  destruct (dict_get date_str (ls_applied_days s)) as [m|] eqn:Hm; [done|].
  unfold days_get. destruct (decide (d = date_str)) as [->|Hne].
  - rewrite dict_get_set_eq, Hm. done.
  - by rewrite dict_get_set_ne.
Qed.

Lemma process_entry_item_other client_id now date_str kv s s' d t :
  process_entry_item client_id now date_str kv s = Ok s' →
  (date_str, kv.1) ≠ (d, t) →
  entries (ls_db s') !! (d, t) = entries (ls_db s) !! (d, t)
  ∧ days_get d t (ls_applied_days s') = days_get d t (ls_applied_days s).
Proof.
  destruct kv as [tid data]. simpl.
  intros Hcase%process_entry_item_inv Hne.
  destruct Hcase as
    [(r & sv & cbv & _ & _ & _ & _ & ->)
    |[(db' & _ & Hw & ->)|(r & sv & cbv & db' & _ & _ & _ & _ & Hw & ->)]];
    simpl; [done| |];
    (split; [by eapply write_entry_other | by apply days_get_set_ne]).
Qed.

Lemma process_trackers_map_other client_id now date_str m s s' d t :
  Forall (λ kv : string * list (string * json), (date_str, kv.1) ≠ (d, t)) m →
  process_trackers_map client_id now date_str m s = Ok s' →
  entries (ls_db s') !! (d, t) = entries (ls_db s) !! (d, t)
  ∧ days_get d t (ls_applied_days s') = days_get d t (ls_applied_days s).
Proof.
  intros Hall. revert s.
  induction Hall as [|kv m Hne _ IH]; simpl; intros s.
  - by intros [= <-].
  - intros (s1 & Hstep & Hrest)%bind_Ok.
    destruct (IH _ Hrest) as [-> ->].
    by eapply process_entry_item_other.
Qed.

Lemma process_days_other client_id now dys s s' d t :
  Forall (λ day : string * list (string * list (string * json)),
            Forall (λ kv : string * list (string * json),
                      (day.1, kv.1) ≠ (d, t)) day.2) dys →
  process_days client_id now dys s = Ok s' →
  entries (ls_db s') !! (d, t) = entries (ls_db s) !! (d, t)
  ∧ days_get d t (ls_applied_days s') = days_get d t (ls_applied_days s).
Proof.
  intros Hall. revert s.
  induction Hall as [|[d' m] dys Hne _ IH]; simpl; intros s.
  - by intros [= <-].
  - intros (s1 & Hstep & Hrest)%bind_Ok.
    destruct (IH _ Hrest) as [-> ->].
    destruct (process_trackers_map_other _ _ _ _ _ _ d t Hne Hstep)
      as [-> ->].
    split; [done | apply open_day_days_get].
Qed.

Lemma NoDup_fmap_split {A B} (f : A → B) (pre post : list A) x :
  NoDup (f <$> (pre ++ x :: post)) →
  Forall (λ y, f y ≠ f x) pre ∧ Forall (λ y, f y ≠ f x) post.
Proof.
  rewrite fmap_app, fmap_cons.
  intros (Hpre & Hdisj & [Hx Hpost]%NoDup_cons)%NoDup_app.
  split; apply Forall_forall; intros y Hy Heq.
  - apply (Hdisj (f y)); [by apply list_elem_of_fmap_2|].
    rewrite Heq. left.
  - apply Hx. rewrite <- Heq. by apply list_elem_of_fmap_2.
Qed.

(** In a batch whose ids are distinct, every item meets the row the
    database held before the batch, and what the item leaves under its
    id is what the batch leaves there. *)
Lemma process_config_item client_id now items s s' item :
  process_config client_id now items s = Ok s' →
  NoDup (dict_get_none "id" <$> items) →
  item ∈ items →
  ∃ s0 s1 tid,
    dict_get_none "id" item = JStr tid
    ∧ process_tracker_item client_id now item s0 = Ok s1
    ∧ trackers (ls_db s0) !! tid = trackers (ls_db s) !! tid
    ∧ trackers (ls_db s') !! tid = trackers (ls_db s1) !! tid
    ∧ (∀ c, c ∈ ls_conflicts s1 → c ∈ ls_conflicts s')
    ∧ (∀ a, a ∈ ls_applied_config s1 → a ∈ ls_applied_config s').
Proof.
  intros Hok Hnd (pre & post & ->)%list_elem_of_split.
  apply NoDup_fmap_split in Hnd as [Hpre Hpost].
  rewrite process_config_app in Hok.
  apply bind_Ok in Hok as (s0 & H0 & Hok). simpl in Hok.
  apply bind_Ok in Hok as (s1 & H1 & Hrest).
  pose proof (process_tracker_item_inv _ _ _ _ _ H1) as (tid & Hid & _).
  rewrite Hid in Hpre, Hpost.
  exists s0, s1, tid. split; [done|]. split; [done|].
  split; [exact (process_config_other _ _ _ _ _ _ Hpre H0)|].
  split; [exact (process_config_other _ _ _ _ _ _ Hpost Hrest)|].
  apply process_config_conflicts_prefix in Hrest as Hc.
  destruct Hc as (mc & -> & _).
  apply process_config_applied_prefix in Hrest as (ma & ->).
  split; intros; apply elem_of_app; by left.
Qed.

Lemma process_config_untouched client_id now items s s' tid :
  process_config client_id now items s = Ok s' →
  JStr tid ∉ dict_get_none "id" <$> items →
  trackers (ls_db s') !! tid = trackers (ls_db s) !! tid.
Proof.
  intros Hok Hnin. eapply process_config_other; [|done].
  apply Forall_forall. intros it Hit Heq. apply Hnin.
  rewrite <- Heq. by apply list_elem_of_fmap_2.
Qed.

(** The same for the entries of a push whose dates, and whose tracker
    ids within each date, are distinct. *)
Lemma process_days_item client_id now dys s s' d m t data :
  process_days client_id now dys s = Ok s' →
  NoDup dys.*1 →
  Forall (λ day : string * list (string * list (string * json)),
            NoDup day.2.*1) dys →
  (d, m) ∈ dys → (t, data) ∈ m →
  ∃ s0 s1,
    process_entry_item client_id now d (t, data) s0 = Ok s1
    ∧ entries (ls_db s0) !! (d, t) = entries (ls_db s) !! (d, t)
    ∧ days_get d t (ls_applied_days s0) = days_get d t (ls_applied_days s)
    ∧ entries (ls_db s') !! (d, t) = entries (ls_db s1) !! (d, t)
    ∧ days_get d t (ls_applied_days s') = days_get d t (ls_applied_days s1)
    ∧ (∀ c, c ∈ ls_conflicts s1 → c ∈ ls_conflicts s').
Proof.
  intros Hok Hnd Hall Hday Hitem.
  assert (NoDup m.*1) as Hndm.
  { rewrite Forall_forall in Hall. apply (Hall _ Hday). }
  apply list_elem_of_split in Hday as (dpre & dpost & ->).
  apply list_elem_of_split in Hitem as (mpre & mpost & ->).
  apply (NoDup_fmap_split fst) in Hnd as [Hdpre Hdpost].
  apply (NoDup_fmap_split fst) in Hndm as [Hmpre Hmpost]. simpl in *.
  rewrite process_days_app in Hok.
  apply bind_Ok in Hok as (sa & Ha & Hok). simpl in Hok.
  apply bind_Ok in Hok as (sb & Hb & Hdrest).
  rewrite process_trackers_map_app in Hb.
  apply bind_Ok in Hb as (s0 & H0 & Hb). simpl in Hb.
  apply bind_Ok in Hb as (s1 & H1 & Hmrest).
  exists s0, s1. split; [done|].
  assert (∀ l : list (string * list (string * list (string * json))),
            Forall (λ y, y.1 ≠ d) l →
            Forall (λ day : string * list (string * list (string * json)),
                      Forall (λ kv : string * list (string * json),
                                (day.1, kv.1) ≠ (d, t)) day.2) l) as Hdates.
  { intros l Hl. eapply Forall_impl; [exact Hl|]. intros day Hne. simpl in Hne.
    apply Forall_forall. intros kv _. congruence. }
  assert (∀ l : list (string * list (string * json)),
            Forall (λ y, y.1 ≠ t) l →
            Forall (λ kv : string * list (string * json),
                      (d, kv.1) ≠ (d, t)) l) as Hids.
  { intros l Hl. eapply Forall_impl; [exact Hl|]. intros kv Hne. simpl in Hne.
    congruence. }
  destruct (process_days_other _ _ _ _ _ d t (Hdates _ Hdpre) Ha) as [Ea Da].
  destruct (process_trackers_map_other _ _ _ _ _ _ d t (Hids _ Hmpre) H0)
    as [E0 D0].
  destruct (process_trackers_map_other _ _ _ _ _ _ d t (Hids _ Hmpost) Hmrest)
    as [E1 D1].
  destruct (process_days_other _ _ _ _ _ d t (Hdates _ Hdpost) Hdrest)
    as [E2 D2].
  simpl in E0. rewrite open_day_days_get in D0.
  split; [congruence|]. split; [congruence|].
  split; [congruence|]. split; [congruence|].
  apply process_days_conflicts_prefix in Hdrest as (m2 & -> & _).
  apply process_trackers_map_conflicts_prefix in Hmrest as (m1 & -> & _).
  intros c Hc. apply elem_of_app. left. apply elem_of_app. by left.
Qed.

Lemma process_days_untouched client_id now dys s s' d t :
  process_days client_id now dys s = Ok s' →
  (∀ m data, (d, m) ∈ dys → (t, data) ∉ m) →
  entries (ls_db s') !! (d, t) = entries (ls_db s) !! (d, t)
  ∧ days_get d t (ls_applied_days s') = days_get d t (ls_applied_days s).
Proof.
  intros Hok Hnin. eapply process_days_other; [|done].
  apply Forall_forall. intros [d' m] Hday.
  apply Forall_forall. intros [t' data] Hitem [= -> ->].
  by apply (Hnin m data).
Qed.

Lemma write_tracker_lookup client_id now item tid v db db' :
  write_tracker client_id now item tid v db = Ok db' →
  if is_deleted item
  then trackers db' !! tid
       = soft_delete_row v client_id now <$> trackers db !! tid
  else ∃ n c t,
         trackers db' !! tid
         = Some (new_tracker_row n c t (extract_meta item) v client_id now).
Proof.
  unfold write_tracker. destruct (is_deleted item).
  - intros [= <-]. simpl. apply lookup_alter_eq.
  - intros H.
    apply bind_Ok in H as (n & _ & H).
    apply bind_Ok in H as (c & _ & H).
    apply bind_Ok in H as (t & _ & [= <-]).
    exists n, c, t. simpl. apply lookup_insert_eq.
Qed.

Lemma write_entry_lookup client_id now d t data v db db' :
  write_entry client_id now d t data v db = Ok db' →
  ∃ x, bind_real (dict_get_none "value" data) = Ok x
       ∧ entries db' !! (d, t)
         = Some (new_entry_row x (dict_get_none "completed" data) v
                   client_id now).
Proof.
  unfold write_entry. intros H.
  apply bind_Ok in H as (x & Hx & [= <-]).
  exists x. split; [done|]. simpl. apply lookup_insert_eq.
Qed.

Lemma committed_tables (b : bool) now db :
  trackers (if b then set_meta_sync (insert last_server_sync_time now) db
            else db) = trackers db
  ∧ entries (if b then set_meta_sync (insert last_server_sync_time now) db
             else db) = entries db
  ∧ clients (if b then set_meta_sync (insert last_server_sync_time now) db
             else db) = clients db.
Proof. by destruct b. Qed.

(** A tracker item of a completed push with distinct ids, against the
    row the database held before the push. *)
Lemma sync_update_tracker_item db payload now db' resp item :
  sync_update db payload now = (db', Ok resp) →
  NoDup (dict_get_none "id" <$> config payload) →
  item ∈ config payload →
  ∃ tid v,
    dict_get_none "id" item = JStr tid
    ∧ v = tracker_version db tid + 1
    ∧ ((∃ r sv cbv,
          trackers db !! tid = Some r ∧ tr_version r = Some sv
          ∧ as_int (base_version item) = Some cbv ∧ cbv < sv
          ∧ tracker_conflict tid r sv cbv ∈ conflicts resp
          ∧ trackers db' !! tid = Some r)
       ∨ ((trackers db !! tid = None
           ∨ ∃ cbv, as_int (base_version item) = Some cbv
                    ∧ tracker_version db tid ≤ cbv)
          ∧ annotate item v (clientId payload) now ∈ appliedConfig resp
          ∧ if is_deleted item
            then trackers db' !! tid
                 = soft_delete_row v (clientId payload) now
                     <$> trackers db !! tid
            else ∃ n c t,
                   trackers db' !! tid
                   = Some (new_tracker_row n c t (extract_meta item) v
                             (clientId payload) now))).
Proof.
  intros Hup Hndc Hitem.
  apply sync_update_loops in Hup as (sf & Hloops & -> & ->).
  apply bind_Ok in Hloops as (sc & Hc & Hd).
  set (client_id := clientId payload) in *.
  pose proof (process_days_frame _ _ _ _ _ Hd) as (_ & Hdt & Hda).
  pose proof (process_days_conflicts_prefix _ _ _ _ _ Hd) as (ecs & Hcs & _).
  destruct (committed_tables (no_conflicts (ls_conflicts sf)) now (ls_db sf))
    as (-> & _ & _).
  simpl in *. rewrite Hdt, Hda.
  destruct (process_config_item _ _ _ _ _ item Hc Hndc Hitem)
    as (s0 & s1 & tid & Hid & Hstep & Hbefore & Hafter & Hconf & Happ).
  simpl in Hbefore.
  exists tid, (tracker_version db tid + 1).
  split; [done|]. split; [done|].
  rewrite Hafter, Hcs.
  assert (tracker_version (ls_db s0) tid = tracker_version db tid) as Hv
    by (by apply tracker_version_other).
  apply process_tracker_item_inv in Hstep as (tid' & Hid' & Hcase).
  assert (tid' = tid) as -> by congruence.
  destruct Hcase as
    [(r & sv & cbv & Hr & Hsv & Hb & Hlt & ->)
    |[(db1 & Hr & Hw & ->)|(r & sv & cbv & db1 & Hr & Hsv & Hb & Hle & Hw & ->)]];
    simpl in *.
  - left. exists r, sv, cbv. rewrite <- Hbefore.
    repeat (split; [done|]). split; [|done].
    apply elem_of_app. left. apply Hconf, elem_of_app. right. left.
  - right. rewrite <- Hbefore.
    rewrite <- Hv, (tracker_version_None _ _ Hr).
    split; [by left|].
    split; [apply Happ, elem_of_app; right; left|].
    by apply write_tracker_lookup in Hw.
  - right. rewrite <- Hbefore.
    rewrite <- Hv, (tracker_version_Some _ _ _ _ Hr Hsv).
    split; [right; by exists cbv|].
    split; [apply Happ, elem_of_app; right; left|].
    by apply write_tracker_lookup in Hw.
Qed.

(** An entry of a completed push with distinct dates and tracker ids,
    against the row the database held before the push. *)
Lemma sync_update_entry_item db payload now db' resp d m t data :
  sync_update db payload now = (db', Ok resp) →
  NoDup (days payload).*1 →
  Forall (λ day : string * list (string * list (string * json)),
            NoDup day.2.*1) (days payload) →
  (d, m) ∈ days payload → (t, data) ∈ m →
  ∃ v,
    v = entry_version db d t + 1
    ∧ ((∃ r sv cbv,
          entries db !! (d, t) = Some r ∧ en_version r = Some sv
          ∧ as_int (base_version data) = Some cbv ∧ cbv < sv
          ∧ entry_conflict d t r sv cbv ∈ conflicts resp
          ∧ entries db' !! (d, t) = Some r
          ∧ days_get d t (appliedDays resp) = None)
       ∨ ((entries db !! (d, t) = None
           ∨ ∃ cbv, as_int (base_version data) = Some cbv
                    ∧ entry_version db d t ≤ cbv)
          ∧ days_get d t (appliedDays resp)
            = Some (applied_entry (dict_get_none "value" data)
                      (dict_get_none "completed" data) v
                      (clientId payload) now)
          ∧ ∃ x, bind_real (dict_get_none "value" data) = Ok x
                 ∧ entries db' !! (d, t)
                   = Some (new_entry_row x
                             (dict_get_none "completed" data) v
                             (clientId payload) now))).
Proof.
  intros Hup Hndd Hndm Hday Hitem.
  apply sync_update_loops in Hup as (sf & Hloops & -> & ->).
  apply bind_Ok in Hloops as (sc & Hc & Hd).
  set (client_id := clientId payload) in *.
  pose proof (process_config_frame _ _ _ _ _ Hc) as (_ & Hce & Hcd).
  destruct (committed_tables (no_conflicts (ls_conflicts sf)) now (ls_db sf))
    as (_ & -> & _).
  simpl in *.
  destruct (process_days_item _ _ _ _ _ d m t data Hd Hndd Hndm Hday Hitem)
    as (s0 & s1 & Hstep & Hbefore & Hdbefore & Hafter & Hdafter & Hconf).
  rewrite Hce in Hbefore. simpl in Hbefore.
  rewrite Hcd in Hdbefore. simpl in Hdbefore.
  exists (entry_version db d t + 1). split; [done|].
  rewrite Hafter, Hdafter.
  assert (entry_version (ls_db s0) d t = entry_version db d t) as Hv
    by (by apply entry_version_other).
  apply process_entry_item_inv in Hstep as Hcase.
  destruct Hcase as
    [(r & sv & cbv & Hr & Hsv & Hb & Hlt & ->)
    |[(db1 & Hr & Hw & ->)|(r & sv & cbv & db1 & Hr & Hsv & Hb & Hle & Hw & ->)]];
    simpl in *.
  - left. exists r, sv, cbv. rewrite <- Hbefore.
    repeat (split; [done|]).
    split; [apply Hconf, elem_of_app; right; left|].
    split; [done | exact Hdbefore].
  - right. rewrite <- Hbefore.
    rewrite <- Hv, (entry_version_None _ _ _ Hr).
    split; [by left|]. split; [apply days_get_set_eq|].
    by apply write_entry_lookup in Hw.
  - right. rewrite <- Hbefore.
    rewrite <- Hv, (entry_version_Some _ _ _ _ _ Hr Hsv).
    split; [right; by exists cbv|]. split; [apply days_get_set_eq|].
    by apply write_entry_lookup in Hw.
Qed.

(** ** Conflicts in the response (C6) *)

Lemma tracker_server_data_explicit tid r sv :
  tracker_server_data tid r sv
  = dict_update
      [("id", JStr tid); ("name", text_json (tr_name r));
       ("category", text_json (tr_category r));
       ("type", text_json (tr_type r)); ("_version", JNum sv)]
      (default [] (tr_meta_json r)).
Proof. unfold tracker_server_data. by destruct (tr_meta_json r). Qed.

Lemma sync_update_success db payload now db' resp :
  sync_update db payload now = (db', Ok resp) →
  success resp = no_conflicts (conflicts resp)
  ∧ lastModified resp
    = (if no_conflicts (conflicts resp) then Some now else None).
Proof. by intros (s & _ & _ & ->)%sync_update_loops. Qed.

Lemma no_conflicts_elem c cs : c ∈ cs → no_conflicts cs = false.
Proof. by destruct 1. Qed.

(** C6.  When the gate reports a conflict for a tracker item (the record
    exists with a version above the item's base version), the iteration
    succeeds, leaves the whole database as it was, appends one conflict,
    leaves the applied items as they were, and the loop goes on with the
    remaining items; the same holds for an entry item.  In the response
    of a completed push (with distinct ids, dates and tracker ids per
    date) every such item has its conflict: it names the entity, carries
    both versions and, as [serverData], the stored [id], [name],
    [category], [type] and version of the tracker updated with its
    extension map (for an entry: the stored value, completion and
    version); no other field is in it, so neither the deleted flag nor
    the last-modified stamp of the record is reported.  The row is
    committed as it was, [success] is false and no [lastModified] is
    returned, and every other item of the batch is settled as well: it
    is among the conflicts or among the applied items. *)
Theorem conflict_is_reported_and_frames_store :
  (∀ client_id now item rest s tid r sv cbv,
     dict_get_none "id" item = JStr tid →
     trackers (ls_db s) !! tid = Some r →
     tr_version r = Some sv →
     as_int (base_version item) = Some cbv →
     cbv < sv →
     ∃ s', process_tracker_item client_id now item s = Ok s'
       ∧ ls_db s' = ls_db s
       ∧ ls_conflicts s' = ls_conflicts s ++
           [{| entityType := "tracker"; entityId := tid;
               serverVersion := sv; clientBaseVersion := cbv;
               serverData :=
                 dict_update
                   [("id", JStr tid); ("name", text_json (tr_name r));
                    ("category", text_json (tr_category r));
                    ("type", text_json (tr_type r)); ("_version", JNum sv)]
                   (default [] (tr_meta_json r)) |}]
       ∧ (∀ meta, tr_meta_json r = Some meta → extension_map meta →
            dict_update
              [("id", JStr tid); ("name", text_json (tr_name r));
               ("category", text_json (tr_category r));
               ("type", text_json (tr_type r)); ("_version", JNum sv)]
              (default [] (tr_meta_json r))
            = [("id", JStr tid); ("name", text_json (tr_name r));
               ("category", text_json (tr_category r));
               ("type", text_json (tr_type r)); ("_version", JNum sv)]
              ++ meta)
       ∧ ls_applied_config s' = ls_applied_config s
       ∧ ls_applied_days s' = ls_applied_days s
       ∧ process_config client_id now (item :: rest) s
         = process_config client_id now rest s')
  ∧ (∀ client_id now date_str tracker_id data rest s r sv cbv,
       entries (ls_db s) !! (date_str, tracker_id) = Some r →
       en_version r = Some sv →
       as_int (base_version data) = Some cbv →
       cbv < sv →
       ∃ s', process_entry_item client_id now date_str (tracker_id, data) s
             = Ok s'
         ∧ ls_db s' = ls_db s
         ∧ ls_conflicts s' = ls_conflicts s ++
             [{| entityType := "entry";
                 entityId := date_str +:+ "|" +:+ tracker_id;
                 serverVersion := sv; clientBaseVersion := cbv;
                 serverData :=
                   [("value", real_json (en_value r));
                    ("completed", completed_json (en_completed r));
                    ("_version", JNum sv)] |}]
         ∧ ls_applied_config s' = ls_applied_config s
         ∧ ls_applied_days s' = ls_applied_days s
         ∧ process_trackers_map client_id now date_str
             ((tracker_id, data) :: rest) s
           = process_trackers_map client_id now date_str rest s')
  ∧ (∀ db payload now db' resp,
       sync_update db payload now = (db', Ok resp) →
       NoDup (dict_get_none "id" <$> config payload) →
       NoDup (days payload).*1 →
       Forall (λ day : string * list (string * list (string * json)),
                 NoDup day.2.*1) (days payload) →
       (∀ item tid r sv cbv,
          item ∈ config payload →
          dict_get_none "id" item = JStr tid →
          trackers db !! tid = Some r →
          tr_version r = Some sv →
          as_int (base_version item) = Some cbv →
          cbv < sv →
          {| entityType := "tracker"; entityId := tid;
             serverVersion := sv; clientBaseVersion := cbv;
             serverData :=
               dict_update
                 [("id", JStr tid); ("name", text_json (tr_name r));
                  ("category", text_json (tr_category r));
                  ("type", text_json (tr_type r)); ("_version", JNum sv)]
                 (default [] (tr_meta_json r)) |} ∈ conflicts resp
          ∧ trackers db' !! tid = Some r
          ∧ success resp = false ∧ lastModified resp = None)
       ∧ (∀ d m t data r sv cbv,
            (d, m) ∈ days payload → (t, data) ∈ m →
            entries db !! (d, t) = Some r →
            en_version r = Some sv →
            as_int (base_version data) = Some cbv →
            cbv < sv →
            {| entityType := "entry"; entityId := d +:+ "|" +:+ t;
               serverVersion := sv; clientBaseVersion := cbv;
               serverData :=
                 [("value", real_json (en_value r));
                  ("completed", completed_json (en_completed r));
                  ("_version", JNum sv)] |} ∈ conflicts resp
            ∧ entries db' !! (d, t) = Some r
            ∧ days_get d t (appliedDays resp) = None
            ∧ success resp = false ∧ lastModified resp = None)
       ∧ (∀ item, item ∈ config payload →
            ∃ tid,
              dict_get_none "id" item = JStr tid
              ∧ ((∃ c, c ∈ conflicts resp ∧ entityType c = "tracker"
                       ∧ entityId c = tid)
                 ∨ annotate item (tracker_version db tid + 1)
                     (clientId payload) now ∈ appliedConfig resp))
       ∧ (∀ d m t data, (d, m) ∈ days payload → (t, data) ∈ m →
            (∃ c, c ∈ conflicts resp ∧ entityType c = "entry"
                  ∧ entityId c = d +:+ "|" +:+ t)
            ∨ is_Some (days_get d t (appliedDays resp)))).
Proof.
  split; [|split].
  - intros client_id now item rest s tid r sv cbv Hid Hr Hv Hb Hlt.
    pose proof (process_tracker_item_conflict client_id now item s
                  tid r sv cbv Hid Hr Hv Hb Hlt) as Hstep.
    eexists. split; [exact Hstep|]. simpl.
    unfold tracker_conflict. rewrite tracker_server_data_explicit.
    repeat split; try reflexivity.
    + intros meta Hm Hext. rewrite <- tracker_server_data_explicit.
      by apply tracker_server_data_extension.
    + rewrite Hstep. simpl. unfold tracker_conflict.
      by rewrite tracker_server_data_explicit.
  - intros client_id now date_str tracker_id data rest s r sv cbv Hr Hv Hb Hlt.
    pose proof (process_entry_item_conflict client_id now date_str tracker_id
                  data s r sv cbv Hr Hv Hb Hlt) as Hstep.
    eexists. split; [exact Hstep|]. simpl.
    repeat split; try reflexivity.
    by rewrite Hstep.
  - intros db payload now db' resp Hup Hndc Hndd Hndm.
    pose proof (sync_update_success _ _ _ _ _ Hup) as [Hsucc Hlast].
    split; [|split; [|split]].
    + intros item tid r sv cbv Hitem Hid Hr Hsv Hb Hlt.
      destruct (sync_update_tracker_item _ _ _ _ _ item Hup Hndc Hitem)
        as (tid' & v & Hid' & _ & Hcase).
      assert (tid' = tid) as -> by congruence.
      destruct Hcase as [(r' & sv' & cbv' & Hr' & Hsv' & Hb' & _ & Hin & Hrow)
                        |([Hnone|(cbv' & Hb' & Hle)] & _)].
      * assert (r' = r) as -> by congruence.
        assert (sv' = sv) as -> by congruence.
        assert (cbv' = cbv) as -> by congruence.
        rewrite <- tracker_server_data_explicit.
        split; [exact Hin|]. split; [exact Hrow|].
        rewrite Hsucc, Hlast, (no_conflicts_elem _ _ Hin). done.
      * congruence.
      * rewrite (tracker_version_Some _ _ _ _ Hr Hsv) in Hle.
        assert (cbv' = cbv) by congruence. lia.
    + intros d m t data r sv cbv Hday Hitem Hr Hsv Hb Hlt.
      destruct (sync_update_entry_item _ _ _ _ _ d m t data Hup Hndd Hndm
                  Hday Hitem) as (v & _ & Hcase).
      destruct Hcase as [(r' & sv' & cbv' & Hr' & Hsv' & Hb' & _ & Hin & Hrow
                          & Hnone)
                        |([Hnone|(cbv' & Hb' & Hle)] & _)].
      * assert (r' = r) as -> by congruence.
        assert (sv' = sv) as -> by congruence.
        assert (cbv' = cbv) as -> by congruence.
        split; [exact Hin|]. split; [exact Hrow|]. split; [exact Hnone|].
        rewrite Hsucc, Hlast, (no_conflicts_elem _ _ Hin). done.
      * congruence.
      * rewrite (entry_version_Some _ _ _ _ _ Hr Hsv) in Hle.
        assert (cbv' = cbv) by congruence. lia.
    + intros item Hitem.
      destruct (sync_update_tracker_item _ _ _ _ _ item Hup Hndc Hitem)
        as (tid & v & Hid & -> & Hcase).
      exists tid. split; [done|].
      destruct Hcase as [(r & sv & cbv & _ & _ & _ & _ & Hin & _)
                        |(_ & Happ & _)]; [left | by right].
      by eexists.
    + intros d m t data Hday Hitem.
      destruct (sync_update_entry_item _ _ _ _ _ d m t data Hup Hndd Hndm
                  Hday Hitem) as (v & _ & Hcase).
      destruct Hcase as [(r & sv & cbv & _ & _ & _ & _ & Hin & _)
                        |(_ & Happ & _)]; [left | right].
      * by eexists.
      * by eexists.
Qed.

(** Witness of C6: [B]'s stale tracker and entry on the database left by
    [A], alone and in a push together with a new tracker and a new
    entry. *)
Lemma conflict_is_reported_and_frames_store_witness :
  let s := begin_update Scenario.db_A "B" Scenario.time_B in
  (∃ s', process_tracker_item "B" Scenario.time_B Scenario.t1_by_B s = Ok s'
         ∧ ls_db s' = ls_db s
         ∧ process_config "B" Scenario.time_B
             [Scenario.t1_by_B; Scenario.t2_negative_base] s
           = process_config "B" Scenario.time_B [Scenario.t2_negative_base] s')
  ∧ (∃ s', process_entry_item "B" Scenario.time_B "2024-01-05"
             ("t1", Scenario.entry_by_B) s = Ok s'
           ∧ ls_db s' = ls_db s)
  ∧ {| entityType := "tracker"; entityId := "t1"; serverVersion := 1;
       clientBaseVersion := 0;
       serverData :=
         [("id", JStr "t1"); ("name", JStr "Run"); ("category", JStr "");
          ("type", JStr "simple"); ("_version", JNum 1);
          ("goal", JNum 10); ("unit", JStr "km")] |}
    ∈ conflicts Scenario.resp_two_days
  ∧ {| entityType := "entry"; entityId := "2024-01-05|t1";
       serverVersion := 1; clientBaseVersion := 0;
       serverData :=
         [("value", JNum 5); ("completed", JNull); ("_version", JNum 1)] |}
    ∈ conflicts Scenario.resp_two_days
  ∧ trackers
      (sync_update Scenario.db_A Scenario.push_two_days Scenario.time_B).1
      !! "t1" = Some Scenario.row_t1_A.
Proof.
  intros s.
  destruct conflict_is_reported_and_frames_store as (Htr & Hen & Hpush).
  split; [|split].
  - destruct (Htr "B" Scenario.time_B Scenario.t1_by_B
                [Scenario.t2_negative_base] s "t1" Scenario.row_t1_A 1 0)
      as (s' & Hstep & Hdb & _ & _ & _ & _ & Hrest);
      [reflexivity | vm_compute; reflexivity | reflexivity | reflexivity
      | lia |].
    exists s'. split; [exact Hstep|]. split; [exact Hdb|]. exact Hrest.
  - destruct (Hen "B" Scenario.time_B "2024-01-05" "t1" Scenario.entry_by_B
                [] s Scenario.row_entry_A 1 0)
      as (s' & Hstep & Hdb & _);
      [vm_compute; reflexivity | reflexivity | reflexivity | lia |].
    exists s'. split; [exact Hstep|]. exact Hdb.
  - destruct (Hpush Scenario.db_A Scenario.push_two_days Scenario.time_B
                (sync_update Scenario.db_A Scenario.push_two_days
                   Scenario.time_B).1
                Scenario.resp_two_days)
      as (Hc & He & _).
    + vm_compute; reflexivity.
    + apply NoDup_ListNoDup.
      repeat constructor; simpl; intuition discriminate.
    + apply NoDup_ListNoDup.
      repeat constructor; simpl; intuition discriminate.
    + repeat (apply Forall_cons_2; [apply NoDup_singleton|]).
      apply Forall_nil_2.
    + destruct (Hc Scenario.t1_by_B "t1" Scenario.row_t1_A 1 0)
        as (Hin & Hrow & _);
        [left | reflexivity | vm_compute; reflexivity | reflexivity
        | reflexivity | lia |].
      destruct (He "2024-01-05" [("t1", Scenario.entry_by_B)] "t1"
                  Scenario.entry_by_B Scenario.row_entry_A 1 0)
        as (Hin' & _);
        [left | left | vm_compute; reflexivity | reflexivity
        | reflexivity | lia |].
      split; [exact Hin|]. split; [exact Hin' | exact Hrow].
Defined.

(** Counterexample to C6 as stated: [t3] is stored as a tombstone at
    version 2, deleted by [A]; [B] pushes [t3] from base version 0.  The
    conflict carries the name, category, type and version of the record
    and nothing else: neither that the record is deleted nor who
    modified it last and when. *)
Lemma conflict_omits_deleted_flag_and_stamp :
  trackers Scenario.db_F !! "t3"
  = Some {| tr_name := Some "Read"; tr_category := Some "";
            tr_type := Some "simple"; tr_meta_json := Some [];
            tr_version := Some 2; tr_last_modified_by := Some "A";
            tr_last_modified_at := Some Scenario.time_C;
            tr_deleted := Some 1 |}
  ∧ (sync_update Scenario.db_F Scenario.push_stale_t3 Scenario.time_D).2
    = Ok {| success := false;
            conflicts :=
              [{| entityType := "tracker"; entityId := "t3";
                  serverVersion := 2; clientBaseVersion := 0;
                  serverData :=
                    [("id", JStr "t3"); ("name", JStr "Read");
                     ("category", JStr ""); ("type", JStr "simple");
                     ("_version", JNum 2)] |}];
            appliedConfig := []; appliedDays := [];
            lastModified := None; overwrittenData := [] |}
  ∧ Forall (λ c, dict_get "deleted" (serverData c) = None
                 ∧ dict_get "_deleted" (serverData c) = None
                 ∧ dict_get "_lastModifiedBy" (serverData c) = None
                 ∧ dict_get "_lastModifiedAt" (serverData c) = None)
      (conflicts Scenario.resp_stale_t3).
Proof.
  split; [vm_compute; reflexivity|].
  split; [vm_compute; reflexivity|].
  apply Forall_singleton. by repeat split.
Qed.

(** X9.  What a completed push does, item by item, when the ids of its
    tracker items are distinct and its dates, and the tracker ids within
    each date, are distinct (as the keys of a JSON object are).  Every
    tracker item is decided against the row the database held before the
    push.  Either that row exists at a version above the item's base
    version: then the conflict is among the reported conflicts and the
    row is committed unchanged.  Or the item passes: then it is reported
    in [appliedConfig] with the stored version plus 1, and the row
    committed under its id is the soft-deleted old row, or the new row
    built from the item.  The same holds for every entry of [days], with
    the applied entry reported under its date and tracker id in
    [appliedDays] as the client sent it, and committed with its value as
    the REAL column stores it (an integer as the nearest double).  Every
    tracker and entry the push does not name is committed as it was. *)
Theorem push_settles_each_item db payload now db' resp :
  sync_update db payload now = (db', Ok resp) →
  NoDup (dict_get_none "id" <$> config payload) →
  NoDup (days payload).*1 →
  Forall (λ day : string * list (string * list (string * json)),
            NoDup day.2.*1) (days payload) →
  (∀ item, item ∈ config payload →
     ∃ tid v,
       dict_get_none "id" item = JStr tid
       ∧ v = tracker_version db tid + 1
       ∧ ((∃ r sv cbv,
             trackers db !! tid = Some r ∧ tr_version r = Some sv
             ∧ as_int (base_version item) = Some cbv ∧ cbv < sv
             ∧ tracker_conflict tid r sv cbv ∈ conflicts resp
             ∧ trackers db' !! tid = Some r)
          ∨ ((trackers db !! tid = None
              ∨ ∃ cbv, as_int (base_version item) = Some cbv
                       ∧ tracker_version db tid ≤ cbv)
             ∧ annotate item v (clientId payload) now ∈ appliedConfig resp
             ∧ if is_deleted item
               then trackers db' !! tid
                    = soft_delete_row v (clientId payload) now
                        <$> trackers db !! tid
               else ∃ n c t,
                      trackers db' !! tid
                      = Some (new_tracker_row n c t (extract_meta item) v
                                (clientId payload) now))))
  ∧ (∀ tid, JStr tid ∉ dict_get_none "id" <$> config payload →
            trackers db' !! tid = trackers db !! tid)
  ∧ (∀ d m t data, (d, m) ∈ days payload → (t, data) ∈ m →
       ∃ v,
         v = entry_version db d t + 1
         ∧ ((∃ r sv cbv,
               entries db !! (d, t) = Some r ∧ en_version r = Some sv
               ∧ as_int (base_version data) = Some cbv ∧ cbv < sv
               ∧ entry_conflict d t r sv cbv ∈ conflicts resp
               ∧ entries db' !! (d, t) = Some r
               ∧ days_get d t (appliedDays resp) = None)
            ∨ ((entries db !! (d, t) = None
                ∨ ∃ cbv, as_int (base_version data) = Some cbv
                         ∧ entry_version db d t ≤ cbv)
               ∧ days_get d t (appliedDays resp)
                 = Some (applied_entry (dict_get_none "value" data)
                           (dict_get_none "completed" data) v
                           (clientId payload) now)
               ∧ ∃ x, bind_real (dict_get_none "value" data) = Ok x
                      ∧ entries db' !! (d, t)
                        = Some (new_entry_row x
                                  (dict_get_none "completed" data) v
                                  (clientId payload) now))))
  ∧ (∀ d t, (∀ m data, (d, m) ∈ days payload → (t, data) ∉ m) →
            entries db' !! (d, t) = entries db !! (d, t)
            ∧ days_get d t (appliedDays resp) = None).
Proof.
  intros Hup Hndc Hndd Hndm.
  split; [intros item; by apply sync_update_tracker_item|].
  split; [|split; [intros d m t data; by apply sync_update_entry_item|]].
  - intros tid Hnin.
    apply sync_update_loops in Hup as (sf & Hloops & -> & _).
    apply bind_Ok in Hloops as (sc & Hc & Hd).
    pose proof (process_days_frame _ _ _ _ _ Hd) as (_ & Hdt & _).
    destruct (committed_tables (no_conflicts (ls_conflicts sf)) now
                (ls_db sf)) as (-> & _ & _).
    rewrite Hdt. by rewrite (process_config_untouched _ _ _ _ _ _ Hc Hnin).
  - intros d t Hnin.
    apply sync_update_loops in Hup as (sf & Hloops & -> & ->).
    apply bind_Ok in Hloops as (sc & Hc & Hd).
    pose proof (process_config_frame _ _ _ _ _ Hc) as (_ & Hce & Hcd).
    destruct (committed_tables (no_conflicts (ls_conflicts sf)) now
                (ls_db sf)) as (_ & -> & _).
    simpl.
    destruct (process_days_untouched _ _ _ _ _ d t Hd Hnin) as [-> ->].
    by rewrite Hce, Hcd.
Qed.

(** Witness of X9: on the database left by [A], [B] pushes a stale [t1]
    and a new [t2], a stale entry for 2024-01-05 and a new one for
    2024-01-06.  The stale items leave the stored rows as they were, the
    new ones are stored at version 1. *)
Lemma push_settles_each_item_witness :
  let db' :=
    (sync_update Scenario.db_A Scenario.push_two_days Scenario.time_B).1 in
  trackers db' !! "t1" = Some Scenario.row_t1_A
  ∧ tracker_version db' "t2" = 1
  ∧ entries db' !! ("2024-01-05", "t1") = Some Scenario.row_entry_A
  ∧ entries db' !! ("2024-01-06", "t1")
    = Some (new_entry_row (Some 5) JNull 1 "B" Scenario.time_B).
Proof.
  intros db'.
  assert (sync_update Scenario.db_A Scenario.push_two_days Scenario.time_B
          = (db', Ok Scenario.resp_two_days)) as Hup
    by (vm_compute; reflexivity).
  assert (trackers Scenario.db_A !! "t1" = Some Scenario.row_t1_A) as Ht1
    by (vm_compute; reflexivity).
  assert (trackers Scenario.db_A !! "t2" = None) as Ht2
    by (vm_compute; reflexivity).
  assert (entries Scenario.db_A !! ("2024-01-05", "t1")
          = Some Scenario.row_entry_A) as He5
    by (vm_compute; reflexivity).
  assert (entries Scenario.db_A !! ("2024-01-06", "t1") = None) as He6
    by (vm_compute; reflexivity).
  destruct (push_settles_each_item Scenario.db_A Scenario.push_two_days
              Scenario.time_B db' Scenario.resp_two_days Hup)
    as (Hconfig & _ & Hdays & _).
  { apply NoDup_ListNoDup. repeat constructor; simpl; intuition discriminate. }
  { apply NoDup_ListNoDup. repeat constructor; simpl; intuition discriminate. }
  { repeat (apply Forall_cons_2; [apply NoDup_singleton|]).
    apply Forall_nil_2. }
  split; [|split; [|split]].
  - destruct (Hconfig Scenario.t1_by_B) as (tid & v & [= <-] & -> & Hcase);
      [left|].
    rewrite Ht1 in Hcase.
    destruct Hcase as [(r & sv & cbv & [= <-] & _ & _ & _ & _ & Hrow)
                      |[[Hnone|(cbv & [= <-] & Hle)] _]];
      [exact Hrow | discriminate |].
    unfold tracker_version in Hle. rewrite Ht1 in Hle. simpl in Hle. lia.
  - destruct (Hconfig (Scenario.fresh_tracker "t2" "Swim"))
      as (tid & v & [= <-] & -> & Hcase); [right; left|].
    rewrite Ht2 in Hcase.
    destruct Hcase as [(r & sv & cbv & [=] & _)|(_ & _ & n & c & t & Hrow)].
    unfold tracker_version in *. rewrite Hrow, Ht2. reflexivity.
  - destruct (Hdays "2024-01-05" [("t1", Scenario.entry_by_B)] "t1"
                Scenario.entry_by_B) as (v & -> & Hcase); [left | left |].
    rewrite He5 in Hcase.
    destruct Hcase as [(r & sv & cbv & [= <-] & _ & _ & _ & _ & Hrow & _)
                      |[[Hnone|(cbv & [= <-] & Hle)] _]];
      [exact Hrow | discriminate |].
    unfold entry_version in Hle. rewrite He5 in Hle. simpl in Hle. lia.
  - destruct (Hdays "2024-01-06" [("t1", Scenario.entry_by_A)] "t1"
                Scenario.entry_by_A) as (v & -> & Hcase);
      [right; left | left |].
    rewrite He6 in Hcase.
    destruct Hcase as [(r & sv & cbv & [=] & _)|(_ & _ & x & [= <-] & Hrow)].
    unfold entry_version in Hrow. rewrite He6 in Hrow. exact Hrow.
Defined.

(** ** What a push reports *)

Lemma dict_get_is_Some {A} (d : list (string * A)) k :
  is_Some (dict_get k d) ↔ k ∈ d.*1.
Proof.
  rewrite <- not_eq_None_Some, dict_get_None.
  destruct (decide (k ∈ d.*1)); tauto.
Qed.

Lemma dict_set_keys {A} (d : list (string * A)) k v k' :
  k' ∈ (dict_set k v d).*1 ↔ k' = k ∨ k' ∈ d.*1.
Proof.
  rewrite <- !dict_get_is_Some.
  destruct (decide (k' = k)) as [->|Hne].
  - rewrite dict_get_set_eq. split; [by left | by eexists].
  - rewrite dict_get_set_ne by done. split; [by right | by intros [?|?]].
Qed.

Lemma open_day_keys date_str s d :
  d ∈ (ls_applied_days (open_day date_str s)).*1
  ↔ d = date_str ∨ d ∈ (ls_applied_days s).*1.
Proof.
  unfold open_day. simpl.
  destruct (dict_get date_str (ls_applied_days s)) as [m|] eqn:Hm.
  - split; [by right|]. intros [->|?]; [|done].
    apply dict_get_is_Some. by eexists.
  - apply dict_set_keys.
Qed.

Lemma days_set_keys date_str tracker_id v days d :
  d ∈ (days_set date_str tracker_id v days).*1
  ↔ d = date_str ∨ d ∈ days.*1.
Proof. apply dict_set_keys. Qed.

Lemma process_tracker_item_account client_id now item s s' :
  process_tracker_item client_id now item s = Ok s' →
  ∃ tcs app,
    ls_conflicts s' = ls_conflicts s ++ tcs
    ∧ ls_applied_config s' = ls_applied_config s ++ app
    ∧ (List.length app + List.length tcs = 1)%nat
    ∧ Forall (λ c, entityType c = "tracker"
                   ∧ JStr (entityId c) = dict_get_none "id" item) tcs
    ∧ Forall (λ a, ∃ v, a = annotate item v client_id now) app.
Proof.
  intros (tid & Hid & Hcase)%process_tracker_item_inv.
  destruct Hcase as
    [(r & sv & cbv & _ & _ & _ & _ & ->)
    |[(db' & _ & _ & ->)|(r & sv & cbv & db' & _ & _ & _ & _ & _ & ->)]];
    simpl.
  - exists [tracker_conflict tid r sv cbv], []. rewrite app_nil_r.
    split; [done|]. split; [done|]. split; [done|].
    split; [|apply Forall_nil_2].
    apply Forall_singleton. simpl. by rewrite Hid.
  - exists [], [annotate item 1 client_id now]. rewrite app_nil_r.
    split; [done|]. split; [done|]. split; [done|].
    split; [apply Forall_nil_2|].
    apply Forall_singleton. by eexists.
  - exists [], [annotate item (sv + 1) client_id now]. rewrite app_nil_r.
    split; [done|]. split; [done|]. split; [done|].
    split; [apply Forall_nil_2|].
    apply Forall_singleton. by eexists.
Qed.

Lemma process_config_account client_id now items s s' :
  process_config client_id now items s = Ok s' →
  ∃ tcs app,
    ls_conflicts s' = ls_conflicts s ++ tcs
    ∧ ls_applied_config s' = ls_applied_config s ++ app
    ∧ (List.length app + List.length tcs = List.length items)%nat
    ∧ Forall (λ c, entityType c = "tracker"
                   ∧ JStr (entityId c) ∈ dict_get_none "id" <$> items) tcs
    ∧ Forall (λ a, ∃ item v, item ∈ items
                             ∧ a = annotate item v client_id now) app.
Proof.
  revert s. induction items as [|item items IH]; simpl; intros s.
  - intros [= <-]. exists [], []. by rewrite !app_nil_r.
  - intros (s1 & Hstep & Hrest)%bind_Ok.
    apply process_tracker_item_account in Hstep
      as (t1 & a1 & Hc1 & Ha1 & Hl1 & Ht1 & Hf1).
    apply IH in Hrest as (t2 & a2 & Hc2 & Ha2 & Hl2 & Ht2 & Hf2).
    exists (t1 ++ t2), (a1 ++ a2).
    rewrite Hc2, Hc1, Ha2, Ha1, !app_assoc, !length_app.
    repeat (split; [done || lia|]). split.
    + apply Forall_app. split.
      * eapply Forall_impl; [exact Ht1|]. intros c [Hty Hc]. simpl in *.
        split; [done|]. rewrite Hc. left.
      * eapply Forall_impl; [exact Ht2|]. intros c [Hty Hc]. simpl in *.
        split; [done|]. by right.
    + apply Forall_app. split.
      * eapply Forall_impl; [exact Hf1|]. intros a [v ->].
        exists item, v. split; [left | done].
      * eapply Forall_impl; [exact Hf2|]. intros a (it & v & Hit & ->).
        exists it, v. split; [by right | done].
Qed.

Lemma process_entry_item_account client_id now date_str kv s s' :
  process_entry_item client_id now date_str kv s = Ok s' →
  (∃ ecs,
     ls_conflicts s' = ls_conflicts s ++ ecs
     ∧ Forall (λ c, entityType c = "entry"
                    ∧ entityId c = date_str +:+ "|" +:+ kv.1) ecs)
  ∧ (∀ d, d ∈ (ls_applied_days s').*1
          → d = date_str ∨ d ∈ (ls_applied_days s).*1)
  ∧ (∀ d, d ∈ (ls_applied_days s).*1 → d ∈ (ls_applied_days s').*1)
  ∧ (∀ d t, is_Some (days_get d t (ls_applied_days s')) →
            (d, t) = (date_str, kv.1)
            ∨ is_Some (days_get d t (ls_applied_days s))).
Proof.
  destruct kv as [tid data]. simpl.
  intros Hcase%process_entry_item_inv.
  assert (∀ v d t,
            is_Some (days_get d t
                       (days_set date_str tid v (ls_applied_days s))) →
            (d, t) = (date_str, tid)
            ∨ is_Some (days_get d t (ls_applied_days s))) as Hget.
  { intros v d t.
    destruct (decide ((d, t) = (date_str, tid))) as [?|Hne]; [by left|].
    rewrite days_get_set_ne by done. by right. }
  destruct Hcase as
    [(r & sv & cbv & _ & _ & _ & _ & ->)
    |[(db' & _ & _ & ->)|(r & sv & cbv & db' & _ & _ & _ & _ & _ & ->)]];
    simpl.
  - split; [eexists; split; [done|]; by apply Forall_singleton|].
    split; [by right|]. split; [done | by right].
  - split; [exists []; by rewrite app_nil_r|].
    split; [intros d; apply days_set_keys|].
    split; [intros d Hd; apply days_set_keys; by right | apply Hget].
  - split; [exists []; by rewrite app_nil_r|].
    split; [intros d; apply days_set_keys|].
    split; [intros d Hd; apply days_set_keys; by right | apply Hget].
Qed.

Lemma process_trackers_map_account client_id now date_str m s s' :
  process_trackers_map client_id now date_str m s = Ok s' →
  (∃ ecs,
     ls_conflicts s' = ls_conflicts s ++ ecs
     ∧ Forall (λ c, entityType c = "entry"
                    ∧ ∃ t, t ∈ m.*1
                           ∧ entityId c = date_str +:+ "|" +:+ t) ecs)
  ∧ (∀ d, d ∈ (ls_applied_days s').*1
          → d = date_str ∨ d ∈ (ls_applied_days s).*1)
  ∧ (∀ d, d ∈ (ls_applied_days s).*1 → d ∈ (ls_applied_days s').*1)
  ∧ (∀ d t, is_Some (days_get d t (ls_applied_days s')) →
            (d = date_str ∧ t ∈ m.*1)
            ∨ is_Some (days_get d t (ls_applied_days s))).
Proof.
  revert s. induction m as [|kv m IH]; simpl; intros s.
  - intros [= <-]. split; [exists []; by rewrite app_nil_r|].
    split; [by right|]. split; [done | by right].
  - intros (s1 & Hstep & Hrest)%bind_Ok.
    apply process_entry_item_account in Hstep
      as ((c1 & Hc1 & Hf1) & Hk1 & Hk1' & Hg1).
    apply IH in Hrest as ((c2 & Hc2 & Hf2) & Hk2 & Hk2' & Hg2).
    split; [|split; [|split]].
    + exists (c1 ++ c2). rewrite Hc2, Hc1, app_assoc. split; [done|].
      apply Forall_app. split.
      * eapply Forall_impl; [exact Hf1|]. intros c [Hty Hc].
        split; [done|]. exists kv.1. split; [left | done].
      * eapply Forall_impl; [exact Hf2|]. intros c (Hty & t & Ht & Hc).
        split; [done|]. exists t. split; [by right | done].
    + intros d [?|?]%Hk2; [by left|]. by apply Hk1.
    + intros d Hd. by apply Hk2', Hk1'.
    + intros d t [[-> Ht]|[[= -> ->]|?]%Hg1]%Hg2.
      * left. split; [done | by right].
      * left. split; [done | left].
      * by right.
Qed.

Lemma process_days_account client_id now dys s s' :
  process_days client_id now dys s = Ok s' →
  (∃ ecs,
     ls_conflicts s' = ls_conflicts s ++ ecs
     ∧ Forall (λ c, entityType c = "entry"
                    ∧ ∃ d m t, (d, m) ∈ dys ∧ t ∈ m.*1
                               ∧ entityId c = d +:+ "|" +:+ t) ecs)
  ∧ (∀ d, d ∈ (ls_applied_days s').*1
          ↔ d ∈ dys.*1 ∨ d ∈ (ls_applied_days s).*1)
  ∧ (∀ d t, is_Some (days_get d t (ls_applied_days s')) →
            (∃ m, (d, m) ∈ dys ∧ t ∈ m.*1)
            ∨ is_Some (days_get d t (ls_applied_days s))).
Proof.
  revert s. induction dys as [|[date_str m] dys IH]; simpl; intros s.
  - intros [= <-]. split; [exists []; by rewrite app_nil_r|].
    split; [|by right].
    intros d. split; [by right|]. intros [Hd|?]; [|done].
    by apply elem_of_nil in Hd.
  - intros (s1 & Hstep & Hrest)%bind_Ok.
    apply process_trackers_map_account in Hstep
      as ((c1 & Hc1 & Hf1) & Hk1 & Hk1' & Hg1).
    apply IH in Hrest as ((c2 & Hc2 & Hf2) & Hk2 & Hg2).
    simpl in Hc1.
    split; [|split].
    + exists (c1 ++ c2). rewrite Hc2, Hc1, app_assoc. split; [done|].
      apply Forall_app. split.
      * eapply Forall_impl; [exact Hf1|]. intros c (Hty & t & Ht & Hc).
        split; [done|]. exists date_str, m, t. split; [left | done].
      * eapply Forall_impl; [exact Hf2|].
        intros c (Hty & d & m' & t & Hd & Ht & Hc).
        split; [done|]. exists d, m', t. split; [by right | done].
    + intros d. rewrite Hk2. split.
      * intros [?|[->|[->|?]%open_day_keys]%Hk1].
        -- left. by right.
        -- left. left.
        -- left. left.
        -- by right.
      * intros [[->|?]%elem_of_cons|?].
        -- right. apply Hk1', open_day_keys. by left.
        -- by left.
        -- right. apply Hk1', open_day_keys. by right.
    + intros d t [(m' & Hd & Ht)|[[-> Ht]|Hs]%Hg1]%Hg2.
      * left. exists m'. split; [by right | done].
      * left. exists m. split; [left | done].
      * right. by rewrite open_day_days_get in Hs.
Qed.

(** X10.  A completed push reports its own items and nothing else, and
    reports every tracker item.  The conflicts are the tracker conflicts
    followed by the entry conflicts; each names the id of a tracker item,
    or the date and tracker id of an entry, of the payload.  Every tracker item is either among the applied items
    or among the conflicts: their numbers add up to the length of
    [config], and each applied item is an item of the payload with the
    three stamps set.  [appliedDays] has exactly the dates of the payload
    (a date whose entries all conflicted is there with no entry), and
    every entry in it is an entry of the payload.  [overwrittenData] is
    always empty. *)
Theorem push_reports_its_items db payload now db' resp :
  sync_update db payload now = (db', Ok resp) →
  ∃ tcs ecs,
    conflicts resp = tcs ++ ecs
    ∧ Forall (λ c, entityType c = "tracker"
                   ∧ JStr (entityId c)
                     ∈ dict_get_none "id" <$> config payload) tcs
    ∧ Forall (λ c, entityType c = "entry"
                   ∧ ∃ d m t, (d, m) ∈ days payload ∧ t ∈ m.*1
                              ∧ entityId c = d +:+ "|" +:+ t) ecs
    ∧ (List.length (appliedConfig resp) + List.length tcs
       = List.length (config payload))%nat
    ∧ Forall (λ a, ∃ item v, item ∈ config payload
                             ∧ a = annotate item v (clientId payload) now)
        (appliedConfig resp)
    ∧ (∀ d, d ∈ (appliedDays resp).*1 ↔ d ∈ (days payload).*1)
    ∧ (∀ d t, is_Some (days_get d t (appliedDays resp)) →
              ∃ m, (d, m) ∈ days payload ∧ t ∈ m.*1)
    ∧ overwrittenData resp = [].
Proof.
  intros Hup.
  apply sync_update_loops in Hup as (sf & Hloops & _ & ->).
  apply bind_Ok in Hloops as (sc & Hc & Hd). simpl.
  pose proof (process_config_frame _ _ _ _ _ Hc) as (_ & _ & Hcd).
  pose proof (process_days_frame _ _ _ _ _ Hd) as (_ & _ & Hda).
  apply process_config_account in Hc as (tcs & app & Hcc & Hca & Hlen & Ht & Ha).
  apply process_days_account in Hd as ((ecs & Hdc & He) & Hkeys & Hget).
  simpl in *. exists tcs, ecs.
  rewrite Hdc, Hcc, Hda, Hca. simpl.
  repeat (split; [done|]).
  split; [|split; [|done]].
  - intros d. rewrite Hkeys, Hcd. split; [|by left].
    intros [?|Hd]; [done|]. by apply elem_of_nil in Hd.
  - intros d t [?|Hs]%Hget; [done|].
    rewrite Hcd in Hs. by destruct Hs.
Qed.

(** Witness of X10: [B]'s push of two tracker items and two entries
    reports one applied tracker and one tracker conflict, and lists both
    dates although the entry of 2024-01-05 conflicted. *)
Lemma push_reports_its_items_witness :
  ∃ tcs ecs,
    conflicts Scenario.resp_two_days = tcs ++ ecs
    ∧ (List.length (appliedConfig Scenario.resp_two_days) + List.length tcs
       = 2)%nat
    ∧ "2024-01-05" ∈ (appliedDays Scenario.resp_two_days).*1
    ∧ days_get "2024-01-05" "t1" (appliedDays Scenario.resp_two_days) = None.
Proof.
  destruct (push_reports_its_items Scenario.db_A Scenario.push_two_days
              Scenario.time_B
              (sync_update Scenario.db_A Scenario.push_two_days
                 Scenario.time_B).1
              Scenario.resp_two_days)
    as (tcs & ecs & Hc & _ & _ & Hlen & _ & Hkeys & _);
    [vm_compute; reflexivity|].
  exists tcs, ecs. split; [exact Hc|]. split; [exact Hlen|].
  split; [apply Hkeys; left | reflexivity].
Defined.

(** ** The order of TEXT values *)

Lemma string_compare_refl s : String.compare s s = Eq.
Proof.
  induction s as [|a s IH]; simpl; [done|].
  unfold Ascii.compare. by rewrite N.compare_refl.
Qed.

Lemma string_ltb_irrefl s : String.ltb s s = false.
Proof. unfold String.ltb. by rewrite string_compare_refl. Qed.

Lemma string_compare_lt_trans s1 s2 s3 :
  String.compare s1 s2 = Lt → String.compare s2 s3 = Lt →
  String.compare s1 s3 = Lt.
Proof.
  revert s2 s3. induction s1 as [|a s1 IH]; intros [|b s2] [|c s3]; simpl;
    try done.
  destruct (Ascii.compare a b) eqn:Hab; [|intros _|done].
  - apply Ascii.compare_eq_iff in Hab as ->.
    destruct (Ascii.compare b c); [apply IH | done | done].
  - destruct (Ascii.compare b c) eqn:Hbc; [|intros _|done].
    + apply Ascii.compare_eq_iff in Hbc as <-. by rewrite Hab.
    + unfold Ascii.compare in *.
      rewrite N.compare_lt_iff in Hab, Hbc.
      assert (N_of_ascii a < N_of_ascii c)%N as Hac by lia.
      apply N.compare_lt_iff in Hac. by rewrite Hac.
Qed.

Lemma string_ltb_trans s1 s2 s3 :
  String.ltb s1 s2 = true → String.ltb s2 s3 = true →
  String.ltb s1 s3 = true.
Proof.
  unfold String.ltb. intros H12 H23.
  destruct (String.compare s1 s2) eqn:E12; try done.
  destruct (String.compare s2 s3) eqn:E23; try done.
  by rewrite (string_compare_lt_trans _ _ _ E12 E23).
Qed.

Lemma changed_after_irrefl now : ¬ changed_after now (Some now).
Proof.
  intros [[=]|(t & [= <-] & Hlt)]. by rewrite string_ltb_irrefl in Hlt.
Qed.

Lemma changed_after_mono since since' t :
  String.ltb since since' = true ∨ since = since' →
  changed_after since' t → changed_after since t.
Proof.
  intros Hle [->|(x & -> & Hlt)]; [by left|]. right. exists x.
  split; [done|]. destruct Hle as [Hlt'| ->]; [|done].
  by eapply string_ltb_trans.
Qed.

(** ** The stamp of a push *)

Lemma tracker_kept_or_stamped_trans client_id now r1 r2 r3 :
  tracker_kept_or_stamped client_id now r1 r2 →
  tracker_kept_or_stamped client_id now r2 r3 →
  tracker_kept_or_stamped client_id now r1 r3.
Proof. intros [->|H1] [->|H2]; (by left) || (by right). Qed.

Lemma entry_kept_or_stamped_trans client_id now r1 r2 r3 :
  entry_kept_or_stamped client_id now r1 r2 →
  entry_kept_or_stamped client_id now r2 r3 →
  entry_kept_or_stamped client_id now r1 r3.
Proof. intros [->|H1] [->|H2]; (by left) || (by right). Qed.

Lemma write_tracker_stamp client_id now item tid v db db' id :
  write_tracker client_id now item tid v db = Ok db' →
  tracker_kept_or_stamped client_id now (trackers db !! id)
    (trackers db' !! id).
Proof.
  intros Hw. destruct (decide (tid = id)) as [->|Hne].
  - apply write_tracker_lookup in Hw.
    destruct (is_deleted item).
    + rewrite Hw. destruct (trackers db !! id) as [r|]; [|by left].
      right. by eexists.
    + destruct Hw as (n & c & t & ->). right. by eexists.
  - left. by eapply write_tracker_other.
Qed.

Lemma write_entry_stamp client_id now d t data v db db' k :
  write_entry client_id now d t data v db = Ok db' →
  entry_kept_or_stamped client_id now (entries db !! k) (entries db' !! k).
Proof.
  intros Hw. destruct k as [d' t'].
  destruct (decide ((d, t) = (d', t'))) as [[= <- <-]|Hne].
  - apply write_entry_lookup in Hw as (x & _ & ->). right. by eexists.
  - left. by eapply write_entry_other.
Qed.

Lemma process_config_stamp client_id now items s s' id :
  process_config client_id now items s = Ok s' →
  tracker_kept_or_stamped client_id now (trackers (ls_db s) !! id)
    (trackers (ls_db s') !! id).
Proof.
  revert s. induction items as [|item items IH]; simpl; intros s.
  - intros [= <-]. by left.
  - intros (s1 & Hstep & Hrest)%bind_Ok.
    eapply tracker_kept_or_stamped_trans; [|by apply IH].
    apply process_tracker_item_inv in Hstep as (tid & _ & Hcase).
    destruct Hcase as
      [(r & sv & cbv & _ & _ & _ & _ & ->)
      |[(db' & _ & Hw & ->)|(r & sv & cbv & db' & _ & _ & _ & _ & Hw & ->)]];
      simpl; [by left| |]; by eapply write_tracker_stamp.
Qed.

Lemma process_trackers_map_stamp client_id now date_str m s s' k :
  process_trackers_map client_id now date_str m s = Ok s' →
  entry_kept_or_stamped client_id now (entries (ls_db s) !! k)
    (entries (ls_db s') !! k).
Proof.
  revert s. induction m as [|[tid data] m IH]; simpl; intros s.
  - intros [= <-]. by left.
  - intros (s1 & Hstep & Hrest)%bind_Ok.
    eapply entry_kept_or_stamped_trans; [|by apply IH].
    apply process_entry_item_inv in Hstep as Hcase.
    destruct Hcase as
      [(r & sv & cbv & _ & _ & _ & _ & ->)
      |[(db' & _ & Hw & ->)|(r & sv & cbv & db' & _ & _ & _ & _ & Hw & ->)]];
      simpl; [by left| |]; by eapply write_entry_stamp.
Qed.

Lemma process_days_stamp client_id now dys s s' k :
  process_days client_id now dys s = Ok s' →
  entry_kept_or_stamped client_id now (entries (ls_db s) !! k)
    (entries (ls_db s') !! k).
Proof.
  revert s. induction dys as [|[d m] dys IH]; simpl; intros s.
  - intros [= <-]. by left.
  - intros (s1 & Hstep & Hrest)%bind_Ok.
    eapply entry_kept_or_stamped_trans; [|by apply IH].
    by apply (process_trackers_map_stamp _ _ _ _ _ _ k) in Hstep.
Qed.

(** X11.  A completed push stamps what it writes: every tracker and
    every entry is committed either as it was before the push or with
    [last_modified_by] the pushing client and [last_modified_at] the time
    of the push.  The delta snapshot selects rows stamped strictly after
    [since], so a delta taken since the time of the push holds none of
    the rows the push wrote: all it returns was in the database before
    the push and is returned by the same delta taken there. *)
Theorem push_stamps_what_it_writes db payload now db' resp :
  sync_update db payload now = (db', Ok resp) →
  (∀ id, tracker_kept_or_stamped (clientId payload) now
           (trackers db !! id) (trackers db' !! id))
  ∧ (∀ k, entry_kept_or_stamped (clientId payload) now
            (entries db !! k) (entries db' !! k))
  ∧ (∀ client_id seven_days_ago now',
       let before := sync_delta db now client_id seven_days_ago now' in
       let after := sync_delta db' now client_id seven_days_ago now' in
       (∀ t, t ∈ ds_config after → t ∈ ds_config before)
       ∧ (∀ id, id ∈ deletedTrackers after → id ∈ deletedTrackers before)
       ∧ (∀ d t e, days_get d t (ds_days after) = Some e →
                   days_get d t (ds_days before) = Some e)).
Proof.
  intros Hup.
  apply sync_update_loops in Hup as (sf & Hloops & -> & _).
  apply bind_Ok in Hloops as (sc & Hc & Hd).
  pose proof (process_config_frame _ _ _ _ _ Hc) as (_ & Hce & _).
  pose proof (process_days_frame _ _ _ _ _ Hd) as (_ & Hdt & _).
  destruct (committed_tables (no_conflicts (ls_conflicts sf)) now (ls_db sf))
    as (Ht & He & _).
  assert (∀ id, tracker_kept_or_stamped (clientId payload) now
                  (trackers db !! id)
                  (trackers
                     (if no_conflicts (ls_conflicts sf)
                      then set_meta_sync (insert last_server_sync_time now)
                             (ls_db sf)
                      else ls_db sf) !! id)) as Htr.
  { intros id. rewrite Ht, Hdt.
    apply (process_config_stamp _ _ _ _ _ id) in Hc. exact Hc. }
  assert (∀ k, entry_kept_or_stamped (clientId payload) now
                 (entries db !! k)
                 (entries
                    (if no_conflicts (ls_conflicts sf)
                     then set_meta_sync (insert last_server_sync_time now)
                            (ls_db sf)
                     else ls_db sf) !! k)) as Hen.
  { intros k. rewrite He.
    apply (process_days_stamp _ _ _ _ _ k) in Hd.
    rewrite Hce in Hd. exact Hd. }
  split; [exact Htr|]. split; [exact Hen|].
  intros client_id seven_days_ago now'. cbv zeta.
  split; [|split].
  - intros t (id & row & Hrow & Hch & Hdel & ->)%sync_delta_config.
    apply sync_delta_config. exists id, row.
    destruct (Htr id) as [Hsame|(r & Hr & _ & Hat)].
    + by rewrite <- Hsame.
    + exfalso. rewrite Hrow in Hr. injection Hr as <-.
      rewrite Hat in Hch. by apply changed_after_irrefl in Hch.
  - intros id (row & Hrow & Hch & Hdel)%sync_delta_deleted.
    apply sync_delta_deleted. exists row.
    destruct (Htr id) as [Hsame|(r & Hr & _ & Hat)].
    + by rewrite <- Hsame.
    + exfalso. rewrite Hrow in Hr. injection Hr as <-.
      rewrite Hat in Hch. by apply changed_after_irrefl in Hch.
  - intros d t e (row & Hrow & Hch & Hw & ->)%sync_delta_days.
    apply sync_delta_days. exists row.
    destruct (Hen (d, t)) as [Hsame|(r & Hr & _ & Hat)].
    + by rewrite <- Hsame.
    + exfalso. rewrite Hrow in Hr. injection Hr as <-.
      rewrite Hat in Hch. by apply changed_after_irrefl in Hch.
Qed.

(** Witness of X11: the delta taken since the time of [A]'s push returns
    neither the tracker nor the entry [A] pushed. *)
Lemma push_stamps_what_it_writes_witness :
  let after :=
    sync_delta Scenario.db_A Scenario.time_A "A" Scenario.cutoff
      Scenario.time_B in
  ds_config after = [] ∧ deletedTrackers after = []
  ∧ days_get "2024-01-05" "t1" (ds_days after) = None.
Proof.
  intros after.
  destruct (push_stamps_what_it_writes init_database Scenario.push_A
              Scenario.time_A Scenario.db_A Scenario.resp_A)
    as (_ & _ & Hdelta); [vm_compute; reflexivity|].
  destruct (Hdelta "A" Scenario.cutoff Scenario.time_B)
    as (Hcfg & Hdel & Hdays).
  split; [|split].
  - apply elem_of_nil_inv. intros t Ht%Hcfg.
    vm_compute in Ht. inversion Ht.
  - apply elem_of_nil_inv. intros id Hid%Hdel.
    vm_compute in Hid. inversion Hid.
  - destruct (days_get "2024-01-05" "t1" (ds_days after)) as [e|] eqn:He;
      [|done].
    apply Hdays in He. vm_compute in He. discriminate.
Defined.

(** ** The two snapshots *)

Lemma live_deleted_flag row : live row = negb (deleted_flag row).
Proof.
  unfold live, deleted_flag. destruct (tr_deleted row) as [z|]; [|done].
  by rewrite negb_involutive.
Qed.

(** X12.  The delta snapshot is a part of the full snapshot taken at the
    same moment: every tracker in its [config] is in the full [config],
    every entry in its [days] is the entry the full snapshot has under
    the same date and tracker id, and the ids in [deletedTrackers] are
    those of rows the full snapshot leaves out.  The [client_id] of the
    request has no influence on the answer, so the changes of the
    requesting client are returned like anybody else's.  A later [since]
    never returns more: what the delta since [since'] holds, the delta
    since an earlier [since] holds as well. *)
Theorem delta_is_part_of_full db since client_id seven_days_ago now :
  let delta := sync_delta db since client_id seven_days_ago now in
  let full := sync_full db seven_days_ago now in
  (∀ t, t ∈ ds_config delta → t ∈ fs_config full)
  ∧ (∀ d t e, days_get d t (ds_days delta) = Some e →
              days_get d t (fs_days full) = Some e)
  ∧ (∀ id, id ∈ deletedTrackers delta →
           ∃ row, trackers db !! id = Some row ∧ live row = false)
  ∧ (∀ client_id', sync_delta db since client_id' seven_days_ago now = delta)
  ∧ (∀ since',
       String.ltb since since' = true →
       let later := sync_delta db since' client_id seven_days_ago now in
       (∀ t, t ∈ ds_config later → t ∈ ds_config delta)
       ∧ (∀ id, id ∈ deletedTrackers later → id ∈ deletedTrackers delta)
       ∧ (∀ d t e, days_get d t (ds_days later) = Some e →
                   days_get d t (ds_days delta) = Some e))
  ∧ ds_serverTime delta = fs_serverTime full.
Proof.
  cbv zeta. split; [|split; [|split; [|split; [|split]]]].
  - intros t (id & row & Hrow & _ & Hdel & ->)%sync_delta_config.
    apply sync_full_config. exists id, row. split; [done|].
    split; [|done]. by rewrite live_deleted_flag, Hdel.
  - intros d t e (row & Hrow & _ & Hw & ->)%sync_delta_days.
    apply sync_full_days. by exists row.
  - intros id (row & Hrow & _ & Hdel)%sync_delta_deleted.
    exists row. split; [done|]. by rewrite live_deleted_flag, Hdel.
  - reflexivity.
  - intros since' Hlt. split; [|split].
    + intros t (id & row & Hrow & Hch & Hdel & ->)%sync_delta_config.
      apply sync_delta_config. exists id, row.
      split; [done|]. split; [|done].
      eapply changed_after_mono; [by left | done].
    + intros id (row & Hrow & Hch & Hdel)%sync_delta_deleted.
      apply sync_delta_deleted. exists row.
      split; [done|]. split; [|done].
      eapply changed_after_mono; [by left | done].
    + intros d t e (row & Hrow & Hch & Hw & ->)%sync_delta_days.
      apply sync_delta_days. exists row.
      split; [done|]. split; [|done].
      eapply changed_after_mono; [by left | done].
  - unfold sync_delta. by rewrite split_trackers_spec.
Qed.

(** ** The list of unresolved conflicts *)

Lemma created_desc_total : Total created_desc.
Proof.
  intros a b. unfold created_desc, text_leb.
  destruct (sc_created_at a) as [x|], (sc_created_at b) as [y|]; simpl;
    try (by left); try (by right); try (by auto).
  destruct (String.leb_total x y) as [H|H]; rewrite H; by auto.
Qed.

Lemma unresolved_for_spec client_id row :
  Is_true (unresolved_for client_id row)
  ↔ sc_client_id row = Some client_id ∧ sc_resolved_at row = None.
Proof.
  unfold unresolved_for.
  destruct (sc_client_id row) as [c|], (sc_resolved_at row) as [t|]; simpl;
    try (split; [done | by intros [? ?]]).
  destruct (String.eqb_spec c client_id) as [->|Hne]; simpl.
  - done.
  - split; [done | intros [[= ?] _]; done].
Qed.

(** X13.  For any ledger, [get_unresolved_conflicts] returns the rows of
    the given client that carry no resolution time, each once, as
    conflicts with the fields of the row, ordered by [created_at] with
    the newest first and rows without a creation time last; a row of
    another client, or one with a resolution time, is never returned. *)
Theorem unresolved_conflicts_are_selected_and_sorted db client_id :
  let r := get_unresolved_conflicts db client_id in
  r ≡ₚ unresolved_conflict_of
         <$> filter (λ row, sc_client_id row = Some client_id
                            ∧ sc_resolved_at row = None) (sync_conflicts db)
  ∧ Sorted (λ a b, Is_true (text_leb (uc_createdAt b) (uc_createdAt a))) r
  ∧ (∀ c, c ∈ r ↔ ∃ row, row ∈ sync_conflicts db
                         ∧ sc_client_id row = Some client_id
                         ∧ sc_resolved_at row = None
                         ∧ c = unresolved_conflict_of row).
Proof.
  cbv zeta. unfold get_unresolved_conflicts.
  change (map ?f ?l) with (f <$> l).
  rewrite (list_filter_iff
             (λ row, Is_true (unresolved_for client_id row))
             (λ row, sc_client_id row = Some client_id
                     ∧ sc_resolved_at row = None))
    by (intros row; apply unresolved_for_spec).
  set (rows := filter _ (sync_conflicts db)).
  assert (merge_sort created_desc rows ≡ₚ rows) as Hperm
    by apply merge_sort_Permutation.
  split; [by rewrite Hperm|]. split.
  - apply (Sorted_fmap unresolved_conflict_of created_desc
             (λ a b, Is_true (text_leb (uc_createdAt b) (uc_createdAt a)))).
    + by intros a b.
    + pose proof created_desc_total as Htotal.
      apply (Sorted_merge_sort created_desc).
  - intros c. rewrite Hperm, list_elem_of_fmap. split.
    + intros (row & -> & [[Hc Hr] Hin]%list_elem_of_filter).
      by exists row.
    + intros (row & Hin & Hc & Hr & ->). exists row. split; [done|].
      by apply list_elem_of_filter.
Qed.

(** ** What the snapshots show *)

Lemma well_stored_init : well_stored init_database.
Proof. split; intros ? ? H; simpl in H; by rewrite lookup_empty in H. Qed.

Lemma extract_meta_keys item k :
  k ∈ (extract_meta item).*1 → k ∉ excluded_keys.
Proof. intros Hk. by apply dict_filter_keys in Hk as (v & Hk & _). Qed.

Lemma well_stored_tracker_version db id :
  well_stored db → 0 ≤ tracker_version db id.
Proof.
  intros [Ht _]. unfold tracker_version.
  destruct (trackers db !! id) as [r|] eqn:Hr; [|done].
  destruct (Ht id r Hr) as [(v & -> & Hv) _]. simpl. lia.
Qed.

Lemma well_stored_entry_version db d t :
  well_stored db → 0 ≤ entry_version db d t.
Proof.
  intros [_ He]. unfold entry_version.
  destruct (entries db !! (d, t)) as [r|] eqn:Hr; [|done].
  destruct (He _ r Hr) as (v & -> & Hv). simpl. lia.
Qed.

Lemma well_stored_insert_tracker db id n c t meta v client_id now :
  well_stored db → 1 ≤ v → (∀ k, k ∈ meta.*1 → k ∉ excluded_keys) →
  well_stored
    (set_trackers (insert id (new_tracker_row n c t meta v client_id now)) db).
Proof.
  intros [Ht He] Hv Hmeta. split; [|done]. simpl. intros id' r.
  destruct (decide (id = id')) as [->|Hne].
  - rewrite lookup_insert_eq. intros [= <-]. simpl.
    split; [by exists v | by exists meta].
  - rewrite lookup_insert_ne by done. apply Ht.
Qed.

Lemma well_stored_soft_delete db id v client_id now :
  well_stored db → 1 ≤ v →
  well_stored
    (set_trackers (alter (soft_delete_row v client_id now) id) db).
Proof.
  intros [Ht He] Hv. split; [|done]. simpl. intros id' r.
  destruct (decide (id = id')) as [->|Hne].
  - rewrite lookup_alter_eq.
    destruct (trackers db !! id') as [r0|] eqn:Hr0; simpl; [|done].
    intros [= <-]. simpl. split; [by exists v|].
    by destruct (Ht id' r0 Hr0) as [_ ?].
  - rewrite lookup_alter_ne by done. apply Ht.
Qed.

Lemma well_stored_insert_entry db k x completed v client_id now :
  well_stored db → 1 ≤ v →
  well_stored
    (set_entries (insert k (new_entry_row x completed v client_id now)) db).
Proof.
  intros [Ht He] Hv. split; [done|]. simpl. intros k' r.
  destruct (decide (k = k')) as [->|Hne].
  - rewrite lookup_insert_eq. intros [= <-]. by exists v.
  - rewrite lookup_insert_ne by done. apply He.
Qed.

Lemma write_tracker_well_stored client_id now item tid v db db' :
  write_tracker client_id now item tid v db = Ok db' →
  1 ≤ v → well_stored db → well_stored db'.
Proof.
  unfold write_tracker. intros H Hv Hws.
  destruct (is_deleted item).
  - injection H as <-. by apply well_stored_soft_delete.
  - apply bind_Ok in H as (n & _ & H).
    apply bind_Ok in H as (c & _ & H).
    apply bind_Ok in H as (t & _ & [= <-]).
    apply well_stored_insert_tracker; [done | done | apply extract_meta_keys].
Qed.

Lemma write_entry_well_stored client_id now d t data v db db' :
  write_entry client_id now d t data v db = Ok db' →
  1 ≤ v → well_stored db → well_stored db'.
Proof.
  unfold write_entry. intros H Hv Hws.
  apply bind_Ok in H as (x & _ & [= <-]).
  by apply well_stored_insert_entry.
Qed.

Lemma process_tracker_item_well_stored client_id now item s s' :
  process_tracker_item client_id now item s = Ok s' →
  well_stored (ls_db s) → well_stored (ls_db s').
Proof.
  intros (tid & _ & Hcase)%process_tracker_item_inv Hws.
  destruct Hcase as
    [(r & sv & cbv & _ & _ & _ & _ & ->)
    |[(db' & _ & Hw & ->)|(r & sv & cbv & db' & Hr & Hsv & _ & _ & Hw & ->)]];
    simpl; [done| |].
  - by eapply write_tracker_well_stored.
  - eapply write_tracker_well_stored; [exact Hw| |done].
    destruct Hws as [Ht _].
    destruct (Ht tid r Hr) as [(v & Hv & Hle) _]. 
    assert (v = sv) as -> by congruence. lia.
Qed.

Lemma process_entry_item_well_stored client_id now date_str kv s s' :
  process_entry_item client_id now date_str kv s = Ok s' →
  well_stored (ls_db s) → well_stored (ls_db s').
Proof.
  destruct kv as [tid data].
  intros Hcase%process_entry_item_inv Hws.
  destruct Hcase as
    [(r & sv & cbv & _ & _ & _ & _ & ->)
    |[(db' & _ & Hw & ->)|(r & sv & cbv & db' & Hr & Hsv & _ & _ & Hw & ->)]];
    simpl; [done| |].
  - by eapply write_entry_well_stored.
  - eapply write_entry_well_stored; [exact Hw| |done].
    destruct Hws as [_ He].
    destruct (He _ r Hr) as (v & Hv & Hle).
    assert (v = sv) as -> by congruence. lia.
Qed.

Lemma process_config_well_stored client_id now items s s' :
  process_config client_id now items s = Ok s' →
  well_stored (ls_db s) → well_stored (ls_db s').
Proof.
  revert s. induction items as [|item items IH]; simpl; intros s.
  - by intros [= <-].
  - intros (s1 & Hstep & Hrest)%bind_Ok Hws.
    apply (IH _ Hrest). by eapply process_tracker_item_well_stored.
Qed.

Lemma process_trackers_map_well_stored client_id now date_str m s s' :
  process_trackers_map client_id now date_str m s = Ok s' →
  well_stored (ls_db s) → well_stored (ls_db s').
Proof.
  revert s. induction m as [|kv m IH]; simpl; intros s.
  - by intros [= <-].
  - intros (s1 & Hstep & Hrest)%bind_Ok Hws.
    apply (IH _ Hrest). by eapply process_entry_item_well_stored.
Qed.

Lemma process_days_well_stored client_id now dys s s' :
  process_days client_id now dys s = Ok s' →
  well_stored (ls_db s) → well_stored (ls_db s').
Proof.
  revert s. induction dys as [|[d m] dys IH]; simpl; intros s.
  - by intros [= <-].
  - intros (s1 & Hstep & Hrest)%bind_Ok Hws.
    apply (IH _ Hrest). by eapply process_trackers_map_well_stored.
Qed.

Lemma handle_well_stored db r : well_stored db → well_stored (handle db r).
Proof.
  intros Hws. destruct r; simpl.
  - done.
  - destruct (sync_update db payload now) as [db' [resp|f]] eqn:Hup.
    + apply sync_update_loops in Hup as (sf & Hloops & -> & _).
      apply bind_Ok in Hloops as (s1 & Hc & Hd).
      apply process_config_well_stored in Hc; [|done].
      apply process_days_well_stored in Hd; [|done].
      simpl. by destruct (no_conflicts (ls_conflicts sf)).
    + unfold sync_update in Hup. simpl in Hup.
      destruct (process_config _ _ _ _ ≫= _); [done|].
      by injection Hup as <- _.
  - unfold resolve_conflict.
    destruct (forced_payload resolution client_data) as [data|]; simpl;
      [|done].
    destruct (String.eqb entity_type "tracker").
    + destruct (force_tracker db entity_id client_id now data) as [db1|f]
        eqn:Hf; simpl; [|done].
      apply force_tracker_inv in Hf as (n & c & t & _ & _ & _ & _ & ->).
      pose proof (well_stored_tracker_version db entity_id Hws).
      apply (well_stored_insert_tracker db); [done | lia |].
      apply extract_meta_keys.
    + destruct (String.eqb entity_type "entry"); simpl; [|done].
      destruct (force_entry db entity_id client_id now data) as [db1|f]
        eqn:Hf; simpl; [|done].
      apply force_entry_inv in Hf as (d0 & t0 & x & _ & _ & _ & ->).
      pose proof (well_stored_entry_version db d0 t0 Hws).
      apply (well_stored_insert_entry db); [done | lia].
Qed.

Lemma run_well_stored history : well_stored (run history).
Proof.
  unfold run.
  assert (∀ db, well_stored db →
                well_stored (fold_left handle history db)) as Hfold.
  { induction history as [|r history IH]; simpl; intros db Hws; [done|].
    by apply IH, handle_well_stored. }
  apply Hfold, well_stored_init.
Qed.

Lemma dict_get_update_other {A} (d m : list (string * A)) k :
  k ∉ m.*1 → dict_get k (dict_update d m) = dict_get k d.
Proof.
  unfold dict_update. revert d.
  induction m as [|[k' v] m IH]; simpl; intros d Hk; [done|].
  apply not_elem_of_cons in Hk as [Hne Hk].
  rewrite IH by done. by apply dict_get_set_ne.
Qed.

Lemma version_or_1_positive v : 1 ≤ v → version_or_1 (Some v) = v.
Proof.
  intros Hv. unfold version_or_1.
  destruct (Z.eqb_spec v 0); [lia | done].
Qed.

(** The seven columns of a tracker as the snapshots return them, on a
    well-stored database. *)
Lemma tracker_json_columns db id row k :
  well_stored db → trackers db !! id = Some row → k ∈ excluded_keys →
  dict_get k (tracker_json id row)
  = dict_get k
      [("id", JStr id); ("name", text_json (tr_name row));
       ("category", text_json (tr_category row));
       ("type", text_json (tr_type row));
       ("_version", JNum (tracker_version db id));
       ("_lastModifiedBy", text_json (tr_last_modified_by row));
       ("_lastModifiedAt", text_json (tr_last_modified_at row))].
Proof.
  intros [Ht _] Hrow Hk.
  destruct (Ht id row Hrow) as [(v & Hv & Hle) (meta & Hmeta & Hkeys)].
  unfold tracker_json, tracker_version.
  rewrite Hrow, Hmeta, Hv, (version_or_1_positive v Hle).
  change (default 0 (Some v)) with v. cbv beta iota zeta.
  by rewrite dict_get_update_other by (intros Hin; by apply Hkeys in Hin).
Qed.

Lemma entry_json_version db d t row :
  well_stored db → entries db !! (d, t) = Some row →
  dict_get "_version" (entry_json row) = Some (JNum (entry_version db d t)).
Proof.
  intros [_ He] Hrow. destruct (He _ row Hrow) as (v & Hv & Hle).
  unfold entry_version, entry_json.
  rewrite Hrow, Hv, (version_or_1_positive v Hle). reflexivity.
Qed.

(** X14.  After any history of requests that the model covers (no
    request of it ends in [Unmodelled]: every tracker item has a string
    id, names are strings or null, values are numbers or null) every
    stored row has a version of at least 1, no extension map holds a
    reserved key, and no two trackers of the full snapshot have the
    same [id].  On a database with the first two properties the
    extension fields never shadow a column in a snapshot: the tracker
    returned for a row has the row's key as [id], the row's name,
    category and type, the stored version as [_version] (the fallback
    [or 1] never applies) and the row's stamp; the entry returned for a
    row has the stored version as [_version]; and the ids of the full
    snapshot are distinct. *)
Theorem snapshots_show_the_stored_columns :
  (∀ history seven_days_ago now,
     modelled_from init_database history →
     well_stored (run history)
     ∧ NoDup (dict_get "id"
                <$> fs_config (sync_full (run history) seven_days_ago now)))
  ∧ (∀ db id row,
       well_stored db → trackers db !! id = Some row →
       let t := tracker_json id row in
       dict_get "id" t = Some (JStr id)
       ∧ dict_get "name" t = Some (text_json (tr_name row))
       ∧ dict_get "category" t = Some (text_json (tr_category row))
       ∧ dict_get "type" t = Some (text_json (tr_type row))
       ∧ dict_get "_version" t = Some (JNum (tracker_version db id))
       ∧ dict_get "_lastModifiedBy" t
         = Some (text_json (tr_last_modified_by row))
       ∧ dict_get "_lastModifiedAt" t
         = Some (text_json (tr_last_modified_at row)))
  ∧ (∀ db d t row,
       well_stored db → entries db !! (d, t) = Some row →
       dict_get "_version" (entry_json row)
       = Some (JNum (entry_version db d t)))
  ∧ (∀ db seven_days_ago now,
       well_stored db →
       NoDup (dict_get "id" <$> fs_config (sync_full db seven_days_ago now))).
Proof.
  assert (∀ db seven_days_ago now,
            well_stored db →
            NoDup (dict_get "id"
                     <$> fs_config (sync_full db seven_days_ago now)))
    as Hids.
  { intros db seven_days_ago now Hws. unfold sync_full. simpl.
    change (map ?f ?l) with (f <$> l). rewrite <- list_fmap_compose.
    apply NoDup_fmap_2_strong.
    - intros [id1 r1] [id2 r2] [_ H1%elem_of_map_to_list]%list_elem_of_filter
        [_ H2%elem_of_map_to_list]%list_elem_of_filter. simpl.
      rewrite (tracker_json_columns db id1 r1 "id" Hws H1)
        by (apply list_elem_of_In; unfold excluded_keys; simpl; tauto).
      rewrite (tracker_json_columns db id2 r2 "id" Hws H2)
        by (apply list_elem_of_In; unfold excluded_keys; simpl; tauto).
      simpl. intros [= ->]. congruence.
    - apply NoDup_filter, NoDup_map_to_list. }
  split; [|split; [|split; [|exact Hids]]].
  - intros history seven_days_ago now _.
    split; [apply run_well_stored | apply Hids, run_well_stored].
  - intros db id row Hws Hrow. cbv zeta.
    assert (∀ k, k ∈ excluded_keys →
                 dict_get k (tracker_json id row) = _) as Hcol
      by (intros k; by apply (tracker_json_columns db)).
    repeat split; (rewrite Hcol; [reflexivity|]);
      apply list_elem_of_In; unfold excluded_keys; simpl; tauto.
  - intros db d t row. apply entry_json_version.
Qed.

(** Witness of X14: [A]'s push and [B]'s stale push are covered by the
    model; the database they leave is well stored and the ids of its
    full snapshot are distinct. *)
Lemma snapshots_show_the_stored_columns_witness :
  well_stored Scenario.db_B
  ∧ NoDup (dict_get "id"
             <$> fs_config
                   (sync_full Scenario.db_B Scenario.cutoff Scenario.time_C)).
Proof.
  apply (proj1 snapshots_show_the_stored_columns
           [Update Scenario.push_A Scenario.time_A;
            Update Scenario.push_B Scenario.time_B]
           Scenario.cutoff Scenario.time_C).
  repeat split; simpl; vm_compute; discriminate.
Defined.

(** ** Editing what a snapshot returned *)

Lemma base_version_of_snapshot item (t : list (string * json)) v :
  dict_get "_baseVersion" item = dict_get "_version" t →
  dict_get "_version" t = Some (JNum v) →
  as_int (base_version item) = Some v.
Proof.
  intros Hb Hv. unfold base_version, dict_get_default.
  by rewrite Hb, Hv.
Qed.

(** X15.  An edit based on a snapshot is accepted.  Take a well-stored
    database (as every history leaves it), a record the full snapshot
    returns, and a completed push with distinct ids that holds an item
    for the same id whose [_baseVersion] is the [_version] of the
    snapshot record.  Then the item is not a conflict: it is reported in
    [appliedConfig] with the stored version plus 1, and the committed
    tracker has that version.  The same holds for an entry of [days]
    whose [_baseVersion] is the [_version] the full snapshot returned
    for its date and tracker id. *)
Theorem edit_of_snapshot_record_is_accepted :
  (∀ db payload now db' resp seven_days_ago now0 t item,
     well_stored db →
     sync_update db payload now = (db', Ok resp) →
     NoDup (dict_get_none "id" <$> config payload) →
     t ∈ fs_config (sync_full db seven_days_ago now0) →
     item ∈ config payload →
     dict_get "id" item = dict_get "id" t →
     dict_get "_baseVersion" item = dict_get "_version" t →
     ∃ id,
       dict_get "id" t = Some (JStr id)
       ∧ annotate item (tracker_version db id + 1) (clientId payload) now
         ∈ appliedConfig resp
       ∧ tracker_version db' id = tracker_version db id + 1)
  ∧ (∀ db payload now db' resp seven_days_ago now0 d m t data e,
       well_stored db →
       sync_update db payload now = (db', Ok resp) →
       NoDup (days payload).*1 →
       Forall (λ day : string * list (string * list (string * json)),
                 NoDup day.2.*1) (days payload) →
       days_get d t (fs_days (sync_full db seven_days_ago now0)) = Some e →
       (d, m) ∈ days payload → (t, data) ∈ m →
       dict_get "_baseVersion" data = dict_get "_version" e →
       days_get d t (appliedDays resp)
       = Some (applied_entry (dict_get_none "value" data)
                 (dict_get_none "completed" data) (entry_version db d t + 1)
                 (clientId payload) now)
       ∧ entry_version db' d t = entry_version db d t + 1).
Proof.
  split.
  - intros db payload now db' resp seven_days_ago now0 t item
      Hws Hup Hnd Ht Hitem Hid Hbase.
    apply sync_full_config in Ht as (id & row & Hrow & _ & ->).
    assert (dict_get "id" (tracker_json id row) = Some (JStr id)) as Hcid.
    { rewrite (tracker_json_columns db id row "id" Hws Hrow); [done|].
      apply list_elem_of_In; unfold excluded_keys; simpl; tauto. }
    assert (dict_get "_version" (tracker_json id row)
            = Some (JNum (tracker_version db id))) as Hcv.
    { rewrite (tracker_json_columns db id row "_version" Hws Hrow); [done|].
      apply list_elem_of_In; unfold excluded_keys; simpl; tauto. }
    exists id. split; [done|].
    pose proof (base_version_of_snapshot _ _ _ Hbase Hcv) as Hb.
    destruct (sync_update_tracker_item _ _ _ _ _ item Hup Hnd Hitem)
      as (tid & v & Hid' & -> & Hcase).
    assert (tid = id) as ->.
    { unfold dict_get_none, dict_get_default in Hid'.
      rewrite Hid, Hcid in Hid'. simpl in Hid'. congruence. }
    destruct Hcase as [(r & sv & cbv & Hr & Hsv & Hb' & Hlt & _)
                      |(_ & Happ & Hrow')].
    + exfalso. rewrite (tracker_version_Some _ _ _ _ Hr Hsv) in Hb.
      assert (cbv = sv) by congruence. lia.
    + split; [done|]. unfold tracker_version at 1.
      destruct (is_deleted item).
      * rewrite Hrow', Hrow. reflexivity.
      * destruct Hrow' as (n & c & t & ->). reflexivity.
  - intros db payload now db' resp seven_days_ago now0 d m t data e
      Hws Hup Hndd Hndm He Hday Hitem Hbase.
    apply sync_full_days in He as (row & Hrow & _ & ->).
    pose proof (entry_json_version db d t row Hws Hrow) as Hcv.
    pose proof (base_version_of_snapshot _ _ _ Hbase Hcv) as Hb.
    destruct (sync_update_entry_item _ _ _ _ _ d m t data Hup Hndd Hndm
                Hday Hitem) as (v & -> & Hcase).
    destruct Hcase as [(r & sv & cbv & Hr & Hsv & Hb' & Hlt & _)
                      |(_ & Happ & x & _ & Hrow')].
    + exfalso. rewrite (entry_version_Some _ _ _ _ _ Hr Hsv) in Hb.
      assert (cbv = sv) by congruence. lia.
    + split; [done|]. unfold entry_version at 1. by rewrite Hrow'.
Qed.

(** Witness of X15: [A] edits [t1] and completes the entry of 2024-01-05
    from the versions the full snapshot returned; both are stored at
    version 2. *)
Lemma edit_of_snapshot_record_is_accepted_witness :
  let db' :=
    (sync_update Scenario.db_A Scenario.push_edit Scenario.time_B).1 in
  tracker_version db' "t1" = 2 ∧ entry_version db' "2024-01-05" "t1" = 2.
Proof.
  intros db'.
  destruct edit_of_snapshot_record_is_accepted as [Htracker Hentry].
  assert (sync_update Scenario.db_A Scenario.push_edit Scenario.time_B
          = (db', Ok Scenario.resp_edit)) as Hup
    by (vm_compute; reflexivity).
  pose proof (run_well_stored [Update Scenario.push_A Scenario.time_A])
    as Hws.
  change (well_stored Scenario.db_A) in Hws.
  assert (tracker_version Scenario.db_A "t1" = 1) as Hv1
    by (vm_compute; reflexivity).
  assert (entry_version Scenario.db_A "2024-01-05" "t1" = 1) as Hv2
    by (vm_compute; reflexivity).
  split.
  - destruct (Htracker Scenario.db_A Scenario.push_edit Scenario.time_B db'
                Scenario.resp_edit Scenario.cutoff Scenario.time_B
                (snapshot_columns "t1" (Some "Run") (Some "") (Some "simple")
                   1 "A" Scenario.time_A
                 ++ [("goal", JNum 10); ("unit", JStr "km")])
                Scenario.t1_edit_by_A Hws Hup)
      as (id & [= <-] & _ & Hv).
    + apply NoDup_singleton.
    + vm_compute. left.
    + left.
    + reflexivity.
    + reflexivity.
    + rewrite Hv, Hv1. reflexivity.
  - destruct (Hentry Scenario.db_A Scenario.push_edit Scenario.time_B db'
                Scenario.resp_edit Scenario.cutoff Scenario.time_B
                "2024-01-05" [("t1", Scenario.entry_completed_only)] "t1"
                Scenario.entry_completed_only
                (entry_json Scenario.row_entry_A) Hws Hup)
      as (_ & Hv).
    + apply NoDup_singleton.
    + apply Forall_singleton, NoDup_singleton.
    + vm_compute. reflexivity.
    + left.
    + left.
    + reflexivity.
    + rewrite Hv, Hv2. reflexivity.
Defined.

(** ** The clients table *)

Lemma str_take_all n s : (str_len s ≤ n)%nat → str_take n s = s.
Proof.
  revert n. induction s as [|c s IH]; intros n; simpl; [done|].
  destruct (is_continuation c).
  - intros Hn. by rewrite IH.
  - destruct n as [|n]; [lia|]. intros Hn. rewrite IH; [done | lia].
Qed.

Lemma str_take_len n s : (str_len (str_take n s) ≤ n)%nat.
Proof.
  revert n. induction s as [|c s IH]; intros n; simpl; [lia|].
  destruct (is_continuation c) eqn:Hc; simpl.
  - rewrite Hc. apply IH.
  - destruct n as [|n]; simpl; [lia|]. rewrite Hc. specialize (IH n). lia.
Qed.

Lemma str_take_prefix n s : ∃ rest, s = str_take n s +:+ rest.
Proof.
  revert n. induction s as [|c s IH]; intros n; simpl; [by exists ""|].
  destruct (is_continuation c).
  - destruct (IH n) as [rest Hrest]. exists rest.
    change (String c s = String c (str_take n s +:+ rest)).
    by rewrite <- Hrest.
  - destruct n as [|n]; [by eexists|].
    destruct (IH n) as [rest Hrest]. exists rest.
    change (String c s = String c (str_take n s +:+ rest)).
    by rewrite <- Hrest.
Qed.

Lemma sync_update_clients db payload now db' resp :
  sync_update db payload now = (db', Ok resp) →
  clients db'
  = <[clientId payload :=
        {| cl_name := Some (default_client_name (clientId payload));
           cl_last_seen_at := Some now |}]> (clients db).
Proof.
  intros Hup.
  apply sync_update_loops in Hup as (sf & Hloops & -> & _).
  apply bind_Ok in Hloops as (sc & Hc & Hd).
  apply process_config_frame in Hc as ((Hc & _) & _).
  apply process_days_frame in Hd as ((Hd & _) & _).
  destruct (committed_tables (no_conflicts (ls_conflicts sf)) now (ls_db sf))
    as (_ & _ & ->).
  by rewrite Hd, Hc.
Qed.

(** X16.  The row of a client.  [register_client] stores the name it is
    given, or the default name when the name is missing or empty, and
    touches nothing but the client's row.  Every completed push
    overwrites the row of the pushing client with the default name and
    the time of the push, so a name given at registration is lost with
    the first push; the rows of other clients are kept.
    [resolve_conflict] never writes the table, so resolving does not
    count as being seen.  The default name is [Client-] followed by the
    first eight characters of the client id (characters, not bytes: a
    character of several bytes is never cut): by a beginning of the id
    that has at most eight characters, and by the whole id when the id
    has at most eight. *)
Theorem push_resets_the_client_name :
  (∀ db client_id client_name now,
     let db' := register_client db client_id client_name now in
     clients db' !! client_id
     = Some {| cl_name :=
                 Some (match client_name with
                       | Some n =>
                           if decide (n = "")
                           then default_client_name client_id else n
                       | None => default_client_name client_id
                       end);
               cl_last_seen_at := Some now |}
     ∧ (∀ c, c ≠ client_id → clients db' !! c = clients db !! c)
     ∧ trackers db' = trackers db ∧ entries db' = entries db
     ∧ sync_conflicts db' = sync_conflicts db
     ∧ sync_status db' = sync_status db)
  ∧ (∀ db payload now db' resp,
       sync_update db payload now = (db', Ok resp) →
       clients db' !! clientId payload
       = Some {| cl_name := Some (default_client_name (clientId payload));
                 cl_last_seen_at := Some now |}
       ∧ ∀ c, c ≠ clientId payload → clients db' !! c = clients db !! c)
  ∧ (∀ db entity_type entity_id resolution client_id client_data now,
       clients (resolve_conflict db entity_type entity_id resolution
                  client_id client_data now).1 = clients db)
  ∧ (∀ client_id,
       ∃ head rest,
         default_client_name client_id = "Client-" +:+ head
         ∧ client_id = head +:+ rest
         ∧ (str_len head ≤ 8)%nat
         ∧ ((str_len client_id ≤ 8)%nat → head = client_id))
  ∧ default_client_name "abcdefghij" = "Client-abcdefgh"
  ∧ default_client_name "éééééééééé" = "Client-éééééééé".
Proof.
  split; [|split; [|split; [|split]]].
  - intros db client_id client_name now. cbv zeta.
    unfold register_client, sync_status. simpl.
    rewrite lookup_insert_eq. split.
    + destruct client_name as [n|]; [|done].
      destruct (String.eqb_spec n ""), (decide (n = "")); done.
    + split; [|done]. intros c Hc. by rewrite lookup_insert_ne.
  - intros db payload now db' resp Hup.
    rewrite (sync_update_clients _ _ _ _ _ Hup).
    split; [apply lookup_insert_eq|].
    intros c Hc. by rewrite lookup_insert_ne.
  - intros db entity_type entity_id resolution client_id client_data now.
    unfold resolve_conflict.
    destruct (forced_payload resolution client_data) as [d|]; [|done].
    destruct (String.eqb entity_type "tracker").
    + destruct (force_tracker db entity_id client_id now d) as [db1|f]
        eqn:Hf; [|done].
      by apply force_tracker_inv in Hf as (n & c & t & _ & _ & _ & _ & ->).
    + destruct (String.eqb entity_type "entry"); [|done].
      destruct (force_entry db entity_id client_id now d) as [db1|f]
        eqn:Hf; [|done].
      by apply force_entry_inv in Hf as (d0 & t0 & x & _ & _ & _ & ->).
  - intros client_id.
    destruct (str_take_prefix 8 client_id) as [rest Hrest].
    exists (str_take 8 client_id), rest.
    split; [done|]. split; [done|].
    split; [apply str_take_len | apply str_take_all].
  - split; vm_compute; reflexivity.
Qed.

(** Witness of X16: [A] registers as [Laptop] and pushes; the row then
    names it [Client-A]. *)
Lemma push_resets_the_client_name_witness :
  let db := register_client init_database "A" (Some "Laptop") Scenario.time_0 in
  cl_name <$> clients db !! "A" = Some (Some "Laptop")
  ∧ cl_name <$> clients (sync_update db Scenario.push_A Scenario.time_A).1 !! "A"
    = Some (Some "Client-A").
Proof.
  intros db.
  destruct push_resets_the_client_name as (Hreg & Hpush & _).
  split.
  - destruct (Hreg init_database "A" (Some "Laptop") Scenario.time_0)
      as (Hrow & _).
    fold db in Hrow. rewrite Hrow. reflexivity.
  - destruct (Hpush db Scenario.push_A Scenario.time_A
                (sync_update db Scenario.push_A Scenario.time_A).1
                Scenario.resp_A) as (Hrow & _);
      [vm_compute; reflexivity|].
    change (clientId Scenario.push_A) with "A" in Hrow.
    rewrite Hrow. reflexivity.
Defined.

(** ** Entries through a push and a snapshot *)

Lemma completed_round_trip j :
  completed_json (completed_int j)
  = match j with JNull => JNull | _ => JBool (py_truthy j) end.
Proof.
  unfold completed_int.
  destruct (py_truthy j) eqn:Hj; [by destruct j|].
  by destruct j.
Qed.

Lemma real_round_trip j x :
  bind_real j = Ok x →
  real_json x
  = match j with
    | JBool b => JNum (if b then 1 else 0)
    | JNum z => JNum (to_double z)
    | _ => j
    end.
Proof.
  intros Hx%bind_real_inv. destruct j as [|b|z|s|l|l]; try done.
  - by rewrite Hx.
  - by rewrite Hx.
  - destruct Hx as [_ ->]. done.
Qed.

(** X17.  What an applied entry comes back as.  Take a completed push
    with distinct dates and tracker ids on a well-stored database, and
    an entry of it that was applied.  The response echoes the value and
    the completion as the client sent them; the full snapshot, and every
    delta snapshot taken since a time before the push, return the entry
    as stored: a boolean value as the number 0 or 1, an integer value as
    the nearest double (itself up to 2^53, so 2^53 + 1 comes back as
    2^53), a completion that is not null as the boolean of its truth
    value, the version and the stamp the response reported. *)
Theorem applied_entry_comes_back_normalised
    db payload now db' resp d m t data seven_days_ago now' :
  well_stored db →
  sync_update db payload now = (db', Ok resp) →
  NoDup (days payload).*1 →
  Forall (λ day : string * list (string * list (string * json)),
            NoDup day.2.*1) (days payload) →
  (d, m) ∈ days payload → (t, data) ∈ m →
  is_Some (days_get d t (appliedDays resp)) →
  String.leb seven_days_ago d = true →
  let value := dict_get_none "value" data in
  let completed := dict_get_none "completed" data in
  let v := entry_version db d t + 1 in
  let entry :=
    [("value", match value with
               | JBool b => JNum (if b then 1 else 0)
               | JNum z => JNum (to_double z)
               | _ => value
               end);
     ("completed", match completed with
                   | JNull => JNull
                   | _ => JBool (py_truthy completed)
                   end);
     ("_version", JNum v);
     ("_lastModifiedBy", JStr (clientId payload));
     ("_lastModifiedAt", JStr now)] in
  days_get d t (appliedDays resp)
  = Some (applied_entry value completed v (clientId payload) now)
  ∧ days_get d t (fs_days (sync_full db' seven_days_ago now')) = Some entry
  ∧ ∀ since client_id,
      String.ltb since now = true →
      days_get d t
        (ds_days (sync_delta db' since client_id seven_days_ago now'))
      = Some entry.
Proof.
  intros Hws Hup Hndd Hndm Hday Hitem Happlied Hwin. cbv zeta.
  destruct (sync_update_entry_item _ _ _ _ _ d m t data Hup Hndd Hndm
              Hday Hitem) as (v & -> & Hcase).
  destruct Hcase as [(r & sv & cbv & _ & _ & _ & _ & _ & _ & Hnone)
                    |(_ & Happ & x & Hx & Hrow)].
  { rewrite Hnone in Happlied. by destruct Happlied. }
  split; [done|].
  pose proof (well_stored_entry_version db d t Hws) as Hv.
  assert (entry_json
            (new_entry_row x (dict_get_none "completed" data)
               (entry_version db d t + 1) (clientId payload) now)
          = [("value", match dict_get_none "value" data with
                       | JBool b => JNum (if b then 1 else 0)
                       | JNum z => JNum (to_double z)
                       | _ => dict_get_none "value" data
                       end);
             ("completed", match dict_get_none "completed" data with
                           | JNull => JNull
                           | _ => JBool
                                    (py_truthy (dict_get_none "completed" data))
                           end);
             ("_version", JNum (entry_version db d t + 1));
             ("_lastModifiedBy", JStr (clientId payload));
             ("_lastModifiedAt", JStr now)]) as Hjson.
  { unfold entry_json, new_entry_row.
    cbn [en_value en_completed en_version en_last_modified_by
         en_last_modified_at text_json].
    rewrite completed_round_trip, (real_round_trip _ _ Hx).
    by rewrite version_or_1_positive by lia. }
  rewrite <- Hjson. split.
  - apply sync_full_days. by eexists.
  - intros since client_id Hsince. apply sync_delta_days.
    eexists. split; [done|]. split; [|done].
    right. by exists now.
Qed.

(** Witness of X17: [A] completes the entry of 2024-01-05 without
    resending its value; the full snapshot returns it with a null value
    and [completed] true at version 2.  [A] pushes the value 2^53 + 1
    for 2024-01-07; the response echoes it and the full snapshot returns
    2^53. *)
Lemma applied_entry_comes_back_normalised_witness :
  days_get "2024-01-05" "t1"
    (fs_days
       (sync_full
          (sync_update Scenario.db_A Scenario.push_edit Scenario.time_B).1
          Scenario.cutoff Scenario.time_C))
  = Some [("value", JNull); ("completed", JBool true); ("_version", JNum 2);
          ("_lastModifiedBy", JStr "A");
          ("_lastModifiedAt", JStr Scenario.time_B)]
  ∧ days_get "2024-01-07" "t1" (appliedDays Scenario.resp_above_2_53)
    = Some [("value", JNum 9007199254740993); ("completed", JNull);
            ("_version", JNum 1); ("_lastModifiedBy", JStr "A");
            ("_lastModifiedAt", JStr Scenario.time_B)]
  ∧ days_get "2024-01-07" "t1"
      (fs_days
         (sync_full
            (sync_update Scenario.db_A Scenario.push_above_2_53
               Scenario.time_B).1
            Scenario.cutoff Scenario.time_C))
    = Some [("value", JNum 9007199254740992); ("completed", JNull);
            ("_version", JNum 1); ("_lastModifiedBy", JStr "A");
            ("_lastModifiedAt", JStr Scenario.time_B)].
Proof.
  assert (entry_version Scenario.db_A "2024-01-05" "t1" = 1) as Hv
    by (vm_compute; reflexivity).
  assert (entry_version Scenario.db_A "2024-01-07" "t1" = 0) as Hv'
    by (vm_compute; reflexivity).
  pose proof (run_well_stored [Update Scenario.push_A Scenario.time_A])
    as Hws.
  change (well_stored Scenario.db_A) in Hws.
  split.
  - destruct (applied_entry_comes_back_normalised Scenario.db_A
                Scenario.push_edit Scenario.time_B
                (sync_update Scenario.db_A Scenario.push_edit
                   Scenario.time_B).1
                Scenario.resp_edit "2024-01-05"
                [("t1", Scenario.entry_completed_only)] "t1"
                Scenario.entry_completed_only Scenario.cutoff Scenario.time_C
                Hws)
      as (_ & Hfull & _).
    + vm_compute; reflexivity.
    + apply NoDup_singleton.
    + apply Forall_singleton, NoDup_singleton.
    + left.
    + left.
    + by eexists.
    + reflexivity.
    + rewrite Hfull, Hv. reflexivity.
  - destruct (applied_entry_comes_back_normalised Scenario.db_A
                Scenario.push_above_2_53 Scenario.time_B
                (sync_update Scenario.db_A Scenario.push_above_2_53
                   Scenario.time_B).1
                Scenario.resp_above_2_53 "2024-01-07"
                [("t1", Scenario.entry_above_2_53)] "t1"
                Scenario.entry_above_2_53 Scenario.cutoff Scenario.time_C
                Hws)
      as (Hresp & Hfull & _).
    + vm_compute; reflexivity.
    + apply NoDup_singleton.
    + apply Forall_singleton, NoDup_singleton.
    + left.
    + left.
    + by eexists.
    + reflexivity.
    + rewrite Hresp, Hfull, Hv'. split; reflexivity.
Defined.
